(** * Financial AI swarm: the risk decision pipeline

    A shallow embedding of the fraud scorer
    ([src/agents/fraud_detection/agent.py]), the compliance screener
    ([src/agents/compliance/agent.py]), the two HTTP entry points
    ([src/api/main.py], [standalone_api.py]) and the LangGraph supervisor
    ([src/orchestration/supervisor.py]).

    Conventions.
    - Python [float] values are idealised as real numbers ([R]); rounding,
      infinities and NaN are outside the model.
    - Python [str] values are [string]s whose characters are code points
      below 256.
    - A call that may raise returns [Py.exc]; the exception is kept by the
      name of its class.
    - Third-party services (the PyOD detectors, the scikit-learn scaler, the
      sentence encoder, the spend agent, the chat model, ISO date parsing)
      are arguments of the functions that call them. *)

From Stdlib Require Import Reals Lra Lia ZArith List String Ascii Bool.
From Stdlib Require Import Permutation Sorted.
Import ListNotations.

(* ================================================================== *)
(** ** The Python runtime the code relies on *)
(* ================================================================== *)

Module Py.

(** The outcome of a call: a value, or an exception that was raised. *)
Inductive exc (A : Type) : Type :=
| Ret (a : A)
| Raise (e : string).

Arguments Ret {A} a.
Arguments Raise {A} e.

Definition bind {A B : Type} (m : exc A) (k : A -> exc B) : exc B :=
  match m with
  | Ret a => k a
  | Raise e => Raise e
  end.

(** [try: body / except Exception as e: handler e] where the handler
    returns. *)
Definition try_except {A : Type} (body : exc A) (handler : string -> A) : A :=
  match body with
  | Ret a => a
  | Raise e => handler e
  end.

(** [try: body / except Exception as e: raise HTTPException(500, str(e))]. *)
Definition try_reraise {A : Type} (body : exc A) (wrap : string -> string) : exc A :=
  match body with
  | Ret a => Ret a
  | Raise e => Raise (wrap e)
  end.

Definition is_ret {A : Type} (m : exc A) : bool :=
  match m with Ret _ => true | Raise _ => false end.

(** [d.get(key, default)] on a key that may be absent. *)
Definition get {A : Type} (o : option A) (default : A) : A :=
  match o with Some v => v | None => default end.

(** [str.lower()] on code points below 256: A-Z and the Latin-1 capitals. *)
Definition lower_char (c : ascii) : ascii :=
  let n := nat_of_ascii c in
  if ((65 <=? n) && (n <=? 90))%nat
     || ((192 <=? n) && (n <=? 222) && negb (n =? 215))%nat
  then ascii_of_nat (n + 32) else c.

Fixpoint lower (s : string) : string :=
  match s with
  | EmptyString => EmptyString
  | String c rest => String (lower_char c) (lower rest)
  end.

(** [needle in hay] for strings: substring containment. *)
Fixpoint str_in (needle hay : string) : bool :=
  if String.prefix needle hay then true
  else match hay with
       | EmptyString => false
       | String _ rest => str_in needle rest
       end.

(** [x in [a, b, ...]] for a list of strings. *)
Definition list_in (x : string) (l : list string) : bool :=
  existsb (String.eqb x) l.

(** [l[i]] for a Python list: a negative index counts from the end, an
    index outside [-len, len) raises IndexError. *)
Definition index {A : Type} (l : list A) (i : Z) : exc A :=
  let n := Z.of_nat (List.length l) in
  let j := if (i <? 0)%Z then (i + n)%Z else i in
  if ((0 <=? j) && (j <? n))%Z
  then match nth_error l (Z.to_nat j) with
       | Some a => Ret a
       | None => Raise "IndexError"
       end
  else Raise "IndexError".

(** [[f(x) for x in xs]] where [f] may raise: the first exception ends the
    comprehension. *)
Fixpoint mapM {A B : Type} (f : A -> exc B) (xs : list A) : exc (list B) :=
  match xs with
  | [] => Ret []
  | x :: rest =>
      bind (f x) (fun y => bind (mapM f rest) (fun ys => Ret (y :: ys)))
  end.

(** Comparisons of floats, as booleans. *)
Definition gt (a b : R) : bool := if Rgt_dec a b then true else false.
Definition ge (a b : R) : bool := if Rge_dec a b then true else false.

(** [sum(xs)] over floats. *)
Definition sum (xs : list R) : R := fold_left Rplus xs 0%R.

End Py.

Notation "x <- m ;; k" := (Py.bind m (fun x => k))
  (at level 61, m at next level, right associativity).

(* ================================================================== *)
(** ** The interpreter's built-in [hash] on strings *)
(* ================================================================== *)

(** CPython's [hash(str)] (version 3.11 and later) is SipHash-1-3 over the
    string's bytes (one byte per character for code points below 256),
    keyed by a secret that is fixed when the process starts: drawn at
    random, or derived from PYTHONHASHSEED when that is set. Earlier
    versions key SipHash-2-4 the same way. All arithmetic is on 64-bit
    words. *)
Module CPython.

Local Open Scope Z_scope.

Definition mask64 (x : Z) : Z := Z.land x 0xffffffffffffffff.

Definition rotl (x b : Z) : Z :=
  mask64 (Z.lor (Z.shiftl x b) (Z.shiftr x (64 - b))).

Record sipstate : Type := { v0 : Z; v1 : Z; v2 : Z; v3 : Z }.

(** HALF_ROUND(a,b,c,d,s,t) of pyhash.c; the result is (a,b,c,d). *)
Definition half_round (a b c d s t : Z) : Z * Z * Z * Z :=
  let a := mask64 (a + b) in
  let c := mask64 (c + d) in
  let b := Z.lxor (rotl b s) a in
  let d := Z.lxor (rotl d t) c in
  let a := rotl a 32 in
  (a, b, c, d).

(** SINGLE_ROUND(v0,v1,v2,v3). *)
Definition single_round (st : sipstate) : sipstate :=
  let '(a, b, c, d) := half_round (v0 st) (v1 st) (v2 st) (v3 st) 13 16 in
  let '(c', b', a', d') := half_round c b a d 17 21 in
  {| v0 := a'; v1 := b'; v2 := c'; v3 := d' |}.

(** A little-endian word from at most eight bytes. *)
Fixpoint le_word (bytes : list Z) : Z :=
  match bytes with
  | [] => 0
  | b :: rest => Z.lor b (Z.shiftl (le_word rest) 8)
  end.

Definition compress (st : sipstate) (m : Z) : sipstate :=
  let st1 := single_round
    {| v0 := v0 st; v1 := v1 st; v2 := v2 st; v3 := Z.lxor (v3 st) m |} in
  {| v0 := Z.lxor (v0 st1) m; v1 := v1 st1; v2 := v2 st1; v3 := v3 st1 |}.

(** The loop over whole 8-byte words; what is left is the tail. *)
Fixpoint absorb (st : sipstate) (bytes : list Z) : sipstate * list Z :=
  match bytes with
  | b0 :: b1 :: b2 :: b3 :: b4 :: b5 :: b6 :: b7 :: rest =>
      absorb (compress st (le_word [b0; b1; b2; b3; b4; b5; b6; b7])) rest
  | _ => (st, bytes)
  end.

Definition siphash13 (k0 k1 : Z) (src : list Z) : Z :=
  let b := mask64 (Z.shiftl (Z.of_nat (List.length src)) 56) in
  let st := {| v0 := Z.lxor k0 0x736f6d6570736575;
               v1 := Z.lxor k1 0x646f72616e646f6d;
               v2 := Z.lxor k0 0x6c7967656e657261;
               v3 := Z.lxor k1 0x7465646279746573 |} in
  let '(st, tail) := absorb st src in
  let b := Z.lor b (le_word tail) in
  let st := compress st b in
  let st := {| v0 := v0 st; v1 := v1 st; v2 := Z.lxor (v2 st) 0xff; v3 := v3 st |} in
  let st := single_round (single_round (single_round st)) in
  Z.lxor (Z.lxor (v0 st) (v1 st)) (Z.lxor (v2 st) (v3 st)).

(** The process-wide secret [_Py_HashSecret.siphash]. *)
Record HashSecret : Type := { k0 : Z; k1 : Z }.

(** The bytes [lcg_urandom] derives from a non-zero PYTHONHASHSEED. *)
Fixpoint lcg_urandom (x : Z) (size : nat) : list Z :=
  match size with
  | O => []
  | S n =>
      let x := Z.land (x * 214013 + 2531011) 0xffffffff in
      Z.land (Z.shiftr x 16) 0xff :: lcg_urandom x n
  end.

(** PYTHONHASHSEED=0 disables the keying; any other value seeds the
    generator. When the variable is unset the sixteen bytes come from the
    operating system instead. *)
Definition secret_of_seed (seed : Z) : HashSecret :=
  if seed =? 0 then {| k0 := 0; k1 := 0 |}
  else let bytes := lcg_urandom seed 16 in
       {| k0 := le_word (firstn 8 bytes); k1 := le_word (skipn 8 bytes) |}.

Fixpoint bytes_of (s : string) : list Z :=
  match s with
  | EmptyString => []
  | String c rest => Z.of_nat (nat_of_ascii c) :: bytes_of rest
  end.

(** [hash(s)] as a signed 64-bit [Py_hash_t]: the empty string hashes to 0
    and the value -1 is reserved. *)
Definition hash (secret : HashSecret) (s : string) : Z :=
  match s with
  | EmptyString => 0
  | _ =>
      let x := siphash13 (k0 secret) (k1 secret) (bytes_of s) in
      let x := if 0x8000000000000000 <=? x then x - 0x10000000000000000 else x in
      if x =? -1 then -2 else x
  end.

End CPython.

(* ================================================================== *)
(** ** The request model shared by both HTTP entry points *)
(* ================================================================== *)

(** [class Transaction(BaseModel)]: the three optional fields default to
    [None]. The [gt=0] constraint on [amount] is enforced by the framework
    before the handler runs. *)
Record Transaction : Type := {
  transaction_id : string;
  amount : R;
  merchant : string;
  category : string;
  user_id : string;
  timestamp : option string;
  location : option string;
  description : option string
}.

(* ================================================================== *)
(** ** standalone_api.py *)
(* ================================================================== *)

Module Standalone.

Inductive RiskFactor : Type :=
| HighAmount (amount : R)
| ExceedsThreshold
| ElevatedAmount (amount : R).

Record FraudDict : Type := {
  risk_level : string;
  fraud_score : R;
  confidence : R;
  risk_factors : list RiskFactor;
  anomaly_scores : list (string * R)
}.

Definition simulate_fraud_detection (t : Transaction) : FraudDict :=
  let amount := amount t in
  let '(risk_level, score, risk_factors) :=
    if Py.gt amount 15000 then
      ("HIGH"%string, 0.75%R, [HighAmount amount; ExceedsThreshold])
    else if Py.gt amount 5000 then
      ("MEDIUM"%string, 0.45%R, [ElevatedAmount amount])
    else
      ("LOW"%string, 0.15%R, [])
  in
  {| risk_level := risk_level;
     fraud_score := score;
     confidence := 0.85%R;
     risk_factors := risk_factors;
     anomaly_scores :=
       [("isolation_forest"%string, (score * 0.9)%R);
        ("lof"%string, (score * 1.1)%R);
        ("knn"%string, (score * 0.95)%R)] |}.

Record ComplianceDict : Type := {
  status : string;
  sanctions_hit : bool;
  pep_hit : bool;
  risk_score : R;
  policy_violations : list string;
  recommendations : list string
}.

Definition suspicious_terms : list string :=
  ["suspicious"; "offshore"; "blocked"; "sanctioned"]%string.

Definition simulate_compliance_check (t : Transaction) : ComplianceDict :=
  let merchant := Py.lower (merchant t) in
  let sanctions_hit := existsb (fun term => Py.str_in term merchant) suspicious_terms in
  let pep_hit := Py.str_in "government" merchant || Py.str_in "official" merchant in
  let '(status, risk_score, violations) :=
    if sanctions_hit then
      ("REJECTED"%string, 0.95%R,
       [("Merchant '" ++ merchant ++ "' appears on sanctions list")%string])
    else if pep_hit then
      ("REVIEW_REQUIRED"%string, 0.65%R,
       ["Politically Exposed Person detected"%string])
    else
      ("APPROVED"%string, 0.1%R, [])
  in
  {| status := status;
     sanctions_hit := sanctions_hit;
     pep_hit := pep_hit;
     risk_score := risk_score;
     policy_violations := violations;
     recommendations :=
       match violations with
       | [] => ["Transaction approved"%string]
       | _ :: _ => ["Manual review required"%string]
       end |}.

Record SpendDict : Type := {
  total_spend : R;
  budget_utilization : R;
  spend_category : string;
  budget_limit : R;
  over_budget : bool
}.

Definition budgets : list (string * R) :=
  [("IT Services"%string, 100000%R);
   ("Travel"%string, 50000%R);
   ("Entertainment"%string, 10000%R);
   ("Consulting"%string, 75000%R);
   ("Electronics"%string, 50000%R);
   ("Other"%string, 25000%R)].

Fixpoint budgets_get (d : list (string * R)) (k : string) (default : R) : R :=
  match d with
  | [] => default
  | (k', v) :: rest => if String.eqb k k' then v else budgets_get rest k default
  end.

Definition simulate_spend_analysis (t : Transaction) : SpendDict :=
  let budget := budgets_get budgets (category t) 25000%R in
  let utilization := Rmin (amount t / budget) 1 in
  {| total_spend := amount t;
     budget_utilization := utilization;
     spend_category := category t;
     budget_limit := budget;
     over_budget := Py.gt utilization 1 |}.

Record ProcessTransactionResponse : Type := {
  resp_transaction_id : string;
  fraud_analysis : FraudDict;
  compliance_check : ComplianceDict;
  spend_analysis : SpendDict;
  overall_status : string;
  resp_timestamp : string
}.

(** The four-way decision of [process_transaction]. *)
Definition determine_overall_status (fraud_result : FraudDict)
    (compliance_result : ComplianceDict) : string :=
  if String.eqb (status compliance_result) "REJECTED" then "REJECTED"
  else if Py.list_in (risk_level fraud_result) ["HIGH"; "CRITICAL"]%string
       then "FLAGGED_FOR_REVIEW"
  else if String.eqb (status compliance_result) "REVIEW_REQUIRED"
       then "REVIEW_REQUIRED"
  else "APPROVED".

(** [process_transaction]; [now] is [datetime.now().isoformat()]. Nothing in
    the body can raise on a validated [Transaction], so the handler's
    [except] branch is never entered. *)
Definition process_transaction (now : string) (t : Transaction)
    : ProcessTransactionResponse :=
  let fraud_result := simulate_fraud_detection t in
  let compliance_result := simulate_compliance_check t in
  let spend_result := simulate_spend_analysis t in
  {| resp_transaction_id := transaction_id t;
     fraud_analysis := fraud_result;
     compliance_check := compliance_result;
     spend_analysis := spend_result;
     overall_status := determine_overall_status fraud_result compliance_result;
     resp_timestamp := now |}.

(** The one risk factor of [simulate_vendor_analysis]:
    [f"High total spend: ${total_spend:,.2f}"]. *)
Inductive VendorRiskFactor : Type :=
| HighTotalSpend (total_spend : R).

Record VendorDict : Type := {
  vendor_id : string;
  vendor_name : string;
  vendor_risk_level : string;
  vendor_risk_score : R;
  vendor_risk_factors : list VendorRiskFactor;
  vendor_total_spend : R;
  transaction_count : nat;
  avg_transaction_amount : R;
  vendor_recommendations : list string
}.

(** The decimal digits of a non-negative integer, most significant first;
    [fuel] bounds the number of digits. *)
Fixpoint decimal (fuel : nat) (n : Z) (acc : string) : string :=
  match fuel with
  | O => acc
  | S k =>
      let acc := String (ascii_of_nat (48 + Z.to_nat (n mod 10))) acc in
      if (n / 10 =? 0)%Z then acc else decimal k (n / 10)%Z acc
  end.

(** [f"{n:05d}"] for a non-negative [n]: padded with zeros to five places. *)
Definition format_05d (n : Z) : string :=
  let digits := decimal (S (Z.to_nat (Z.log2 n))) n "" in
  (string_of_list_ascii (repeat "0"%char (5 - String.length digits)) ++ digits)%string.

(** [simulate_vendor_analysis]; [secret] keys the process's [hash]. *)
Definition simulate_vendor_analysis (secret : CPython.HashSecret)
    (vendor_name : string) (transactions : list Transaction) : VendorDict :=
  let total_spend := Py.sum (map amount transactions) in
  let '(risk_level, risk_score, risk_factors) :=
    if Py.gt total_spend 50000 then
      ("HIGH"%string, 0.7%R, [HighTotalSpend total_spend])
    else if Py.gt total_spend 20000 then
      ("MEDIUM"%string, 0.4%R, [])
    else
      ("LOW"%string, 0.2%R, [])
  in
  {| vendor_id :=
       ("VND-" ++ format_05d (CPython.hash secret vendor_name mod 100000))%string;
     vendor_name := vendor_name;
     vendor_risk_level := risk_level;
     vendor_risk_score := risk_score;
     vendor_risk_factors := risk_factors;
     vendor_total_spend := total_spend;
     transaction_count := List.length transactions;
     avg_transaction_amount :=
       match transactions with
       | [] => 0%R
       | _ :: _ => (total_spend / INR (List.length transactions))%R
       end;
     vendor_recommendations :=
       if String.eqb risk_level "HIGH" then ["Monitor closely"%string]
       else ["Continue standard monitoring"%string] |}.

End Standalone.

(* ================================================================== *)
(** ** The transaction dict the agents receive *)
(* ================================================================== *)

Module Txn.

(** What the code reads off a [datetime]. *)
Record datetime : Type := { hour : Z; weekday : Z }.

(** The value stored under ['timestamp']. *)
Inductive TimestampValue : Type :=
| TsNone
| TsStr (s : string)
| TsDatetime (d : datetime).

(** A [Dict] payload, by the keys the agents look up. [None] is an absent
    key; for ['location'] the stored value may itself be Python's [None].
    The three approval flags are read for their truth value only. *)
Record Dict : Type := {
  transaction_id : option string;
  amount : option R;
  merchant : option string;
  category : option string;
  user_id : option string;
  timestamp : option TimestampValue;
  location : option (option string);
  merchant_description : option string;
  daily_transaction_count : option R;
  daily_transaction_volume : option R;
  manager_approval : bool;
  competitive_bids : bool;
  corporate_booking : bool
}.

End Txn.

(* ================================================================== *)
(** ** src/agents/fraud_detection/agent.py *)
(* ================================================================== *)

Module Fraud.

Import Txn.

(** The interpreter state and library calls [_extract_features] relies on. *)
Record Runtime : Type := {
  secret : CPython.HashSecret;
  (** [hash(None)] *)
  hash_None : Z;
  (** [datetime.fromisoformat] *)
  fromisoformat : string -> Py.exc datetime
}.

(** What one fitted detector exposes: [decision_function(X)[0]] and the
    extremes of [decision_scores_]. *)
Record DetectorRun : Type := {
  score : R;
  decision_scores_min : R;
  decision_scores_max : R
}.

(** The scikit-learn scaler and the PyOD detectors. [fit_score name X] is
    [model.fit(X)] followed by the reads of the normalisation line; any of
    them may raise. *)
Record Models : Type := {
  fit_transform : list R -> Py.exc (list R);
  fit_score : string -> list R -> Py.exc DetectorRun
}.

Inductive RiskFactor : Type :=
| HighAmount (amount : R)
| UnusualTime (hour : Z)
| WeekendTransaction
| RoundNumber
| HighVelocity (daily_count : R)
| ErrorDuringAnalysis.

Record FraudScore : Type := {
  overall_score : R;
  risk_level : string;
  anomaly_scores : list (string * R);
  risk_factors : list RiskFactor;
  confidence : R;
  model_version : string
}.

Definition THRESHOLDS_LOW : R := 0.3.
Definition THRESHOLDS_MEDIUM : R := 0.5.
Definition THRESHOLDS_HIGH : R := 0.7.
Definition THRESHOLDS_CRITICAL : R := 0.85.

(** The keys of [self.models], in insertion order. *)
Definition models : list string :=
  ["isolation_forest"; "lof"; "knn"; "cblof"; "hbos"]%string.

Definition weights : list (string * R) :=
  [("isolation_forest"%string, 0.3%R);
   ("lof"%string, 0.25%R);
   ("knn"%string, 0.2%R);
   ("cblof"%string, 0.15%R);
   ("hbos"%string, 0.1%R)].

(** [timestamp.replace('Z', '+00:00')] *)
Fixpoint replace_Z (s : string) : string :=
  match s with
  | EmptyString => EmptyString
  | String c rest =>
      if Ascii.eqb c "Z"%char then ("+00:00" ++ replace_Z rest)%string
      else String c (replace_Z rest)
  end.

(** The timestamp both feature extraction and the rule checks read: the
    stored value when the key is present, the clock otherwise; a string is
    parsed, and [None] has no [hour] attribute. *)
Definition read_timestamp (rt : Runtime) (now : datetime) (t : Dict)
    : Py.exc datetime :=
  match timestamp t with
  | None => Py.Ret now
  | Some (TsStr s) => fromisoformat rt (replace_Z s)
  | Some (TsDatetime d) => Py.Ret d
  | Some TsNone => Py.Raise "AttributeError"
  end.

(** [hash(v)] for a value that is a string or [None]. *)
Definition hash_value (rt : Runtime) (v : option string) : Z :=
  match v with
  | Some s => CPython.hash (secret rt) s
  | None => hash_None rt
  end.

Definition _extract_features (rt : Runtime) (now : datetime) (t : Dict)
    : Py.exc (list R) :=
  let amount := Py.get (amount t) 0%R in
  ts <- read_timestamp rt now t ;;
  Py.Ret
    [ amount;
      ln (1 + amount);
      IZR (hour ts);
      IZR (weekday ts);
      (if (weekday ts >=? 5)%Z then 1 else 0)%R;
      IZR (CPython.hash (secret rt) (Py.get (category t) "unknown"%string) mod 100);
      IZR (CPython.hash (secret rt) (Py.get (merchant t) "unknown"%string) mod 100);
      IZR (CPython.hash (secret rt) (Py.get (user_id t) "unknown"%string) mod 100);
      IZR (hash_value rt (Py.get (location t) (Some "unknown"%string)) mod 50);
      Py.get (daily_transaction_count t) 1%R;
      Py.get (daily_transaction_volume t) amount ].

(** [amount % 1000 == 0] *)
Definition is_multiple_of_1000 (amount : R) : bool :=
  if Req_dec_T amount (1000 * IZR (Int_part (amount / 1000))) then true else false.

Definition _calculate_risk_factors (rt : Runtime) (now : datetime) (t : Dict)
    : Py.exc (list RiskFactor) :=
  let amount := Py.get (amount t) 0%R in
  ts <- read_timestamp rt now t ;;
  let daily_count := Py.get (daily_transaction_count t) 0%R in
  Py.Ret
    ((if Py.gt amount 10000 then [HighAmount amount] else [])
     ++ (if ((hour ts <? 6) || (hour ts >? 22))%Z then [UnusualTime (hour ts)] else [])
     ++ (if (weekday ts >=? 5)%Z then [WeekendTransaction] else [])
     ++ (if is_multiple_of_1000 amount && Py.ge amount 1000 then [RoundNumber] else [])
     ++ (if Py.gt daily_count 10 then [HighVelocity daily_count] else [])).

(** The normalisation line of the detector loop. *)
Definition normalized_score (r : DetectorRun) : R :=
  (score r - decision_scores_min r)
  / (decision_scores_max r - decision_scores_min r + 1e-10).

(** One turn of the detector loop: the inner [try] stores 0.0 when the
    detector raises. *)
Definition score_model (m : Models) (features_scaled : list R) (model_name : string)
    : string * R :=
  (model_name,
   Py.try_except
     (r <- fit_score m model_name features_scaled ;; Py.Ret (normalized_score r))
     (fun _ => 0%R)).

(** [anomaly_scores.get(model, 0)] *)
Fixpoint scores_get (d : list (string * R)) (k : string) (default : R) : R :=
  match d with
  | [] => default
  | (k', v) :: rest => if String.eqb k k' then v else scores_get rest k default
  end.

Definition mean (xs : list R) : R := Py.sum xs / INR (List.length xs).

(** [np.std]: the population standard deviation. *)
Definition std (xs : list R) : R :=
  sqrt (mean (map (fun x => Rsqr (Rabs (x - mean xs))) xs)).

Definition classify (overall_score : R) : string :=
  if Py.ge overall_score THRESHOLDS_CRITICAL then "CRITICAL"
  else if Py.ge overall_score THRESHOLDS_HIGH then "HIGH"
  else if Py.ge overall_score THRESHOLDS_MEDIUM then "MEDIUM"
  else "LOW".

(** The fallback of the outer [except]. *)
Definition safe_default : FraudScore :=
  {| overall_score := 0.5;
     risk_level := "MEDIUM";
     anomaly_scores := [];
     risk_factors := [ErrorDuringAnalysis];
     confidence := 0;
     model_version := "1.0.0" |}.

(** [detect_fraud]; the clock is read once by feature extraction ([now])
    and once more by the rule checks ([now']). *)
Definition detect_fraud (rt : Runtime) (m : Models) (now now' : datetime) (t : Dict)
    : FraudScore :=
  Py.try_except
    (features <- _extract_features rt now t ;;
     features_scaled <- fit_transform m features ;;
     let anomaly_scores := map (score_model m features_scaled) models in
     let overall_score :=
       Py.sum (map (fun mw => (scores_get anomaly_scores (fst mw) 0 * snd mw)%R) weights) in
     let risk_level := classify overall_score in
     risk_factors <- _calculate_risk_factors rt now' t ;;
     let scores := map snd anomaly_scores in
     let confidence :=
       (1 - match scores with [] => 0.5 | _ :: _ => std scores end)%R in
     Py.Ret {| overall_score := overall_score;
               risk_level := risk_level;
               anomaly_scores := anomaly_scores;
               risk_factors := risk_factors;
               confidence := confidence;
               model_version := "1.0.0" |})
    (fun _ => safe_default).

End Fraud.

(* ================================================================== *)
(** ** The FAISS flat index the compliance agent searches *)
(* ================================================================== *)

(** [faiss.IndexFlatL2]: exhaustive search by squared Euclidean distance.
    [search] always fills [k] slots; when the index holds fewer than [k]
    vectors the remaining labels are -1. Stored vectors and queries all have
    the encoder's dimension. *)
Module Faiss.

Definition vector : Type := list R.

Definition IndexFlatL2 : Type := list vector.

Definition ntotal (index : IndexFlatL2) : nat := List.length index.

(** [index.add(xs)] appends, so labels are positions. *)
Definition add (index : IndexFlatL2) (xs : list vector) : IndexFlatL2 :=
  index ++ xs.

Definition l2sqr (x y : vector) : R :=
  Py.sum (map (fun p => Rsqr (fst p - snd p)) (combine x y)).

(** The stored vectors with their labels and distances to the query. *)
Fixpoint candidates (index : IndexFlatL2) (query : vector) (label : Z)
    : list (R * Z) :=
  match index with
  | [] => []
  | x :: rest => (l2sqr query x, label) :: candidates rest query (label + 1)
  end.

(** Insertion before the first entry that is not nearer: among equal
    distances the entry inserted last, which has the lowest label, leads. *)
Fixpoint insert (e : R * Z) (l : list (R * Z)) : list (R * Z) :=
  match l with
  | [] => [e]
  | h :: t => if Rle_dec (fst e) (fst h) then e :: l else h :: insert e t
  end.

Fixpoint sort (l : list (R * Z)) : list (R * Z) :=
  match l with
  | [] => []
  | e :: rest => insert e (sort rest)
  end.

(** The distance reported in an empty slot (the largest float32). *)
Definition FLT_MAX : R := 340282346638528859811704183484516925440.

(** [index.search(query, k)] for one query row: [(distances, labels)]. The
    Python wrapper asserts [k > 0]. *)
Definition search (index : IndexFlatL2) (query : vector) (k : nat)
    : Py.exc (list R * list Z) :=
  match k with
  | O => Py.Raise "AssertionError"
  | S _ =>
      let best := firstn k (sort (candidates index query 0)) in
      let missing := (k - List.length best)%nat in
      Py.Ret (map fst best ++ repeat FLT_MAX missing,
              map snd best ++ repeat (-1)%Z missing)
  end.

End Faiss.

(* ================================================================== *)
(** ** src/agents/compliance/agent.py *)
(* ================================================================== *)

Module Compliance.

Import Txn.

Record ComplianceResult : Type := {
  status : string;
  sanctions_hit : bool;
  pep_hit : bool;
  policy_violations : list string;
  risk_score : R;
  reviewed_policies : list string;
  recommendations : list string;
  result_timestamp : string
}.

Record SanctionsList : Type := {
  entity_name : string;
  entity_type : string;
  country : string;
  list_type : string;
  added_date : string;
  aliases : list string
}.

(** The sentence encoder, and [str()] of a float as an f-string prints it. *)
Record Services : Type := {
  encode : string -> Py.exc Faiss.vector;
  str_float : R -> string
}.

(** The agent's mutable attributes. [pep_list] is a [set]; its iteration
    order is whatever order the list has. *)
Record Agent : Type := {
  sanctions_lists : list SanctionsList;
  pep_list : list string;
  policy_texts : list string;
  policy_index : Faiss.IndexFlatL2
}.

Definition _load_sanctions_lists : list SanctionsList :=
  [ {| entity_name := "Suspicious Corp International";
       entity_type := "ORGANIZATION";
       country := "Country X";
       list_type := "OFAC_SDN";
       added_date := "2024-01-15";
       aliases := ["SCI"; "Sus Corp"]%string |};
    {| entity_name := "John Doe Sanctioned";
       entity_type := "INDIVIDUAL";
       country := "Country Y";
       list_type := "OFAC_SDN";
       added_date := "2023-06-20";
       aliases := ["J. Doe"; "Johnny Doe"]%string |};
    {| entity_name := "Blocked Vendor LLC";
       entity_type := "ORGANIZATION";
       country := "Country Z";
       list_type := "EU_SANCTIONS";
       added_date := "2024-03-10";
       aliases := ["BV LLC"]%string |} ].

Definition _load_pep_list : list string :=
  ["government official"; "minister of finance"; "senator"; "ambassador";
   "military general"; "central bank governor"]%string.

Definition initial_policy_texts : list string :=
  ["All transactions above $10,000 require manager approval and documented business justification.";
   "Expenses for entertainment and gifts are limited to $500 per event and must have detailed receipts.";
   "Travel expenses must be booked through approved corporate travel agency. Economy class required for flights under 6 hours.";
   "IT equipment purchases require IT department approval and must meet security standards.";
   "Vendor payments require three competitive bids for contracts over $25,000.";
   "Personal purchases or gifts using company funds are strictly prohibited.";
   "All foreign transactions must be screened for OFAC compliance before processing.";
   "Consulting services require documented statements of work and deliverables.";
   "Recurring subscriptions must be reviewed quarterly for necessity and cost optimization.";
   "Cash advances are limited to $1,000 and require repayment within 30 days with receipts."]%string.

(** [__init__]: the seeded lists, and one embedding per policy text. *)
Definition init (sv : Services) : Py.exc Agent :=
  embeddings <- Py.mapM (encode sv) initial_policy_texts ;;
  Py.Ret {| sanctions_lists := _load_sanctions_lists;
            pep_list := _load_pep_list;
            policy_texts := initial_policy_texts;
            policy_index := Faiss.add [] embeddings |}.

(** [a in b or b in a] on the lower-cased names. *)
Definition either_contains (listed entity_lower : string) : bool :=
  Py.str_in (Py.lower listed) entity_lower
  || Py.str_in entity_lower (Py.lower listed).

(** The body of the loop over [self.sanctions_lists]: at most one match
    per entry, the main name first, then the first matching alias. *)
Definition match_sanction (entity_lower : string) (sanction : SanctionsList)
    : list string :=
  if either_contains (entity_name sanction) entity_lower then
    [("Matched " ++ list_type sanction ++ ": " ++ entity_name sanction)%string]
  else
    match find (fun alias => either_contains alias entity_lower) (aliases sanction) with
    | Some alias =>
        [("Matched " ++ list_type sanction ++ " alias: " ++ alias ++ " -> "
          ++ entity_name sanction)%string]
    | None => []
    end.

Definition _check_sanctions (a : Agent) (entity_name : string)
    : bool * list string :=
  let entity_lower := Py.lower entity_name in
  let matches := flat_map (match_sanction entity_lower) (sanctions_lists a) in
  ((0 <? List.length matches)%nat, matches).

Definition _check_pep (a : Agent) (entity_description : string)
    : bool * list string :=
  let desc_lower := Py.lower entity_description in
  let matches :=
    flat_map (fun pep_term =>
                if Py.str_in pep_term desc_lower
                then [("PEP indicator: " ++ pep_term)%string] else [])
             (pep_list a) in
  ((0 <? List.length matches)%nat, matches).

(** The query text built from the transaction. *)
Definition query_of (sv : Services) (t : Dict) : string :=
  ("Transaction amount $"
   ++ match amount t with Some x => str_float sv x | None => "0" end
   ++ " Category: " ++ Py.get (category t) "unknown"
   ++ " Merchant: " ++ Py.get (merchant t) "unknown")%string.

Definition _retrieve_relevant_policies (sv : Services) (a : Agent) (t : Dict)
    (k : nat) : Py.exc (list string) :=
  query_embedding <- encode sv (query_of sv t) ;;
  found <- Faiss.search (policy_index a) query_embedding k ;;
  Py.mapM (fun idx => Py.index (policy_texts a) idx) (snd found).

(** The violations one retrieved policy contributes. *)
Definition policy_checks (t : Dict) (amount : R) (category policy : string)
    : list string :=
  let policy_lower := Py.lower policy in
  let violation := ("Policy violation: " ++ policy)%string in
  (if Py.str_in "above $10,000" policy_lower && Py.gt amount 10000
      && negb (manager_approval t) then [violation] else [])
  ++ (if Py.str_in "above $25,000" policy_lower && Py.gt amount 25000
         && negb (competitive_bids t) then [violation] else [])
  ++ (if Py.str_in "entertainment" policy_lower && Py.str_in "entertainment" category
         && Py.gt amount 500 then [violation] else [])
  ++ (if Py.str_in "travel" policy_lower && Py.str_in "travel" category
         && negb (corporate_booking t) then [violation] else []).

Definition _check_policy_violations (t : Dict) (policies : list string)
    : list string :=
  let amount := Py.get (amount t) 0%R in
  let category := Py.lower (Py.get (category t) ""%string) in
  flat_map (policy_checks t amount category) policies.

Definition calculate_risk_score (sanctions_hit pep_hit : bool)
    (policy_violations : list string) : R :=
  let risk_score := 0%R in
  let risk_score := if sanctions_hit then (risk_score + 0.8)%R else risk_score in
  let risk_score := if pep_hit then (risk_score + 0.3)%R else risk_score in
  let risk_score := (risk_score + INR (List.length policy_violations) * 0.1)%R in
  Rmin risk_score 1.

Definition determine_status (sanctions_hit pep_hit : bool)
    (policy_violations : list string) (risk_score : R) : string :=
  if sanctions_hit then "REJECTED"
  else if pep_hit || (2 <? List.length policy_violations)%nat || Py.gt risk_score 0.7
       then "REVIEW_REQUIRED"
  else if (0 <? List.length policy_violations)%nat then "REVIEW_REQUIRED"
  else "APPROVED".

Definition generate_recommendations (sanctions_hit pep_hit : bool)
    (sanction_matches pep_matches policy_violations : list string)
    (status : string) (amount : R) : list string :=
  (if sanctions_hit
   then "IMMEDIATE ESCALATION: Sanctions match detected"%string :: sanction_matches
   else [])
  ++ (if pep_hit
      then "Enhanced due diligence required for PEP"%string :: pep_matches
      else [])
  ++ (match policy_violations with
      | [] => []
      | _ :: _ => ["Resolve policy violations before approval"%string]
      end)
  ++ (if String.eqb status "APPROVED" && Py.gt amount 5000
      then ["Consider additional documentation for audit trail"%string]
      else []).

(** [check_compliance]; [now] is [datetime.now().isoformat()]. Retrieval is
    the only step that may raise, and nothing catches it here. *)
Definition check_compliance (sv : Services) (a : Agent) (now : string) (t : Dict)
    : Py.exc ComplianceResult :=
  let merchant := Py.get (merchant t) "Unknown"%string in
  let amount := Py.get (amount t) 0%R in
  let '(sanctions_hit, sanction_matches) := _check_sanctions a merchant in
  let merchant_description := Py.get (merchant_description t) merchant in
  let '(pep_hit, pep_matches) := _check_pep a merchant_description in
  relevant_policies <- _retrieve_relevant_policies sv a t 3 ;;
  let policy_violations := _check_policy_violations t relevant_policies in
  let risk_score := calculate_risk_score sanctions_hit pep_hit policy_violations in
  let status := determine_status sanctions_hit pep_hit policy_violations risk_score in
  let recommendations :=
    generate_recommendations sanctions_hit pep_hit sanction_matches pep_matches
      policy_violations status amount in
  Py.Ret {| status := status;
            sanctions_hit := sanctions_hit;
            pep_hit := pep_hit;
            policy_violations := policy_violations;
            risk_score := risk_score;
            reviewed_policies := relevant_policies;
            recommendations := recommendations;
            result_timestamp := now |}.

(** [update_sanctions_list]: [self.sanctions_lists.extend(new_entries)]. *)
Definition update_sanctions_list (a : Agent) (new_entries : list SanctionsList)
    : Agent :=
  {| sanctions_lists := sanctions_lists a ++ new_entries;
     pep_list := pep_list a;
     policy_texts := policy_texts a;
     policy_index := policy_index a |}.

(** [add_policy]: the text is appended first and the encoder is called
    after; when the encoder raises, the exception leaves the method with
    the text already appended and the index as it was. The result is the
    agent after the call together with the call's outcome. *)
Definition add_policy (sv : Services) (a : Agent) (policy_text : string)
    : Agent * Py.exc unit :=
  let texts := (policy_texts a ++ [policy_text])%list in
  match encode sv policy_text with
  | Py.Ret new_embedding =>
      ({| sanctions_lists := sanctions_lists a;
          pep_list := pep_list a;
          policy_texts := texts;
          policy_index := Faiss.add (policy_index a) [new_embedding] |},
       Py.Ret tt)
  | Py.Raise e =>
      ({| sanctions_lists := sanctions_lists a;
          pep_list := pep_list a;
          policy_texts := texts;
          policy_index := policy_index a |},
       Py.Raise e)
  end.

End Compliance.

(* ================================================================== *)
(** ** src/api/main.py *)
(* ================================================================== *)

Module Api.

(** What the handler reads off the spend agent's result. *)
Record SpendAnalysis : Type := {
  total_spend : R;
  budget_utilization : R
}.

(** The singletons behind [get_fraud_agent], [get_compliance_agent] and
    [get_spend_agent], with the services they call. *)
Record Agents : Type := {
  runtime : Fraud.Runtime;
  detectors : Fraud.Models;
  services : Compliance.Services;
  compliance_agent : Compliance.Agent;
  analyze_spending : list Txn.Dict -> Py.exc SpendAnalysis
}.

(** The readings of [datetime.now()] during one request, in call order. *)
Record Clock : Type := {
  now_features : Txn.datetime;
  now_rules : Txn.datetime;
  now_compliance : string;
  now_response : string
}.

(** [transaction.model_dump()]: every declared field is a key; an optional
    field left out by the client is stored as [None]. *)
Definition model_dump (t : Transaction) : Txn.Dict :=
  {| Txn.transaction_id := Some (transaction_id t);
     Txn.amount := Some (amount t);
     Txn.merchant := Some (merchant t);
     Txn.category := Some (category t);
     Txn.user_id := Some (user_id t);
     Txn.timestamp :=
       Some (match timestamp t with
             | Some s => Txn.TsStr s
             | None => Txn.TsNone
             end);
     Txn.location := Some (location t);
     Txn.merchant_description := None;
     Txn.daily_transaction_count := None;
     Txn.daily_transaction_volume := None;
     Txn.manager_approval := false;
     Txn.competitive_bids := false;
     Txn.corporate_booking := false |}.

Record FraudAnalysis : Type := {
  fa_risk_level : string;
  fa_score : R;
  fa_confidence : R;
  fa_risk_factors : list Fraud.RiskFactor
}.

Record ComplianceCheck : Type := {
  cc_status : string;
  cc_sanctions_hit : bool;
  cc_pep_hit : bool;
  cc_risk_score : R;
  cc_violations : list string
}.

Record SpendSummary : Type := {
  ss_total_spend : R;
  ss_budget_utilization : R;
  ss_category : string
}.

Record ProcessTransactionResponse : Type := {
  resp_transaction_id : string;
  fraud_analysis : FraudAnalysis;
  compliance_check : ComplianceCheck;
  spend_analysis : SpendSummary;
  overall_status : string;
  resp_timestamp : string
}.

(** The four-way decision of [process_transaction]. *)
Definition determine_overall_status (fraud_result : Fraud.FraudScore)
    (compliance_result : Compliance.ComplianceResult) : string :=
  if String.eqb (Compliance.status compliance_result) "REJECTED" then "REJECTED"
  else if Py.list_in (Fraud.risk_level fraud_result) ["HIGH"; "CRITICAL"]%string
       then "FLAGGED_FOR_REVIEW"
  else if String.eqb (Compliance.status compliance_result) "REVIEW_REQUIRED"
       then "REVIEW_REQUIRED"
  else "APPROVED".

(** [raise HTTPException(status_code=500, detail=str(e))] *)
Definition http_500 (e : string) : string :=
  ("HTTPException(500): " ++ e)%string.

(** The response object the handler returns. *)
Definition response (t : Transaction) (fraud_result : Fraud.FraudScore)
    (compliance_result : Compliance.ComplianceResult)
    (spend_result : SpendAnalysis) (overall_status now : string)
    : ProcessTransactionResponse :=
  {| resp_transaction_id := transaction_id t;
     fraud_analysis :=
       {| fa_risk_level := Fraud.risk_level fraud_result;
          fa_score := Fraud.overall_score fraud_result;
          fa_confidence := Fraud.confidence fraud_result;
          fa_risk_factors := Fraud.risk_factors fraud_result |};
     compliance_check :=
       {| cc_status := Compliance.status compliance_result;
          cc_sanctions_hit := Compliance.sanctions_hit compliance_result;
          cc_pep_hit := Compliance.pep_hit compliance_result;
          cc_risk_score := Compliance.risk_score compliance_result;
          cc_violations := Compliance.policy_violations compliance_result |};
     spend_analysis :=
       {| ss_total_spend := total_spend spend_result;
          ss_budget_utilization := budget_utilization spend_result;
          ss_category := category t |};
     overall_status := overall_status;
     resp_timestamp := now |}.

(** The fraud step of the handler. *)
Definition fraud_step (ag : Agents) (ck : Clock) (t : Transaction)
    : Fraud.FraudScore :=
  Fraud.detect_fraud (runtime ag) (detectors ag)
    (now_features ck) (now_rules ck) (model_dump t).

(** The compliance step of the handler. *)
Definition compliance_step (ag : Agents) (ck : Clock) (t : Transaction)
    : Py.exc Compliance.ComplianceResult :=
  Compliance.check_compliance (services ag) (compliance_agent ag)
    (now_compliance ck) (model_dump t).

(** [process_transaction]: the three agents in turn, the decision, and the
    handler's [except] clause around all of it. *)
Definition process_transaction (ag : Agents) (ck : Clock) (t : Transaction)
    : Py.exc ProcessTransactionResponse :=
  Py.try_reraise
    (let fraud_result := fraud_step ag ck t in
     compliance_result <- compliance_step ag ck t ;;
     spend_result <- analyze_spending ag [model_dump t] ;;
     let overall_status := determine_overall_status fraud_result compliance_result in
     Py.Ret (response t fraud_result compliance_result spend_result
               overall_status (now_response ck)))
    http_500.

Record BatchResponse : Type := {
  processed_count : nat;
  results : list ProcessTransactionResponse;
  batch_timestamp : string
}.

(** The loop of [batch_process]: the requests are processed in order, each
    with its own clock readings, and the first exception ends the loop. *)
Fixpoint process_each (ag : Agents) (clock : nat -> Clock) (i : nat)
    (transactions : list Transaction) : Py.exc (list ProcessTransactionResponse) :=
  match transactions with
  | [] => Py.Ret []
  | t :: rest =>
      result <- process_transaction ag (clock i) t ;;
      results <- process_each ag clock (S i) rest ;;
      Py.Ret (result :: results)
  end.

(** [batch_process]; [now] is [datetime.now().isoformat()] at the end. The
    handler's own [except] clause wraps whatever a request raised once
    more. *)
Definition batch_process (ag : Agents) (clock : nat -> Clock) (now : string)
    (transactions : list Transaction) : Py.exc BatchResponse :=
  Py.try_reraise
    (results <- process_each ag clock 0 transactions ;;
     Py.Ret {| processed_count := List.length results;
               results := results;
               batch_timestamp := now |})
    http_500.

End Api.

(* ================================================================== *)
(** ** src/orchestration/supervisor.py *)
(* ================================================================== *)

Module Supervisor.

(** The ["result"] entry of one decision-log record. The payloads of the
    four collaborating agents (spend, vendor, explanation, learning) are
    not read by anything modelled here. *)
Inductive DecisionResult : Type :=
| FraudFindings (risk_level : string) (overall_score : R)
    (risk_factors : list Fraud.RiskFactor) (confidence : R)
| ComplianceFindings (status : string) (risk_score : R)
    (sanctions_hit pep_hit : bool) (findings : list string)
| CollaboratorFindings
| Failed (error : string).

Record Decision : Type := {
  agent : string;
  decided_at : string;
  result : DecisionResult
}.

(** [AgentState], without the message log and the collaborators' dicts. *)
Record AgentState : Type := {
  next : string;
  transaction_data : Txn.Dict;
  fraud_score : R;
  compliance_status : string;
  agent_decisions : list Decision
}.

(** [FinancialOrchestrator]: [model] is [None] unless [use_llm] was set;
    when present it stands for [self.model.invoke(messages).content.strip()].
    [collaborate] runs one of the four collaborating agents and returns the
    log payload, if it logs one. [recursion_limit] bounds the supervisor's
    turns in one graph run. *)
Record Orchestrator : Type := {
  model : option (AgentState -> Py.exc string);
  runtime : Fraud.Runtime;
  detectors : Fraud.Models;
  services : Compliance.Services;
  compliance_agent : Compliance.Agent;
  collaborate : string -> AgentState -> Py.exc (option DecisionResult);
  recursion_limit : nat
}.

(** The keys of [self.agents]. *)
Definition agents : list string :=
  ["fraud_detection"; "compliance"; "spend_analysis"; "vendor_analysis";
   "explanation"; "learning"]%string.

Definition supervisor_node (o : Orchestrator) (state : AgentState)
    : Py.exc string :=
  match model o with
  | None => Py.Raise "AttributeError"
  | Some invoke =>
      next_agent <- invoke state ;;
      Py.Ret (if negb (Py.list_in next_agent agents)
                 && negb (String.eqb next_agent "FINISH")
              then "fraud_detection"%string
              else next_agent)
  end.

Definition log (state : AgentState) (agent_name now : string)
    (r : DecisionResult) : list Decision :=
  agent_decisions state
  ++ [{| agent := agent_name; decided_at := now; result := r |}].

(** [agent_node]: the node function of one agent. Whatever the agent
    raises is caught and logged as a failed decision. *)
Definition agent_node (o : Orchestrator) (ck : Api.Clock) (agent_name : string)
    (state : AgentState) : AgentState :=
  let transaction_data := transaction_data state in
  if String.eqb agent_name "fraud_detection" then
    let fraud_result :=
      Fraud.detect_fraud (runtime o) (detectors o)
        (Api.now_features ck) (Api.now_rules ck) transaction_data in
    {| next := next state;
       transaction_data := transaction_data;
       fraud_score := Fraud.overall_score fraud_result;
       compliance_status := compliance_status state;
       agent_decisions :=
         log state agent_name (Api.now_response ck)
           (FraudFindings (Fraud.risk_level fraud_result)
              (Fraud.overall_score fraud_result)
              (Fraud.risk_factors fraud_result)
              (Fraud.confidence fraud_result)) |}
  else if String.eqb agent_name "compliance" then
    match Compliance.check_compliance (services o) (compliance_agent o)
            (Api.now_compliance ck) transaction_data with
    | Py.Ret compliance_result =>
        {| next := next state;
           transaction_data := transaction_data;
           fraud_score := fraud_score state;
           compliance_status := Compliance.status compliance_result;
           agent_decisions :=
             log state agent_name (Api.now_response ck)
               (ComplianceFindings (Compliance.status compliance_result)
                  (Compliance.risk_score compliance_result)
                  (Compliance.sanctions_hit compliance_result)
                  (Compliance.pep_hit compliance_result)
                  (Compliance.policy_violations compliance_result)) |}
    | Py.Raise e =>
        {| next := next state;
           transaction_data := transaction_data;
           fraud_score := fraud_score state;
           compliance_status := compliance_status state;
           agent_decisions := log state agent_name (Api.now_response ck) (Failed e) |}
    end
  else
    {| next := next state;
       transaction_data := transaction_data;
       fraud_score := fraud_score state;
       compliance_status := compliance_status state;
       agent_decisions :=
         match collaborate o agent_name state with
         | Py.Ret (Some r) => log state agent_name (Api.now_response ck) r
         | Py.Ret None => agent_decisions state
         | Py.Raise e => log state agent_name (Api.now_response ck) (Failed e)
         end |}.

Definition set_next (state : AgentState) (n : string) : AgentState :=
  {| next := n;
     transaction_data := transaction_data state;
     fraud_score := fraud_score state;
     compliance_status := compliance_status state;
     agent_decisions := agent_decisions state |}.

(** [self.graph.ainvoke]: the supervisor is the entry point, routes to an
    agent or to END on "FINISH", and every agent leads back to the
    supervisor. A node's exception leaves the graph; so does running past
    the recursion limit. [turns] counts the supervisor's remaining turns. *)
Fixpoint ainvoke (o : Orchestrator) (clock : nat -> Api.Clock) (turns : nat)
    (state : AgentState) : Py.exc AgentState :=
  match turns with
  | O => Py.Raise "GraphRecursionError"
  | S n =>
      next_agent <- supervisor_node o state ;;
      let state := set_next state next_agent in
      if String.eqb next_agent "FINISH" then Py.Ret state
      else ainvoke o clock n (agent_node o (clock n) next_agent state)
  end.

Record Results : Type := {
  res_transaction_id : option string;
  res_fraud_score : R;
  res_compliance_status : string;
  res_agent_decisions : list Decision;
  res_status : string
}.

Definition _format_results (state : AgentState) : Results :=
  {| res_transaction_id := Txn.transaction_id (transaction_data state);
     res_fraud_score := fraud_score state;
     res_compliance_status := compliance_status state;
     res_agent_decisions := agent_decisions state;
     res_status := "completed" |}.

Definition initial_state (transaction_data : Txn.Dict) : AgentState :=
  {| next := "supervisor";
     transaction_data := transaction_data;
     fraud_score := 0;
     compliance_status := "pending";
     agent_decisions := [] |}.

(** [process_transaction]: the [except] clause logs and re-raises. *)
Definition process_transaction (o : Orchestrator) (clock : nat -> Api.Clock)
    (transaction_data : Txn.Dict) : Py.exc Results :=
  final_state <- ainvoke o clock (recursion_limit o) (initial_state transaction_data) ;;
  Py.Ret (_format_results final_state).

End Supervisor.

(* ================================================================== *)
(** ** Stand-ins for the external services *)
(* ================================================================== *)

(** Concrete instances of the services, the clock and a few requests, for
    statements about one particular run. *)
Module Scenario.

(** A process started with PYTHONHASHSEED=1 whose date parser returns a
    Wednesday morning for any text. *)
Definition runtime : Fraud.Runtime :=
  {| Fraud.secret := CPython.secret_of_seed 1;
     Fraud.hash_None := 0;
     Fraud.fromisoformat := fun _ => Py.Ret {| Txn.hour := 10; Txn.weekday := 2 |} |}.

(** The same process started with PYTHONHASHSEED=2. *)
Definition runtime_restarted : Fraud.Runtime :=
  {| Fraud.secret := CPython.secret_of_seed 2;
     Fraud.hash_None := 0;
     Fraud.fromisoformat := fun _ => Py.Ret {| Txn.hour := 10; Txn.weekday := 2 |} |}.

(** Every detector raises. *)
Definition failing_detectors : Fraud.Models :=
  {| Fraud.fit_transform := fun x => Py.Ret (map (fun _ => 0%R) x);
     Fraud.fit_score := fun _ _ => Py.Raise "ValueError" |}.

(** Every detector returns the same value for the sample and for both
    extremes of its training scores: the one-sample fit. *)
Definition single_sample_detectors : Fraud.Models :=
  {| Fraud.fit_transform := fun x => Py.Ret (map (fun _ => 0%R) x);
     Fraud.fit_score := fun _ _ =>
       Py.Ret {| Fraud.score := 0.5;
                 Fraud.decision_scores_min := 0.5;
                 Fraud.decision_scores_max := 0.5 |} |}.

(** An encoder that maps every text to the origin of the plane. *)
Definition services : Compliance.Services :=
  {| Compliance.encode := fun _ => Py.Ret [0%R; 0%R];
     Compliance.str_float := fun _ => "450.0"%string |}.


(** The agent as [__init__] leaves it under [services]. *)
Definition compliance_agent : Compliance.Agent :=
  {| Compliance.sanctions_lists := Compliance._load_sanctions_lists;
     Compliance.pep_list := Compliance._load_pep_list;
     Compliance.policy_texts := Compliance.initial_policy_texts;
     Compliance.policy_index := repeat [0%R; 0%R] 10 |}.

Definition spend_ok (_ : list Txn.Dict) : Py.exc Api.SpendAnalysis :=
  Py.Ret {| Api.total_spend := 450; Api.budget_utilization := 0.0225 |}.

Definition agents (m : Fraud.Models) (sv : Compliance.Services) : Api.Agents :=
  {| Api.runtime := runtime;
     Api.detectors := m;
     Api.services := sv;
     Api.compliance_agent := compliance_agent;
     Api.analyze_spending := spend_ok |}.

Definition clock : Api.Clock :=
  {| Api.now_features := {| Txn.hour := 9; Txn.weekday := 0 |};
     Api.now_rules := {| Txn.hour := 9; Txn.weekday := 0 |};
     Api.now_compliance := "2025-01-15T09:00:00.000001";
     Api.now_response := "2025-01-15T09:00:00.000002" |}.

(** The end-to-end request of the specification that must be approved. *)
Definition office_depot : Transaction :=
  {| transaction_id := "TXN-1";
     amount := 450;
     merchant := "Office Depot";
     category := "Office Supplies";
     user_id := "EMP-001";
     timestamp := Some "2025-01-15T10:30:00Z"%string;
     location := None;
     description := None |}.

(** The same request sent without a timestamp. *)
Definition office_depot_untimed : Transaction :=
  {| transaction_id := "TXN-1";
     amount := 450;
     merchant := "Office Depot";
     category := "Office Supplies";
     user_id := "EMP-001";
     timestamp := None;
     location := None;
     description := None |}.

(** The end-to-end request of the specification that must be rejected. *)
Definition suspicious_corp : Transaction :=
  {| transaction_id := "TXN-2";
     amount := 50000;
     merchant := "Suspicious Corp International";
     category := "Consulting";
     user_id := "EMP-001";
     timestamp := Some "2025-01-15T10:30:00Z"%string;
     location := None;
     description := None |}.

(** A request whose merchant is the empty string. *)
Definition blank_merchant : Transaction :=
  {| transaction_id := "TXN-3";
     amount := 450;
     merchant := "";
     category := "Office Supplies";
     user_id := "EMP-001";
     timestamp := Some "2025-01-15T10:30:00Z"%string;
     location := None;
     description := None |}.


End Scenario.

(* ================================================================== *)
(** ** The specification's rules, in its own words *)
(* ================================================================== *)

(** The final aggregation rule: compliance REJECTED wins; otherwise a HIGH
    or CRITICAL fraud tier flags the transaction; otherwise compliance
    REVIEW_REQUIRED is passed on; otherwise the transaction is approved. *)
Definition follows_precedence (compliance_status risk_level overall : string)
    : Prop :=
  (compliance_status = "REJECTED"%string -> overall = "REJECTED"%string)
  /\ (compliance_status <> "REJECTED"%string ->
      (risk_level = "HIGH"%string \/ risk_level = "CRITICAL"%string) ->
      overall = "FLAGGED_FOR_REVIEW"%string)
  /\ (compliance_status <> "REJECTED"%string ->
      ~ (risk_level = "HIGH"%string \/ risk_level = "CRITICAL"%string) ->
      compliance_status = "REVIEW_REQUIRED"%string ->
      overall = "REVIEW_REQUIRED"%string)
  /\ (compliance_status <> "REJECTED"%string ->
      ~ (risk_level = "HIGH"%string \/ risk_level = "CRITICAL"%string) ->
      compliance_status <> "REVIEW_REQUIRED"%string ->
      overall = "APPROVED"%string).

(** What [check_compliance] builds once retrieval has returned
    [relevant_policies]. *)
Definition assessment (a : Compliance.Agent) (now : string) (t : Txn.Dict)
    (relevant_policies : list string) : Compliance.ComplianceResult :=
  let merchant := Py.get (Txn.merchant t) "Unknown"%string in
  let amount := Py.get (Txn.amount t) 0%R in
  let sanctions := Compliance._check_sanctions a merchant in
  let pep :=
    Compliance._check_pep a (Py.get (Txn.merchant_description t) merchant) in
  let policy_violations :=
    Compliance._check_policy_violations t relevant_policies in
  let risk_score :=
    Compliance.calculate_risk_score (fst sanctions) (fst pep) policy_violations in
  let status :=
    Compliance.determine_status (fst sanctions) (fst pep) policy_violations
      risk_score in
  {| Compliance.status := status;
     Compliance.sanctions_hit := fst sanctions;
     Compliance.pep_hit := fst pep;
     Compliance.policy_violations := policy_violations;
     Compliance.risk_score := risk_score;
     Compliance.reviewed_policies := relevant_policies;
     Compliance.recommendations :=
       Compliance.generate_recommendations (fst sanctions) (fst pep)
         (snd sanctions) (snd pep) policy_violations status amount;
     Compliance.result_timestamp := now |}.

(** The policy text a label of the index stands for. *)
Definition text_at (a : Compliance.Agent) (label : Z) : string :=
  nth (Z.to_nat label) (Compliance.policy_texts a) ""%string.

(** What retrieval returns for the query embedding [q]: the texts of the
    [k] nearest labels, then one copy of the last text per padded slot. *)
Definition retrieved (a : Compliance.Agent) (q : Faiss.vector) (k : nat)
    : list string :=
  map (text_at a)
      (map snd
         (firstn k (Faiss.sort (Faiss.candidates (Compliance.policy_index a) q 0))))
  ++ repeat (last (Compliance.policy_texts a) ""%string)
            (k - Faiss.ntotal (Compliance.policy_index a)).

(** The evidence line recorded when an entry matches on its main name. *)
Definition main_name_match (sanction : Compliance.SanctionsList) : string :=
  ("Matched " ++ Compliance.list_type sanction ++ ": "
   ++ Compliance.entity_name sanction)%string.

(** The per-detector scores of one run over the scaled features. *)
Definition anomaly_scores_of (m : Fraud.Models) (features_scaled : list R)
    : list (string * R) :=
  map (Fraud.score_model m features_scaled) Fraud.models.

(** The ensemble line: each weight times the score stored under its name. *)
Definition weighted_sum (scores : list (string * R)) : R :=
  Py.sum (map (fun mw => (Fraud.scores_get scores (fst mw) 0 * snd mw)%R)
              Fraud.weights).

(** The assessment [detect_fraud] builds when nothing reaches the outer
    handler. *)
Definition scored (m : Fraud.Models) (features_scaled : list R)
    (risk_factors : list Fraud.RiskFactor) : Fraud.FraudScore :=
  {| Fraud.overall_score := weighted_sum (anomaly_scores_of m features_scaled);
     Fraud.risk_level :=
       Fraud.classify (weighted_sum (anomaly_scores_of m features_scaled));
     Fraud.anomaly_scores := anomaly_scores_of m features_scaled;
     Fraud.risk_factors := risk_factors;
     Fraud.confidence :=
       (1 - Fraud.std (map snd (anomaly_scores_of m features_scaled)))%R;
     Fraud.model_version := "1.0.0" |}.

(** The score the loop stores for one detector. *)
Definition stored_score (m : Fraud.Models) (features_scaled : list R)
    (model_name : string) : R :=
  snd (Fraud.score_model m features_scaled model_name).

(** A detector ran and scored the sample within the range of its training
    scores, or it raised. *)
Definition in_range_or_failed (m : Fraud.Models) (features_scaled : list R)
    (model_name : string) : Prop :=
  match Fraud.fit_score m model_name features_scaled with
  | Py.Ret r =>
      (Fraud.decision_scores_min r <= Fraud.score r <= Fraud.decision_scores_max r)%R
  | Py.Raise _ => True
  end.




(** The disposition that the compliance status gives on its own. *)
Definition compliance_alone (compliance_status : string) : string :=
  if String.eqb compliance_status "REJECTED" then "REJECTED"
  else if String.eqb compliance_status "REVIEW_REQUIRED" then "REVIEW_REQUIRED"
  else "APPROVED".

(** Nearer first, and among equal distances the lower label first. *)
Definition nearer_or_earlier (e1 e2 : R * Z) : Prop :=
  (fst e1 < fst e2)%R \/ (fst e1 = fst e2 /\ (snd e1 <= snd e2)%Z).

(** The position of a tier in LOW < MEDIUM < HIGH < CRITICAL. *)
Definition tier_rank (tier : string) : nat :=
  if String.eqb tier "LOW" then 0
  else if String.eqb tier "MEDIUM" then 1
  else if String.eqb tier "HIGH" then 2
  else if String.eqb tier "CRITICAL" then 3
  else 4.

(** A listed name or alias matches an entity name: one contains the other
    once both are lower-cased. *)
Definition entry_matches (sanction : Compliance.SanctionsList)
    (entity_name : string) : Prop :=
  Compliance.either_contains (Compliance.entity_name sanction)
    (Py.lower entity_name) = true
  \/ exists alias,
       In alias (Compliance.aliases sanction)
       /\ Compliance.either_contains alias (Py.lower entity_name) = true.

(** Texts and index of an agent are in step. *)
Definition aligned (a : Compliance.Agent) : Prop :=
  List.length (Compliance.policy_texts a) = Faiss.ntotal (Compliance.policy_index a).

(** A logged decision backs a reported fraud score: it is a decision of
    the fraud agent that carries this score. *)
Definition backs_score (d : Supervisor.Decision) (score : R) : Prop :=
  Supervisor.agent d = "fraud_detection"%string
  /\ exists risk_level risk_factors confidence,
       Supervisor.result d
       = Supervisor.FraudFindings risk_level score risk_factors confidence.

(** A logged decision backs a reported compliance status. *)
Definition backs_status (d : Supervisor.Decision) (status : string) : Prop :=
  Supervisor.agent d = "compliance"%string
  /\ exists risk_score sanctions_hit pep_hit findings,
       Supervisor.result d
       = Supervisor.ComplianceFindings status risk_score sanctions_hit pep_hit
           findings.

(** The score and the status of a state are the initial ones or are backed
    by its log. *)
Definition backed (st : Supervisor.AgentState) : Prop :=
  (Supervisor.fraud_score st = 0%R
   \/ exists d, In d (Supervisor.agent_decisions st)
                /\ backs_score d (Supervisor.fraud_score st))
  /\ (Supervisor.compliance_status st = "pending"%string
      \/ exists d, In d (Supervisor.agent_decisions st)
                   /\ backs_status d (Supervisor.compliance_status st)).

(* ================================================================== *)
(** ** Further stand-ins *)
(* ================================================================== *)

Module Cases.

(** An orchestrator whose chat model always routes to the compliance
    agent and never answers FINISH. *)
Definition looping_orchestrator : Supervisor.Orchestrator :=
  {| Supervisor.model := Some (fun _ => Py.Ret "compliance"%string);
     Supervisor.runtime := Scenario.runtime;
     Supervisor.detectors := Scenario.failing_detectors;
     Supervisor.services := Scenario.services;
     Supervisor.compliance_agent := Scenario.compliance_agent;
     Supervisor.collaborate := fun _ _ => Py.Ret None;
     Supervisor.recursion_limit := 25 |}.

(** An orchestrator whose chat model answers FINISH at once. *)
Definition finishing_orchestrator : Supervisor.Orchestrator :=
  {| Supervisor.model := Some (fun _ => Py.Ret "FINISH"%string);
     Supervisor.runtime := Scenario.runtime;
     Supervisor.detectors := Scenario.failing_detectors;
     Supervisor.services := Scenario.services;
     Supervisor.compliance_agent := Scenario.compliance_agent;
     Supervisor.collaborate := fun _ _ => Py.Ret None;
     Supervisor.recursion_limit := 25 |}.

(** An orchestrator whose chat model routes to the fraud agent on its
    first turn and answers FINISH afterwards. *)
Definition one_step_orchestrator : Supervisor.Orchestrator :=
  {| Supervisor.model :=
       Some (fun st =>
               match Supervisor.agent_decisions st with
               | [] => Py.Ret "fraud_detection"%string
               | _ :: _ => Py.Ret "FINISH"%string
               end);
     Supervisor.runtime := Scenario.runtime;
     Supervisor.detectors := Scenario.failing_detectors;
     Supervisor.services := Scenario.services;
     Supervisor.compliance_agent := Scenario.compliance_agent;
     Supervisor.collaborate := fun _ _ => Py.Ret None;
     Supervisor.recursion_limit := 25 |}.

(** An encoder that places the ten seeded policies at the origin and every
    other text at (3, 4). *)
Definition gift_services : Compliance.Services :=
  {| Compliance.encode := fun text =>
       if Py.list_in text Compliance.initial_policy_texts
       then Py.Ret [0%R; 0%R] else Py.Ret [3%R; 4%R];
     Compliance.str_float := fun _ => "450.0"%string |}.

(** The same encoder, except that it times out on the text
    "Draft policy". *)
Definition flaky_services : Compliance.Services :=
  {| Compliance.encode := fun text =>
       if String.eqb text "Draft policy" then Py.Raise "TimeoutError"
       else if Py.list_in text Compliance.initial_policy_texts
       then Py.Ret [0%R; 0%R] else Py.Ret [3%R; 4%R];
     Compliance.str_float := fun _ => "450.0"%string |}.

(** A well-scored detector run: the sample sits between the extremes. *)
Definition in_range_detectors : Fraud.Models :=
  {| Fraud.fit_transform := fun x => Py.Ret (map (fun _ => 0%R) x);
     Fraud.fit_score := fun _ _ =>
       Py.Ret {| Fraud.score := 0.5;
                 Fraud.decision_scores_min := 0;
                 Fraud.decision_scores_max := 1 |} |}.

(** A spend agent that raises. *)
Definition spend_down (_ : list Txn.Dict) : Py.exc Api.SpendAnalysis :=
  Py.Raise "KeyError".

(** An agent whose corpus holds the manager-approval policy only. *)
Definition one_policy_agent : Compliance.Agent :=
  {| Compliance.sanctions_lists := Compliance._load_sanctions_lists;
     Compliance.pep_list := Compliance._load_pep_list;
     Compliance.policy_texts :=
       ["All transactions above $10,000 require manager approval and documented business justification."%string];
     Compliance.policy_index := [[0%R; 0%R]] |}.

Definition one_policy_agents : Api.Agents :=
  {| Api.runtime := Scenario.runtime;
     Api.detectors := Scenario.failing_detectors;
     Api.services := Scenario.services;
     Api.compliance_agent := one_policy_agent;
     Api.analyze_spending := Scenario.spend_ok |}.

(** A request for 12 000 from an unlisted merchant. *)
Definition large_purchase : Transaction :=
  {| transaction_id := "TXN-4";
     amount := 12000;
     merchant := "Office Depot";
     category := "Office Supplies";
     user_id := "EMP-001";
     timestamp := Some "2025-01-15T10:30:00Z"%string;
     location := None;
     description := None |}.

(** A vendor payment of one million with manager approval and without
    competitive bids, as a caller of the agent may pass it. *)
Definition approved_vendor_payment : Txn.Dict :=
  {| Txn.transaction_id := Some "TXN-5"%string;
     Txn.amount := Some 1000000%R;
     Txn.merchant := Some "Acme Supplies"%string;
     Txn.category := Some "Consulting"%string;
     Txn.user_id := Some "EMP-001"%string;
     Txn.timestamp := None;
     Txn.location := None;
     Txn.merchant_description := None;
     Txn.daily_transaction_count := None;
     Txn.daily_transaction_volume := None;
     Txn.manager_approval := true;
     Txn.competitive_bids := false;
     Txn.corporate_booking := false |}.

End Cases.

(* ================================================================== *)
(** ** Facts about the runtime helpers *)
(* ================================================================== *)

Lemma gt_true (a b : R) : (a > b)%R -> Py.gt a b = true.
Proof. intros H. unfold Py.gt. destruct (Rgt_dec a b); [reflexivity | contradiction]. Qed.

Lemma gt_false (a b : R) : (a <= b)%R -> Py.gt a b = false.
Proof. intros H. unfold Py.gt. destruct (Rgt_dec a b); [lra | reflexivity]. Qed.

Lemma ge_true (a b : R) : (a >= b)%R -> Py.ge a b = true.
Proof. intros H. unfold Py.ge. destruct (Rge_dec a b); [reflexivity | contradiction]. Qed.

Lemma ge_false (a b : R) : (a < b)%R -> Py.ge a b = false.
Proof. intros H. unfold Py.ge. destruct (Rge_dec a b); [lra | reflexivity]. Qed.

(** Decide every float comparison in the goal by linear arithmetic. *)
Ltac float_cmp :=
  repeat match goal with
  | |- context [Py.gt ?a ?b] =>
      first [ rewrite (gt_true a b) by lra | rewrite (gt_false a b) by lra ]
  | |- context [Py.ge ?a ?b] =>
      first [ rewrite (ge_true a b) by lra | rewrite (ge_false a b) by lra ]
  end.

Lemma str_in_empty (s : string) : Py.str_in "" s = true.
Proof. destruct s; reflexivity. Qed.

Lemma bind_ret_inv {A B : Type} (m : Py.exc A) (k : A -> Py.exc B) (b : B) :
  Py.bind m k = Py.Ret b -> exists a, m = Py.Ret a /\ k a = Py.Ret b.
Proof.
  destruct m as [a | e]; simpl; intros H.
  - exists a. split; [reflexivity | exact H].
  - discriminate H.
Qed.

Lemma ret_inj {A : Type} (a b : A) : Py.Ret a = Py.Ret b -> a = b.
Proof. intros H. now injection H. Qed.

Lemma try_reraise_ret_inv {A : Type} (m : Py.exc A) (w : string -> string) (a : A) :
  Py.try_reraise m w = Py.Ret a -> m = Py.Ret a.
Proof. destruct m; simpl; intros H; [exact H | discriminate H]. Qed.

(* ================================================================== *)
(** ** The final aggregation (both entry points) *)
(* ================================================================== *)

Lemma cascade_follows_precedence (cs rl : string) :
  follows_precedence cs rl
    (if String.eqb cs "REJECTED" then "REJECTED"
     else if Py.list_in rl ["HIGH"; "CRITICAL"]%string then "FLAGGED_FOR_REVIEW"
     else if String.eqb cs "REVIEW_REQUIRED" then "REVIEW_REQUIRED"
     else "APPROVED")%string.
Proof.
  unfold follows_precedence, Py.list_in. simpl.
  destruct (String.eqb_spec cs "REJECTED") as [Hrej | Hrej];
    destruct (String.eqb_spec rl "HIGH") as [Hhigh | Hhigh];
    destruct (String.eqb_spec rl "CRITICAL") as [Hcrit | Hcrit];
    destruct (String.eqb_spec cs "REVIEW_REQUIRED") as [Hrev | Hrev];
    simpl; repeat split; intros; subst;
    try reflexivity; try congruence; try tauto.
Qed.

Lemma api_process_transaction_inv (ag : Api.Agents) (ck : Api.Clock)
    (t : Transaction) (resp : Api.ProcessTransactionResponse) :
  Api.process_transaction ag ck t = Py.Ret resp ->
  exists c s,
    Api.compliance_step ag ck t = Py.Ret c
    /\ Api.analyze_spending ag [Api.model_dump t] = Py.Ret s
    /\ resp = Api.response t (Api.fraud_step ag ck t) c s
               (Api.determine_overall_status (Api.fraud_step ag ck t) c)
               (Api.now_response ck).
Proof.
  unfold Api.process_transaction. intros H.
  apply try_reraise_ret_inv in H.
  apply bind_ret_inv in H. destruct H as [c [Hc H]].
  apply bind_ret_inv in H. destruct H as [s [Hs H]].
  exists c, s. injection H as <-. auto.
Qed.

Lemma api_process_transaction_ok (ag : Api.Agents) (ck : Api.Clock)
    (t : Transaction) (c : Compliance.ComplianceResult) (s : Api.SpendAnalysis) :
  Api.compliance_step ag ck t = Py.Ret c ->
  Api.analyze_spending ag [Api.model_dump t] = Py.Ret s ->
  Api.process_transaction ag ck t =
  Py.Ret (Api.response t (Api.fraud_step ag ck t) c s
            (Api.determine_overall_status (Api.fraud_step ag ck t) c)
            (Api.now_response ck)).
Proof.
  intros Hc Hs. unfold Api.process_transaction. rewrite Hc. simpl.
  rewrite Hs. reflexivity.
Qed.

(** C3. Whenever a response is produced, its [overall_status] follows the
    four-way precedence over the compliance status and the fraud tier it
    reports; this holds for the agent-backed handler and for the standalone
    handler alike. *)
Theorem overall_status_precedence :
  (forall (ag : Api.Agents) (ck : Api.Clock) (t : Transaction)
          (resp : Api.ProcessTransactionResponse),
     Api.process_transaction ag ck t = Py.Ret resp ->
     follows_precedence
       (Api.cc_status (Api.compliance_check resp))
       (Api.fa_risk_level (Api.fraud_analysis resp))
       (Api.overall_status resp))
  /\ (forall (now : string) (t : Transaction),
       let resp := Standalone.process_transaction now t in
       follows_precedence
         (Standalone.status (Standalone.compliance_check resp))
         (Standalone.risk_level (Standalone.fraud_analysis resp))
         (Standalone.overall_status resp)).
Proof.
  split.
  - intros ag ck t resp H.
    apply api_process_transaction_inv in H.
    destruct H as [c [s [_ [_ ->]]]]. simpl.
    apply cascade_follows_precedence.
  - intros now t. simpl. apply cascade_follows_precedence.
Qed.

(* ================================================================== *)
(** ** Policy retrieval *)
(* ================================================================== *)

Section Retrieval.

Import Faiss.

Lemma candidates_length (index : IndexFlatL2) (q : vector) (z : Z) :
  List.length (candidates index q z) = List.length index.
Proof.
  revert z. induction index as [| x rest IH]; intros z; simpl.
  - reflexivity.
  - now rewrite IH.
Qed.

Lemma candidates_labels (index : IndexFlatL2) (q : vector) (z : Z) :
  Forall (fun e => (z <= snd e < z + Z.of_nat (List.length index))%Z)
         (candidates index q z).
Proof.
  revert z. induction index as [| x rest IH]; intros z; simpl.
  - constructor.
  - constructor.
    + simpl. lia.
    + eapply Forall_impl; [| apply (IH (z + 1)%Z)].
      intros e He. simpl in He. lia.
Qed.

Lemma insert_perm (e : R * Z) (l : list (R * Z)) :
  Permutation (insert e l) (e :: l).
Proof.
  induction l as [| h t IH]; simpl.
  - apply Permutation_refl.
  - destruct (Rle_dec (fst e) (fst h)).
    + apply Permutation_refl.
    + eapply Permutation_trans; [apply perm_skip, IH | apply perm_swap].
Qed.

Lemma sort_perm (l : list (R * Z)) : Permutation (sort l) l.
Proof.
  induction l as [| e rest IH]; simpl.
  - apply Permutation_refl.
  - eapply Permutation_trans; [apply insert_perm | apply perm_skip, IH].
Qed.

Lemma sort_length (l : list (R * Z)) : List.length (sort l) = List.length l.
Proof. apply Permutation_length, sort_perm. Qed.

Lemma sorted_labels (index : IndexFlatL2) (q : vector) :
  Forall (fun e => (0 <= snd e < Z.of_nat (List.length index))%Z)
         (sort (candidates index q 0)).
Proof.
  eapply Permutation_Forall.
  - apply Permutation_sym, sort_perm.
  - apply (candidates_labels index q 0).
Qed.

Lemma index_in_range (texts : list string) (i : Z) :
  (0 <= i < Z.of_nat (List.length texts))%Z ->
  Py.index texts i = Py.Ret (nth (Z.to_nat i) texts ""%string).
Proof.
  intros Hi. unfold Py.index.
  replace (i <? 0)%Z with false by (symmetry; apply Z.ltb_ge; lia).
  replace ((0 <=? i) && (i <? Z.of_nat (List.length texts)))%Z with true
    by (symmetry; apply andb_true_intro; split;
        [apply Z.leb_le | apply Z.ltb_lt]; lia).
  destruct (nth_error texts (Z.to_nat i)) as [s |] eqn:E.
  - now rewrite (nth_error_nth _ _ _ E).
  - apply nth_error_None in E. lia.
Qed.

Lemma index_minus_one (texts : list string) :
  texts <> [] ->
  Py.index texts (-1) = Py.Ret (last texts ""%string).
Proof.
  intros Hne. unfold Py.index.
  destruct texts as [| s rest] using rev_ind; [contradiction |].
  clear IHrest. rewrite last_last, length_app.
  change (List.length [s]) with 1%nat.
  change (-1 <? 0)%Z with true. cbv iota.
  replace (-1 + Z.of_nat (List.length rest + 1))%Z
    with (Z.of_nat (List.length rest)) by lia.
  replace ((0 <=? Z.of_nat (List.length rest))
           && (Z.of_nat (List.length rest) <? Z.of_nat (List.length rest + 1)))%Z
    with true
    by (symmetry; apply andb_true_intro; split;
        [apply Z.leb_le | apply Z.ltb_lt]; lia).
  rewrite Nat2Z.id, nth_error_app2, Nat.sub_diag by lia. reflexivity.
Qed.

Lemma mapM_app {A B : Type} (f : A -> Py.exc B) (xs ys : list A) (us vs : list B) :
  Py.mapM f xs = Py.Ret us -> Py.mapM f ys = Py.Ret vs ->
  Py.mapM f (xs ++ ys) = Py.Ret (us ++ vs).
Proof.
  revert us. induction xs as [| x rest IH]; simpl; intros us Hx Hy.
  - injection Hx as <-. exact Hy.
  - destruct (f x) as [y | e]; simpl in *; [| discriminate Hx].
    destruct (Py.mapM f rest) as [ws | e]; simpl in *; [| discriminate Hx].
    injection Hx as <-. now rewrite (IH ws eq_refl Hy).
Qed.

Lemma mapM_index_in_range (texts : list string) (labels : list Z) :
  Forall (fun i => (0 <= i < Z.of_nat (List.length texts))%Z) labels ->
  Py.mapM (Py.index texts) labels
  = Py.Ret (map (fun i => nth (Z.to_nat i) texts ""%string) labels).
Proof.
  induction 1 as [| i rest Hi _ IH]; simpl.
  - reflexivity.
  - now rewrite (index_in_range _ _ Hi), IH.
Qed.

Lemma mapM_index_padding (texts : list string) (n : nat) :
  texts <> [] ->
  Py.mapM (Py.index texts) (repeat (-1)%Z n)
  = Py.Ret (repeat (last texts ""%string) n).
Proof.
  intros Hne. induction n as [| n IH]; simpl.
  - reflexivity.
  - now rewrite (index_minus_one _ Hne), IH.
Qed.

Lemma search_returns (index : IndexFlatL2) (q : vector) (k : nat) :
  (1 <= k)%nat ->
  let best := firstn k (sort (candidates index q 0)) in
  let missing := (k - ntotal index)%nat in
  search index q k
  = Py.Ret (map fst best ++ repeat FLT_MAX missing,
            map snd best ++ repeat (-1)%Z missing).
Proof.
  intros Hk. unfold search, ntotal. destruct k as [| k]; [lia |].
  cbv zeta.
  rewrite length_firstn, sort_length, candidates_length.
  replace (S k - Nat.min (S k) (List.length index))%nat
    with (S k - List.length index)%nat by lia.
  reflexivity.
Qed.

Lemma firstn_labels (index : IndexFlatL2) (q : vector) (k : nat) :
  Forall (fun i => (0 <= i < Z.of_nat (List.length index))%Z)
         (map snd (firstn k (sort (candidates index q 0)))).
Proof.
  apply Forall_map.
  apply Forall_forall. intros e He.
  pose proof (sorted_labels index q) as Hall.
  rewrite Forall_forall in Hall. apply Hall.
  rewrite <- (firstn_skipn k). apply in_or_app. now left.
Qed.

(** Retrieval in full: the encoder's failure is passed on; otherwise the
    labels of the search are looked up one by one. *)
Lemma retrieve_returns (sv : Compliance.Services) (a : Compliance.Agent)
    (t : Txn.Dict) (k : nat) (q : vector) :
  Compliance.encode sv (Compliance.query_of sv t) = Py.Ret q ->
  (1 <= k)%nat ->
  Compliance.policy_texts a <> [] ->
  List.length (Compliance.policy_texts a) = ntotal (Compliance.policy_index a) ->
  Compliance._retrieve_relevant_policies sv a t k = Py.Ret (retrieved a q k).
Proof.
  intros Hq Hk Hne Hlen. unfold Compliance._retrieve_relevant_policies, retrieved.
  rewrite Hq. simpl Py.bind at 1.
  rewrite (search_returns _ q k Hk). simpl Py.bind. simpl snd.
  apply mapM_app.
  - apply mapM_index_in_range. rewrite Hlen. apply firstn_labels.
  - apply mapM_index_padding, Hne.
Qed.

Lemma insert_sorted (e : R * Z) (l : list (R * Z)) :
  StronglySorted nearer_or_earlier l ->
  Forall (fun h => (snd e <= snd h)%Z) l ->
  StronglySorted nearer_or_earlier (insert e l).
Proof.
  induction l as [| h t IH]; simpl; intros Hs Hl.
  - constructor; constructor.
  - inversion Hs as [| ? ? Hst Hht]; subst.
    inversion Hl as [| ? ? Heh Het]; subst.
    destruct (Rle_dec (fst e) (fst h)) as [Hle | Hnle].
    + constructor; [exact Hs |].
      constructor.
      * unfold nearer_or_earlier. destruct Hle; [left | right]; auto.
      * rewrite Forall_forall in *. intros x Hx.
        specialize (Hht x Hx). specialize (Het x Hx).
        unfold nearer_or_earlier in *.
        destruct Hht as [Hlt | [Heq _]].
        -- left. lra.
        -- destruct Hle as [Hlt | Heq']; [left; lra | right; split; [lra | lia]].
    + constructor; [apply IH; assumption |].
      eapply Permutation_Forall; [apply Permutation_sym, insert_perm |].
      constructor; [| exact Hht].
      left. lra.
Qed.

Lemma sort_candidates_sorted (index : IndexFlatL2) (q : vector) (z : Z) :
  StronglySorted nearer_or_earlier (sort (candidates index q z)).
Proof.
  revert z. induction index as [| x rest IH]; intros z; simpl.
  - constructor.
  - apply insert_sorted; [apply IH |].
    eapply Permutation_Forall; [apply Permutation_sym, sort_perm |].
    eapply Forall_impl; [| apply (candidates_labels rest q (z + 1)%Z)].
    intros e He. simpl in *. lia.
Qed.

(** X17. Within the index size, retrieval is the specified one: exactly
    [k] texts, those of the [k] nearest stored vectors, nearest first and
    the lower position first among equally distant ones. *)
Lemma retrieve_within_index (sv : Compliance.Services) (a : Compliance.Agent)
    (t : Txn.Dict) (k : nat) (q : vector) :
  Compliance.encode sv (Compliance.query_of sv t) = Py.Ret q ->
  (1 <= k <= ntotal (Compliance.policy_index a))%nat ->
  List.length (Compliance.policy_texts a) = ntotal (Compliance.policy_index a) ->
  exists best rest,
    Compliance._retrieve_relevant_policies sv a t k
    = Py.Ret (map (text_at a) (map snd best))
    /\ List.length best = k
    /\ Permutation (best ++ rest) (candidates (Compliance.policy_index a) q 0)
    /\ StronglySorted nearer_or_earlier (best ++ rest).
Proof.
  intros Hq Hk Hlen.
  set (sorted := sort (candidates (Compliance.policy_index a) q 0)).
  exists (firstn k sorted), (skipn k sorted).
  assert (Hne : Compliance.policy_texts a <> []).
  { intros E. rewrite E in Hlen. simpl in Hlen. lia. }
  rewrite (retrieve_returns sv a t k q Hq (proj1 Hk) Hne Hlen).
  unfold retrieved.
  replace (k - ntotal (Compliance.policy_index a))%nat with 0%nat by lia.
  simpl repeat. rewrite app_nil_r, firstn_skipn.
  repeat split.
  - rewrite length_firstn. unfold sorted.
    rewrite sort_length, candidates_length. unfold ntotal in Hk. lia.
  - apply sort_perm.
  - apply sort_candidates_sorted.
Qed.

End Retrieval.

(** C6. Beyond the index size the claim fails: with a non-empty index of
    fewer than [k] policies, retrieval returns [k] texts, not
    [min(k, indexSize)]; after the texts of all stored policies it repeats
    the last policy text once for every label -1 that the search padded
    with. *)
Theorem retrieve_beyond_index_size (sv : Compliance.Services)
    (a : Compliance.Agent) (t : Txn.Dict) (k : nat) (q : Faiss.vector) :
  Compliance.encode sv (Compliance.query_of sv t) = Py.Ret q ->
  List.length (Compliance.policy_texts a) = Faiss.ntotal (Compliance.policy_index a) ->
  (0 < Faiss.ntotal (Compliance.policy_index a) < k)%nat ->
  exists found,
    Compliance._retrieve_relevant_policies sv a t k = Py.Ret found
    /\ List.length found = k
    /\ List.length found <> Nat.min k (Faiss.ntotal (Compliance.policy_index a))
    /\ skipn (Faiss.ntotal (Compliance.policy_index a)) found
       = repeat (last (Compliance.policy_texts a) ""%string)
                (k - Faiss.ntotal (Compliance.policy_index a)).
Proof.
  intros Hq Hlen Hk.
  assert (Hne : Compliance.policy_texts a <> []).
  { intros E. rewrite E in Hlen. simpl in Hlen. lia. }
  assert (H1 : (1 <= k)%nat) by lia.
  rewrite (retrieve_returns sv a t k q Hq H1 Hne Hlen). unfold retrieved.
  eexists. split; [reflexivity |].
  assert (Hbest :
    List.length
      (map (text_at a)
         (map snd
            (firstn k (Faiss.sort (Faiss.candidates (Compliance.policy_index a) q 0)))))
    = Faiss.ntotal (Compliance.policy_index a)).
  { rewrite !length_map, length_firstn, sort_length, candidates_length.
    unfold Faiss.ntotal in *. lia. }
  repeat split.
  - rewrite length_app, Hbest, repeat_length. lia.
  - rewrite length_app, Hbest, repeat_length. lia.
  - rewrite <- Hbest at 1. rewrite skipn_app, skipn_all, Nat.sub_diag.
    reflexivity.
Qed.

(** The seeded index of ten policies, asked for eleven. *)
Lemma retrieve_beyond_index_size_witness :
  exists found,
    Compliance._retrieve_relevant_policies Scenario.services
      Scenario.compliance_agent (Api.model_dump Scenario.office_depot) 11
    = Py.Ret found
    /\ List.length found = 11%nat
    /\ List.length found <> 10%nat
    /\ skipn 10 found
       = ["Cash advances are limited to $1,000 and require repayment within 30 days with receipts."%string].
Proof.
  apply (retrieve_beyond_index_size Scenario.services Scenario.compliance_agent
           (Api.model_dump Scenario.office_depot) 11 [0%R; 0%R]).
  - reflexivity.
  - reflexivity.
  - simpl. lia.
Defined.

(* ================================================================== *)
(** ** Compliance screening *)
(* ================================================================== *)

Lemma check_compliance_unfold (sv : Compliance.Services) (a : Compliance.Agent)
    (now : string) (t : Txn.Dict) :
  Compliance.check_compliance sv a now t
  = Py.bind (Compliance._retrieve_relevant_policies sv a t 3)
            (fun ps => Py.Ret (assessment a now t ps)).
Proof.
  unfold Compliance.check_compliance, assessment.
  destruct (Compliance._check_sanctions a (Py.get (Txn.merchant t) "Unknown"%string))
    as [hit ms].
  destruct (Compliance._check_pep a
              (Py.get (Txn.merchant_description t)
                      (Py.get (Txn.merchant t) "Unknown"%string)))
    as [pep pm].
  reflexivity.
Qed.

Lemma check_compliance_inv (sv : Compliance.Services) (a : Compliance.Agent)
    (now : string) (t : Txn.Dict) (r : Compliance.ComplianceResult) :
  Compliance.check_compliance sv a now t = Py.Ret r ->
  exists ps, Compliance._retrieve_relevant_policies sv a t 3 = Py.Ret ps
             /\ r = assessment a now t ps.
Proof.
  rewrite check_compliance_unfold. intros H.
  apply bind_ret_inv in H. destruct H as [ps [Hps H]].
  exists ps. split; [exact Hps | now injection H].
Qed.

(** [check_compliance] returns whenever the encoder does and the agent's
    texts and index are aligned. *)
Lemma check_compliance_returns (sv : Compliance.Services) (a : Compliance.Agent)
    (now : string) (t : Txn.Dict) (q : Faiss.vector) :
  Compliance.encode sv (Compliance.query_of sv t) = Py.Ret q ->
  Compliance.policy_texts a <> [] ->
  List.length (Compliance.policy_texts a) = Faiss.ntotal (Compliance.policy_index a) ->
  Compliance.check_compliance sv a now t
  = Py.Ret (assessment a now t (retrieved a q 3)).
Proof.
  intros Hq Hne Hlen. rewrite check_compliance_unfold.
  rewrite (retrieve_returns sv a t 3 q Hq (le_S _ _ (le_S _ _ (le_n 1))) Hne Hlen).
  reflexivity.
Qed.


Lemma sanctions_hit_status (hit pep : bool) (vs : list string) (score : R) :
  hit = true -> Compliance.determine_status hit pep vs score = "REJECTED"%string.
Proof. intros ->. reflexivity. Qed.

Lemma rejected_wins (f : Fraud.FraudScore) (c : Compliance.ComplianceResult) :
  Compliance.status c = "REJECTED"%string ->
  Api.determine_overall_status f c = "REJECTED"%string.
Proof. intros H. unfold Api.determine_overall_status. now rewrite H. Qed.

(** C2. A compliance result with [sanctions_hit] set has status REJECTED,
    and the response that carries it has [overall_status] REJECTED whatever
    the fraud step reported; in the standalone handler likewise. *)
Theorem sanctions_precedence :
  (forall (ag : Api.Agents) (ck : Api.Clock) (t : Transaction)
          (resp : Api.ProcessTransactionResponse),
     Api.process_transaction ag ck t = Py.Ret resp ->
     Api.cc_sanctions_hit (Api.compliance_check resp) = true ->
     Api.cc_status (Api.compliance_check resp) = "REJECTED"%string
     /\ Api.overall_status resp = "REJECTED"%string)
  /\ (forall (sv : Compliance.Services) (a : Compliance.Agent) (now : string)
            (t : Txn.Dict) (r : Compliance.ComplianceResult)
            (f : Fraud.FraudScore),
       Compliance.check_compliance sv a now t = Py.Ret r ->
       Compliance.sanctions_hit r = true ->
       Compliance.status r = "REJECTED"%string
       /\ Api.determine_overall_status f r = "REJECTED"%string)
  /\ (forall (now : string) (t : Transaction),
       let resp := Standalone.process_transaction now t in
       Standalone.sanctions_hit (Standalone.compliance_check resp) = true ->
       Standalone.status (Standalone.compliance_check resp) = "REJECTED"%string
       /\ Standalone.overall_status resp = "REJECTED"%string).
Proof.
  assert (Hagent :
    forall sv a now t r f,
      Compliance.check_compliance sv a now t = Py.Ret r ->
      Compliance.sanctions_hit r = true ->
      Compliance.status r = "REJECTED"%string
      /\ Api.determine_overall_status f r = "REJECTED"%string).
  { intros sv a now t r f Hr Hhit.
    apply check_compliance_inv in Hr. destruct Hr as [ps [_ ->]].
    simpl in Hhit.
    assert (Hst : Compliance.status (assessment a now t ps) = "REJECTED"%string).
    { simpl. now apply sanctions_hit_status. }
    split; [exact Hst | now apply rejected_wins]. }
  split; [| split].
  - intros ag ck t resp H Hhit.
    apply api_process_transaction_inv in H.
    destruct H as [c [s [Hc [_ ->]]]]. simpl in *.
    exact (Hagent _ _ _ _ c (Api.fraud_step ag ck t) Hc Hhit).
  - exact Hagent.
  - intros now t. simpl.
    unfold Standalone.determine_overall_status, Standalone.simulate_compliance_check.
    destruct (existsb _ Standalone.suspicious_terms); simpl.
    + intros _. split; reflexivity.
    + destruct (Py.str_in "government" _ || Py.str_in "official" _); simpl;
        intros H; discriminate H.
Qed.

Lemma match_sanction_empty (sanction : Compliance.SanctionsList) :
  Compliance.match_sanction "" sanction = [main_name_match sanction].
Proof.
  unfold Compliance.match_sanction, Compliance.either_contains.
  now rewrite str_in_empty, orb_true_r.
Qed.

Lemma check_sanctions_empty (a : Compliance.Agent) :
  Compliance._check_sanctions a ""
  = ((0 <? List.length (Compliance.sanctions_lists a))%nat,
     map main_name_match (Compliance.sanctions_lists a)).
Proof.
  unfold Compliance._check_sanctions. simpl Py.lower.
  assert (E : flat_map (Compliance.match_sanction "") (Compliance.sanctions_lists a)
              = map main_name_match (Compliance.sanctions_lists a)).
  { induction (Compliance.sanctions_lists a) as [| s rest IH].
    - reflexivity.
    - cbn [flat_map map]. now rewrite match_sanction_empty, IH. }
  rewrite E, length_map. reflexivity.
Qed.

(** C10. The empty string is contained in every name, so a transaction
    whose merchant is the empty string matches every loaded sanctions
    entry on its main name, and [check_compliance] returns REJECTED. *)
Theorem empty_merchant_matches_every_entry (sv : Compliance.Services)
    (a : Compliance.Agent) (now : string) (t : Txn.Dict) (q : Faiss.vector) :
  Txn.merchant t = Some ""%string ->
  Compliance.sanctions_lists a <> [] ->
  Compliance.encode sv (Compliance.query_of sv t) = Py.Ret q ->
  Compliance.policy_texts a <> [] ->
  List.length (Compliance.policy_texts a) = Faiss.ntotal (Compliance.policy_index a) ->
  Compliance._check_sanctions a ""
  = (true, map main_name_match (Compliance.sanctions_lists a))
  /\ exists r,
       Compliance.check_compliance sv a now t = Py.Ret r
       /\ Compliance.sanctions_hit r = true
       /\ Compliance.status r = "REJECTED"%string.
Proof.
  intros Hm Hs Hq Hne Hlen.
  assert (Hhit : Compliance._check_sanctions a ""
                 = (true, map main_name_match (Compliance.sanctions_lists a))).
  { rewrite check_sanctions_empty.
    destruct (Compliance.sanctions_lists a); [contradiction | reflexivity]. }
  split; [exact Hhit |].
  exists (assessment a now t (retrieved a q 3)).
  split; [apply check_compliance_returns; assumption |].
  unfold assessment. rewrite Hm. simpl Py.get. rewrite Hhit. simpl.
  split; reflexivity.
Qed.

(** The seeded agent on a request with an empty merchant name. *)
Lemma empty_merchant_matches_every_entry_witness :
  Compliance._check_sanctions Scenario.compliance_agent ""
  = (true, ["Matched OFAC_SDN: Suspicious Corp International";
            "Matched OFAC_SDN: John Doe Sanctioned";
            "Matched EU_SANCTIONS: Blocked Vendor LLC"]%string)
  /\ exists r,
       Compliance.check_compliance Scenario.services Scenario.compliance_agent
         "2025-01-15T09:00:00" (Api.model_dump Scenario.blank_merchant) = Py.Ret r
       /\ Compliance.sanctions_hit r = true
       /\ Compliance.status r = "REJECTED"%string.
Proof.
  apply (empty_merchant_matches_every_entry Scenario.services
           Scenario.compliance_agent "2025-01-15T09:00:00"
           (Api.model_dump Scenario.blank_merchant) [0%R; 0%R]).
  - reflexivity.
  - discriminate.
  - reflexivity.
  - discriminate.
  - reflexivity.
Defined.

(* ================================================================== *)
(** ** Fraud scoring *)
(* ================================================================== *)

Section FraudScoring.

Import Fraud.

Variables (rt : Runtime) (m : Models).

Lemma risk_factors_return (now now' : Txn.datetime) (t : Txn.Dict) (f : list R) :
  _extract_features rt now t = Py.Ret f ->
  exists rf, _calculate_risk_factors rt now' t = Py.Ret rf.
Proof.
  unfold _extract_features, _calculate_risk_factors, read_timestamp.
  destruct (Txn.timestamp t) as [[| s | d] |]; simpl; intros H.
  - discriminate H.
  - destruct (fromisoformat rt (replace_Z s)); simpl in *;
      [eexists; reflexivity | discriminate H].
  - eexists; reflexivity.
  - eexists; reflexivity.
Qed.

Lemma detect_fraud_scored (now now' : Txn.datetime) (t : Txn.Dict)
    (f fs : list R) (rf : list RiskFactor) :
  _extract_features rt now t = Py.Ret f ->
  fit_transform m f = Py.Ret fs ->
  _calculate_risk_factors rt now' t = Py.Ret rf ->
  detect_fraud rt m now now' t = scored m fs rf.
Proof.
  intros Hf Hfs Hrf. unfold detect_fraud.
  rewrite Hf. simpl Py.bind. rewrite Hfs. simpl Py.bind. rewrite Hrf.
  reflexivity.
Qed.

Lemma detect_fraud_extraction_raises (now now' : Txn.datetime) (t : Txn.Dict)
    (e : string) :
  _extract_features rt now t = Py.Raise e ->
  detect_fraud rt m now now' t = safe_default.
Proof. intros H. unfold detect_fraud. now rewrite H. Qed.

Lemma detect_fraud_scaler_raises (now now' : Txn.datetime) (t : Txn.Dict)
    (f : list R) (e : string) :
  _extract_features rt now t = Py.Ret f ->
  fit_transform m f = Py.Raise e ->
  detect_fraud rt m now now' t = safe_default.
Proof. intros Hf H. unfold detect_fraud. rewrite Hf. simpl. now rewrite H. Qed.

Lemma weighted_sum_scores (fs : list R) :
  weighted_sum (anomaly_scores_of m fs)
  = (0.3 * stored_score m fs "isolation_forest"
     + 0.25 * stored_score m fs "lof"
     + 0.2 * stored_score m fs "knn"
     + 0.15 * stored_score m fs "cblof"
     + 0.1 * stored_score m fs "hbos")%R.
Proof.
  unfold weighted_sum, anomaly_scores_of, stored_score, Py.sum, weights, models,
    score_model.
  cbn [map fold_left fst snd scores_get String.eqb Ascii.eqb Bool.eqb].
  lra.
Qed.

Lemma stored_score_raise (fs : list R) (name e : string) :
  fit_score m name fs = Py.Raise e -> stored_score m fs name = 0%R.
Proof. intros H. unfold stored_score, score_model. now rewrite H. Qed.

Lemma stored_score_ret (fs : list R) (name : string) (r : DetectorRun) :
  fit_score m name fs = Py.Ret r -> stored_score m fs name = normalized_score r.
Proof. intros H. unfold stored_score, score_model. now rewrite H. Qed.

Lemma denominator_positive (r : DetectorRun) :
  (decision_scores_min r <= decision_scores_max r)%R ->
  (0 < decision_scores_max r - decision_scores_min r + 1e-10)%R.
Proof. intros H. lra. Qed.

Lemma normalized_in_unit (r : DetectorRun) :
  (decision_scores_min r <= score r <= decision_scores_max r)%R ->
  (0 <= normalized_score r <= 1)%R.
Proof.
  intros [Hlo Hhi]. unfold normalized_score.
  set (d := (decision_scores_max r - decision_scores_min r + 1e-10)%R).
  assert (Hd : (0 < d)%R) by (unfold d; lra).
  split.
  - unfold Rdiv. apply Rmult_le_pos; [lra |].
    left. now apply Rinv_0_lt_compat.
  - apply Rmult_le_reg_r with d; [exact Hd |].
    unfold Rdiv. rewrite Rmult_assoc, Rinv_l by lra. unfold d. lra.
Qed.

Lemma stored_score_in_unit (fs : list R) (name : string) :
  in_range_or_failed m fs name -> (0 <= stored_score m fs name <= 1)%R.
Proof.
  unfold in_range_or_failed. intros H.
  destruct (fit_score m name fs) as [r | e] eqn:E.
  - rewrite (stored_score_ret _ _ _ E). now apply normalized_in_unit.
  - rewrite (stored_score_raise _ _ _ E). lra.
Qed.

(** Without a clamp, the weighted sum stays in the unit interval because
    the weights sum to one, provided every stored score is in it. *)
Lemma overall_score_in_unit (fs : list R) (rf : list RiskFactor) :
  (forall name, In name models -> in_range_or_failed m fs name) ->
  (0 <= overall_score (scored m fs rf) <= 1)%R.
Proof.
  intros H. simpl. rewrite weighted_sum_scores.
  pose proof (stored_score_in_unit fs "isolation_forest" (H _ (or_introl eq_refl))).
  pose proof (stored_score_in_unit fs "lof" (H _ (or_intror (or_introl eq_refl)))).
  pose proof (stored_score_in_unit fs "knn"
                (H _ (or_intror (or_intror (or_introl eq_refl))))).
  pose proof (stored_score_in_unit fs "cblof"
                (H _ (or_intror (or_intror (or_intror (or_introl eq_refl)))))).
  pose proof (stored_score_in_unit fs "hbos"
                (H _ (or_intror (or_intror (or_intror (or_intror (or_introl eq_refl))))))).
  lra.
Qed.

Lemma std_zeros : std [0; 0; 0; 0; 0]%R = 0%R.
Proof.
  unfold std, mean, Py.sum. cbn [map fold_left List.length].
  replace ((0 + 0 + 0 + 0 + 0 + 0) / INR 5)%R with 0%R
    by (unfold Rdiv; ring).
  replace (0 - 0)%R with 0%R by ring.
  rewrite Rabs_R0, Rsqr_0.
  replace ((0 + 0 + 0 + 0 + 0 + 0) / INR 5)%R with 0%R
    by (unfold Rdiv; ring).
  apply sqrt_0.
Qed.

(** Every detector raises: five scores of 0.0. *)
Lemma all_raise_scores (fs : list R) :
  (forall name, In name models -> Py.is_ret (fit_score m name fs) = false) ->
  anomaly_scores_of m fs = map (fun name => (name, 0%R)) models.
Proof.
  intros H. unfold anomaly_scores_of.
  apply map_ext_in. intros name Hin. unfold score_model.
  specialize (H name Hin).
  destruct (fit_score m name fs); [discriminate H | reflexivity].
Qed.

Lemma all_raise_scored (fs : list R) (rf : list RiskFactor) :
  (forall name, In name models -> Py.is_ret (fit_score m name fs) = false) ->
  overall_score (scored m fs rf) = 0%R
  /\ risk_level (scored m fs rf) = "LOW"%string
  /\ confidence (scored m fs rf) = 1%R.
Proof.
  intros H. unfold scored. cbn [overall_score risk_level confidence].
  rewrite (all_raise_scores fs H).
  assert (Hw : weighted_sum (map (fun name => (name, 0%R)) models) = 0%R).
  { unfold weighted_sum, Py.sum, weights, models.
    cbn [map fold_left fst snd scores_get String.eqb Ascii.eqb Bool.eqb]. lra. }
  rewrite Hw. repeat split.
  - unfold classify, THRESHOLDS_CRITICAL, THRESHOLDS_HIGH, THRESHOLDS_MEDIUM.
    float_cmp. reflexivity.
  - unfold models. cbn [map snd]. rewrite std_zeros. lra.
Qed.

End FraudScoring.

Lemma api_extraction_returns (ag : Api.Agents) (ck : Api.Clock) (t : Transaction)
    (s : string) (d : Txn.datetime) :
  timestamp t = Some s ->
  Fraud.fromisoformat (Api.runtime ag) (Fraud.replace_Z s) = Py.Ret d ->
  exists f,
    Fraud._extract_features (Api.runtime ag) (Api.now_features ck) (Api.model_dump t)
    = Py.Ret f.
Proof.
  intros Hs Hd. unfold Fraud._extract_features, Fraud.read_timestamp, Api.model_dump.
  cbn [Txn.timestamp]. rewrite Hs, Hd. eexists. reflexivity.
Qed.

(** A request without a timestamp: the dumped value is [None], reading its
    [hour] raises, and the outer handler answers. *)
Lemma api_missing_timestamp (ag : Api.Agents) (ck : Api.Clock) (t : Transaction) :
  timestamp t = None ->
  Fraud._extract_features (Api.runtime ag) (Api.now_features ck) (Api.model_dump t)
  = Py.Raise "AttributeError".
Proof.
  intros Hs. unfold Fraud._extract_features, Fraud.read_timestamp, Api.model_dump.
  cbn [Txn.timestamp]. rewrite Hs. reflexivity.
Qed.

(** The fraud step on the two sample requests that carry a timestamp, for
    any detectors whose scaler returns. *)
Lemma scenario_fraud_step (m : Fraud.Models) (sv : Compliance.Services)
    (t : Transaction) (s : string) :
  timestamp t = Some s ->
  (forall x, Fraud.fit_transform m x = Py.Ret (map (fun _ => 0%R) x)) ->
  exists fs rf,
    Api.fraud_step (Scenario.agents m sv) Scenario.clock t = scored m fs rf.
Proof.
  intros Hs Hscale.
  destruct (api_extraction_returns (Scenario.agents m sv) Scenario.clock t s
              {| Txn.hour := 10; Txn.weekday := 2 |} Hs eq_refl) as [f Hf].
  destruct (risk_factors_return _ _ (Api.now_rules Scenario.clock) _ _ Hf)
    as [rf Hrf].
  exists (map (fun _ => 0%R) f), rf.
  unfold Api.fraud_step.
  apply (detect_fraud_scored _ _ _ _ _ f); [exact Hf | apply Hscale | exact Hrf].
Qed.

(* ------------------------------------------------------------------ *)
(** *** Normalisation of a degenerate detector (C4) *)

(** C4, as the code has it. When a detector's training scores have zero
    range, the divisor is the constant 1e-10 and never zero; the stored
    score is (score - min) * 1e10, which is 0 when the sample scores at
    the minimum, as in the one-sample fit. *)
Theorem degenerate_range_normalization (r : Fraud.DetectorRun) :
  Fraud.decision_scores_max r = Fraud.decision_scores_min r ->
  (Fraud.decision_scores_max r - Fraud.decision_scores_min r + 1e-10 <> 0)%R
  /\ Fraud.normalized_score r
     = ((Fraud.score r - Fraud.decision_scores_min r) * 10000000000)%R
  /\ (Fraud.score r = Fraud.decision_scores_min r ->
      Fraud.normalized_score r = 0%R).
Proof.
  intros Heq. unfold Fraud.normalized_score. rewrite Heq.
  replace (Fraud.decision_scores_min r - Fraud.decision_scores_min r + 1e-10)%R
    with (1e-10)%R by lra.
  repeat split.
  - lra.
  - lra.
  - intros ->. lra.
Qed.

Lemma degenerate_range_normalization_witness :
  let r := {| Fraud.score := 0.5;
              Fraud.decision_scores_min := 0.5;
              Fraud.decision_scores_max := 0.5 |} in
  (Fraud.decision_scores_max r - Fraud.decision_scores_min r + 1e-10 <> 0)%R
  /\ Fraud.normalized_score r
     = ((Fraud.score r - Fraud.decision_scores_min r) * 10000000000)%R
  /\ (Fraud.score r = Fraud.decision_scores_min r ->
      Fraud.normalized_score r = 0%R).
Proof.
  intros r. apply (degenerate_range_normalization r). reflexivity.
Defined.

(** The one-sample fit: minimum, maximum and the sample's score coincide,
    and the normalised score is 0, not the neutral 0.5; a run in which all
    five detectors are in that case stores 0 for each of them. *)
Lemma degenerate_range_is_not_neutral :
  let r := {| Fraud.score := 0.5;
              Fraud.decision_scores_min := 0.5;
              Fraud.decision_scores_max := 0.5 |} in
  Fraud.decision_scores_min r = Fraud.decision_scores_max r
  /\ Fraud.normalized_score r = 0%R
  /\ Fraud.normalized_score r <> 0.5%R
  /\ Forall (fun entry => snd entry = 0%R)
            (Fraud.anomaly_scores
               (Api.fraud_step
                  (Scenario.agents Scenario.single_sample_detectors Scenario.services)
                  Scenario.clock Scenario.office_depot)).
Proof.
  cbv zeta.
  assert (H0 : Fraud.normalized_score
                 {| Fraud.score := 0.5;
                    Fraud.decision_scores_min := 0.5;
                    Fraud.decision_scores_max := 0.5 |} = 0%R).
  { unfold Fraud.normalized_score. simpl. lra. }
  split; [reflexivity |]. split; [exact H0 |]. split; [rewrite H0; lra |].
  destruct (scenario_fraud_step Scenario.single_sample_detectors Scenario.services
              Scenario.office_depot _ eq_refl (fun x => eq_refl)) as [fs [rf ->]].
  cbn [scored Fraud.anomaly_scores]. unfold anomaly_scores_of.
  apply Forall_map. apply Forall_forall. intros name _.
  unfold Fraud.score_model. cbn [snd]. exact H0.
Qed.

(* ------------------------------------------------------------------ *)
(** *** Confidence (C5) *)

(** C5, as the code has it. Once the features are extracted and scaled,
    the confidence is 1 minus the population standard deviation of the
    five stored scores, a detector that raised being stored as 0.0; it is
    at most 1; and when every detector raised it is 1. *)
Theorem confidence_is_one_minus_std (rt : Fraud.Runtime) (m : Fraud.Models)
    (now now' : Txn.datetime) (t : Txn.Dict) (f fs : list R) :
  Fraud._extract_features rt now t = Py.Ret f ->
  Fraud.fit_transform m f = Py.Ret fs ->
  let result := Fraud.detect_fraud rt m now now' t in
  Fraud.confidence result
  = (1 - Fraud.std (map (stored_score m fs) Fraud.models))%R
  /\ (Fraud.confidence result <= 1)%R
  /\ ((forall name, In name Fraud.models ->
         Py.is_ret (Fraud.fit_score m name fs) = false) ->
      Fraud.confidence result = 1%R).
Proof.
  intros Hf Hfs result.
  destruct (risk_factors_return rt now now' t f Hf) as [rf Hrf].
  unfold result. rewrite (detect_fraud_scored rt m now now' t f fs rf Hf Hfs Hrf).
  split; [| split].
  - unfold scored, anomaly_scores_of, stored_score.
    cbn [Fraud.confidence]. now rewrite map_map.
  - unfold scored. cbn [Fraud.confidence].
    pose proof (sqrt_pos
      (Fraud.mean
         (map (fun x => Rsqr (Rabs (x - Fraud.mean (map snd (anomaly_scores_of m fs)))))
              (map snd (anomaly_scores_of m fs))))) as Hpos.
    unfold Fraud.std. lra.
  - intros Hall. now apply all_raise_scored.
Qed.

(** Every detector raises on the approved sample request. *)
Lemma confidence_is_one_minus_std_witness :
  exists f fs,
    let result :=
      Fraud.detect_fraud Scenario.runtime Scenario.failing_detectors
        (Api.now_features Scenario.clock) (Api.now_rules Scenario.clock)
        (Api.model_dump Scenario.office_depot) in
    Fraud._extract_features Scenario.runtime (Api.now_features Scenario.clock)
      (Api.model_dump Scenario.office_depot) = Py.Ret f
    /\ Fraud.fit_transform Scenario.failing_detectors f = Py.Ret fs
    /\ Fraud.confidence result
       = (1 - Fraud.std (map (stored_score Scenario.failing_detectors fs) Fraud.models))%R
    /\ (Fraud.confidence result <= 1)%R.
Proof.
  destruct (api_extraction_returns
              (Scenario.agents Scenario.failing_detectors Scenario.services)
              Scenario.clock Scenario.office_depot _
              {| Txn.hour := 10; Txn.weekday := 2 |} eq_refl eq_refl) as [f Hf].
  exists f, (map (fun _ => 0%R) f). cbv zeta.
  split; [exact Hf |]. split; [reflexivity |].
  destruct (confidence_is_one_minus_std Scenario.runtime Scenario.failing_detectors
              (Api.now_features Scenario.clock) (Api.now_rules Scenario.clock)
              (Api.model_dump Scenario.office_depot) f (map (fun _ => 0%R) f)
              Hf eq_refl) as [H1 [H2 _]].
  split; assumption.
Defined.

(** No detector succeeded, and the reported confidence is 1, not 0. *)
Lemma confidence_when_every_detector_raises :
  let result :=
    Api.fraud_step (Scenario.agents Scenario.failing_detectors Scenario.services)
      Scenario.clock Scenario.office_depot in
  (forall name x, Fraud.fit_score Scenario.failing_detectors name x
                  = Py.Raise "ValueError")
  /\ Fraud.confidence result = 1%R
  /\ Fraud.confidence result <> 0%R.
Proof.
  cbv zeta. split; [reflexivity |].
  destruct (scenario_fraud_step Scenario.failing_detectors Scenario.services
              Scenario.office_depot _ eq_refl (fun x => eq_refl)) as [fs [rf ->]].
  destruct (all_raise_scored Scenario.failing_detectors fs rf
              (fun name _ => eq_refl)) as [_ [_ Hc]].
  rewrite Hc. split; [reflexivity | lra].
Qed.

(* ------------------------------------------------------------------ *)
(** *** Score bounds (C9) *)

Lemma risk_score_in_unit (sanctions_hit pep_hit : bool) (vs : list string) :
  (0 <= Compliance.calculate_risk_score sanctions_hit pep_hit vs <= 1)%R.
Proof.
  unfold Compliance.calculate_risk_score.
  pose proof (pos_INR (List.length vs)) as Hn.
  unfold Rmin.
  destruct sanctions_hit, pep_hit;
    match goal with |- context [Rle_dec ?a ?b] => destruct (Rle_dec a b) end;
    lra.
Qed.

(** The compliance half of the score bounds: every result that
    [check_compliance] returns has its risk score in the unit interval. *)
Lemma compliance_risk_score_bounds (sv : Compliance.Services)
    (a : Compliance.Agent) (now : string) (t : Txn.Dict)
    (r : Compliance.ComplianceResult) :
  Compliance.check_compliance sv a now t = Py.Ret r ->
  (0 <= Compliance.risk_score r <= 1)%R.
Proof.
  intros H. apply check_compliance_inv in H. destruct H as [ps [_ ->]].
  apply risk_score_in_unit.
Qed.






(* ------------------------------------------------------------------ *)
(** *** A failed fraud step (C1) *)

Lemma no_policy_violations (t : Txn.Dict) (ps : list string) :
  (Py.get (Txn.amount t) 0 <= 500)%R ->
  Py.str_in "travel" (Py.lower (Py.get (Txn.category t) ""%string)) = false ->
  Compliance._check_policy_violations t ps = [].
Proof.
  intros Hamt Hcat. unfold Compliance._check_policy_violations.
  induction ps as [| p rest IH]; [reflexivity |].
  cbn [flat_map]. rewrite IH. unfold Compliance.policy_checks.
  rewrite Hcat. float_cmp.
  now rewrite !andb_false_r.
Qed.

Lemma assessment_clean (a : Compliance.Agent) (now : string) (t : Txn.Dict)
    (ps : list string) :
  fst (Compliance._check_sanctions a (Py.get (Txn.merchant t) "Unknown"%string))
  = false ->
  fst (Compliance._check_pep a
         (Py.get (Txn.merchant_description t)
                 (Py.get (Txn.merchant t) "Unknown"%string))) = false ->
  Compliance._check_policy_violations t ps = [] ->
  Compliance.status (assessment a now t ps) = "APPROVED"%string.
Proof.
  intros Hs Hp Hv. unfold assessment. cbn [Compliance.status].
  rewrite Hs, Hp, Hv.
  unfold Compliance.determine_status, Compliance.calculate_risk_score.
  cbn [List.length Nat.ltb Nat.leb orb INR].
  replace (Rmin (0 + 0 * 0.1) 1) with 0%R
    by (unfold Rmin; destruct (Rle_dec (0 + 0 * 0.1) 1); lra).
  float_cmp. reflexivity.
Qed.

(** The compliance step approves both Office Depot requests. *)
Lemma scenario_compliance_approves (m : Fraud.Models) (t : Transaction) :
  t = Scenario.office_depot \/ t = Scenario.office_depot_untimed ->
  exists c,
    Api.compliance_step (Scenario.agents m Scenario.services) Scenario.clock t
    = Py.Ret c
    /\ Compliance.status c = "APPROVED"%string.
Proof.
  intros Ht. eexists. split.
  - unfold Api.compliance_step.
    apply (check_compliance_returns _ _ _ _ [0%R; 0%R]).
    + reflexivity.
    + discriminate.
    + reflexivity.
  - apply assessment_clean.
    + destruct Ht as [-> | ->]; reflexivity.
    + destruct Ht as [-> | ->]; reflexivity.
    + apply no_policy_violations.
      * destruct Ht as [-> | ->]; simpl; lra.
      * destruct Ht as [-> | ->]; reflexivity.
Qed.

Lemma overall_without_flag (f : Fraud.FraudScore) (c : Compliance.ComplianceResult) :
  Py.list_in (Fraud.risk_level f) ["HIGH"; "CRITICAL"]%string = false ->
  Api.determine_overall_status f c = compliance_alone (Compliance.status c).
Proof.
  intros H. unfold Api.determine_overall_status, compliance_alone. now rewrite H.
Qed.

(** C1, as the code has it. Provided the compliance and spend steps
    return, a failed fraud step still yields a response. When feature
    extraction or scaling raises, the fallback assessment is reported:
    tier MEDIUM, confidence 0. When every detector raises, each score is
    stored as 0.0: score 0, tier LOW. In both cases the disposition is the
    one the compliance status gives on its own, so an approving compliance
    result is APPROVED. *)
Theorem fraud_failure_follows_compliance (ag : Api.Agents) (ck : Api.Clock)
    (t : Transaction) (c : Compliance.ComplianceResult) (s : Api.SpendAnalysis) :
  Api.compliance_step ag ck t = Py.Ret c ->
  Api.analyze_spending ag [Api.model_dump t] = Py.Ret s ->
  let extraction :=
    Fraud._extract_features (Api.runtime ag) (Api.now_features ck) (Api.model_dump t) in
  ((exists e, extraction = Py.Raise e)
   \/ (exists f e, extraction = Py.Ret f
                   /\ Fraud.fit_transform (Api.detectors ag) f = Py.Raise e) ->
   exists resp,
     Api.process_transaction ag ck t = Py.Ret resp
     /\ Api.fa_risk_level (Api.fraud_analysis resp) = "MEDIUM"%string
     /\ Api.fa_confidence (Api.fraud_analysis resp) = 0%R
     /\ Api.overall_status resp = compliance_alone (Compliance.status c))
  /\ (forall f fs,
        extraction = Py.Ret f ->
        Fraud.fit_transform (Api.detectors ag) f = Py.Ret fs ->
        (forall name, In name Fraud.models ->
           Py.is_ret (Fraud.fit_score (Api.detectors ag) name fs) = false) ->
        exists resp,
          Api.process_transaction ag ck t = Py.Ret resp
          /\ Api.fa_risk_level (Api.fraud_analysis resp) = "LOW"%string
          /\ Api.fa_score (Api.fraud_analysis resp) = 0%R
          /\ Api.overall_status resp = compliance_alone (Compliance.status c)).
Proof.
  intros Hc Hs extraction.
  pose proof (api_process_transaction_ok ag ck t c s Hc Hs) as Hresp.
  split.
  - intros Hfail.
    assert (Hd : Api.fraud_step ag ck t = Fraud.safe_default).
    { unfold Api.fraud_step.
      destruct Hfail as [[e He] | [f [e [Hf He]]]].
      - now apply detect_fraud_extraction_raises with e.
      - now apply detect_fraud_scaler_raises with f e. }
    eexists. split; [exact Hresp |].
    rewrite Hd. cbn [Api.response Api.fraud_analysis Api.fa_risk_level
      Api.fa_confidence Api.overall_status Fraud.safe_default Fraud.risk_level
      Fraud.confidence].
    split; [reflexivity |]. split; [reflexivity |].
    now apply overall_without_flag.
  - intros f fs Hf Hfs Hall.
    destruct (risk_factors_return (Api.runtime ag) (Api.now_features ck)
                (Api.now_rules ck) (Api.model_dump t) f Hf) as [rf Hrf].
    assert (Hd : Api.fraud_step ag ck t = scored (Api.detectors ag) fs rf).
    { unfold Api.fraud_step. now apply detect_fraud_scored with f. }
    destruct (all_raise_scored (Api.detectors ag) fs rf Hall) as [H0 [Hlow _]].
    eexists. split; [exact Hresp |].
    rewrite Hd. cbn [Api.response Api.fraud_analysis Api.fa_risk_level
      Api.fa_score Api.overall_status].
    split; [exact Hlow |]. split; [exact H0 |].
    apply overall_without_flag. now rewrite Hlow.
Qed.

(** The approved sample request sent without a timestamp: the fallback
    assessment is reported and the request is approved. *)
Lemma fraud_failure_follows_compliance_witness :
  exists resp,
    Api.process_transaction
      (Scenario.agents Scenario.failing_detectors Scenario.services)
      Scenario.clock Scenario.office_depot_untimed = Py.Ret resp
    /\ Api.fa_risk_level (Api.fraud_analysis resp) = "MEDIUM"%string
    /\ Api.fa_confidence (Api.fraud_analysis resp) = 0%R
    /\ Api.overall_status resp = "APPROVED"%string.
Proof.
  destruct (scenario_compliance_approves Scenario.failing_detectors
              Scenario.office_depot_untimed (or_intror eq_refl)) as [c [Hc Hst]].
  destruct (fraud_failure_follows_compliance
              (Scenario.agents Scenario.failing_detectors Scenario.services)
              Scenario.clock Scenario.office_depot_untimed c
              {| Api.total_spend := 450; Api.budget_utilization := 0.0225 |}
              Hc eq_refl) as [Hfallback _].
  destruct Hfallback as [resp [Hr [Hm [Hconf Hov]]]].
  - left. exists "AttributeError"%string. now apply api_missing_timestamp.
  - exists resp. rewrite Hst in Hov. auto.
Defined.

(** Every detector raises, compliance approves, and the request is
    APPROVED with fraud tier LOW. *)
Lemma every_detector_raises_yet_approved :
  (forall name x, Fraud.fit_score Scenario.failing_detectors name x
                  = Py.Raise "ValueError")
  /\ exists resp,
       Api.process_transaction
         (Scenario.agents Scenario.failing_detectors Scenario.services)
         Scenario.clock Scenario.office_depot = Py.Ret resp
       /\ Api.fa_risk_level (Api.fraud_analysis resp) = "LOW"%string
       /\ Api.cc_status (Api.compliance_check resp) = "APPROVED"%string
       /\ Api.overall_status resp = "APPROVED"%string.
Proof.
  split; [reflexivity |].
  destruct (scenario_compliance_approves Scenario.failing_detectors
              Scenario.office_depot (or_introl eq_refl)) as [c [Hc Hst]].
  destruct (scenario_fraud_step Scenario.failing_detectors Scenario.services
              Scenario.office_depot _ eq_refl (fun x => eq_refl)) as [fs [rf Hd]].
  destruct (all_raise_scored Scenario.failing_detectors fs rf
              (fun name _ => eq_refl)) as [_ [Hlow _]].
  eexists. split.
  - apply (api_process_transaction_ok _ _ _ c
             {| Api.total_spend := 450; Api.budget_utilization := 0.0225 |} Hc eq_refl).
  - rewrite Hd. cbn [Api.response Api.fraud_analysis Api.fa_risk_level
      Api.compliance_check Api.cc_status Api.overall_status].
    split; [exact Hlow |]. split; [exact Hst |].
    rewrite overall_without_flag by now rewrite Hlow.
    now rewrite Hst.
Qed.

(* ================================================================== *)
(** ** Failure propagation (C7) *)
(* ================================================================== *)







(* ================================================================== *)
(** ** Feature extraction (C8) *)
(* ================================================================== *)

Lemma extract_features_value (rt : Fraud.Runtime) (now : Txn.datetime)
    (t : Txn.Dict) (ts : Txn.datetime) :
  Fraud.read_timestamp rt now t = Py.Ret ts ->
  Fraud._extract_features rt now t
  = Py.Ret
      [ Py.get (Txn.amount t) 0%R;
        ln (1 + Py.get (Txn.amount t) 0%R);
        IZR (Txn.hour ts);
        IZR (Txn.weekday ts);
        (if (Txn.weekday ts >=? 5)%Z then 1 else 0)%R;
        IZR (CPython.hash (Fraud.secret rt)
               (Py.get (Txn.category t) "unknown"%string) mod 100);
        IZR (CPython.hash (Fraud.secret rt)
               (Py.get (Txn.merchant t) "unknown"%string) mod 100);
        IZR (CPython.hash (Fraud.secret rt)
               (Py.get (Txn.user_id t) "unknown"%string) mod 100);
        IZR (Fraud.hash_value rt
               (Py.get (Txn.location t) (Some "unknown"%string)) mod 50);
        Py.get (Txn.daily_transaction_count t) 1%R;
        Py.get (Txn.daily_transaction_volume t) (Py.get (Txn.amount t) 0%R) ].
Proof. intros H. unfold Fraud._extract_features. now rewrite H. Qed.

(** C8, as the code has it. For a record whose timestamp entry is present,
    extraction does not read the clock: within one process two calls give
    the same outcome. Across processes the outcome is the same when the
    hash secret, [hash(None)] and the date parser are the same. *)
Theorem extraction_is_deterministic_per_process (rt : Fraud.Runtime)
    (now1 now2 : Txn.datetime) (t : Txn.Dict) (v : Txn.TimestampValue) :
  Txn.timestamp t = Some v ->
  Fraud._extract_features rt now1 t = Fraud._extract_features rt now2 t
  /\ (forall rt' : Fraud.Runtime,
        Fraud.secret rt' = Fraud.secret rt ->
        Fraud.hash_None rt' = Fraud.hash_None rt ->
        (forall s, Fraud.fromisoformat rt' s = Fraud.fromisoformat rt s) ->
        Fraud._extract_features rt' now1 t = Fraud._extract_features rt now2 t).
Proof.
  intros Hv. split.
  - unfold Fraud._extract_features, Fraud.read_timestamp. now rewrite Hv.
  - intros rt' Hs Hn Hp.
    unfold Fraud._extract_features, Fraud.read_timestamp, Fraud.hash_value.
    rewrite Hv, Hs, Hn. destruct v as [| s | d]; try reflexivity.
    now rewrite Hp.
Qed.

Lemma extraction_is_deterministic_per_process_witness :
  Fraud._extract_features Scenario.runtime
    {| Txn.hour := 9; Txn.weekday := 0 |} (Api.model_dump Scenario.office_depot)
  = Fraud._extract_features Scenario.runtime
      {| Txn.hour := 23; Txn.weekday := 6 |} (Api.model_dump Scenario.office_depot).
Proof.
  refine (proj1 (extraction_is_deterministic_per_process Scenario.runtime
                   {| Txn.hour := 9; Txn.weekday := 0 |}
                   {| Txn.hour := 23; Txn.weekday := 6 |}
                   (Api.model_dump Scenario.office_depot)
                   (Txn.TsStr "2025-01-15T10:30:00Z") _)).
  reflexivity.
Defined.

Lemma office_supplies_bucket :
  (CPython.hash (CPython.secret_of_seed 1) "Office Supplies" mod 100 = 67)%Z
  /\ (CPython.hash (CPython.secret_of_seed 2) "Office Supplies" mod 100 = 8)%Z.
Proof. split; vm_compute; reflexivity. Qed.

(** The same request in a process started with PYTHONHASHSEED=1 and in one
    started with PYTHONHASHSEED=2: the category falls into bucket 67 in the
    first and bucket 8 in the second, and the feature vectors differ. *)
Lemma hash_buckets_change_across_restarts :
  Fraud.hash_None Scenario.runtime = Fraud.hash_None Scenario.runtime_restarted
  /\ (CPython.hash (Fraud.secret Scenario.runtime) "Office Supplies" mod 100
      <> CPython.hash (Fraud.secret Scenario.runtime_restarted) "Office Supplies" mod 100)%Z
  /\ Fraud._extract_features Scenario.runtime (Api.now_features Scenario.clock)
       (Api.model_dump Scenario.office_depot)
     <> Fraud._extract_features Scenario.runtime_restarted
          (Api.now_features Scenario.clock) (Api.model_dump Scenario.office_depot).
Proof.
  destruct office_supplies_bucket as [H1 H2].
  split; [reflexivity |]. split.
  - change (Fraud.secret Scenario.runtime) with (CPython.secret_of_seed 1).
    change (Fraud.secret Scenario.runtime_restarted) with (CPython.secret_of_seed 2).
    rewrite H1, H2. discriminate.
  - rewrite (extract_features_value Scenario.runtime
               (Api.now_features Scenario.clock) (Api.model_dump Scenario.office_depot)
               {| Txn.hour := 10; Txn.weekday := 2 |} eq_refl).
    rewrite (extract_features_value Scenario.runtime_restarted
               (Api.now_features Scenario.clock) (Api.model_dump Scenario.office_depot)
               {| Txn.hour := 10; Txn.weekday := 2 |} eq_refl).
    intros H. apply ret_inj in H.
    apply (f_equal (fun l => nth 5 l 0%R)) in H. cbn [nth] in H.
    change (Py.get (Txn.category (Api.model_dump Scenario.office_depot)) "unknown"%string)
      with "Office Supplies"%string in H.
    change (Fraud.secret Scenario.runtime) with (CPython.secret_of_seed 1) in H.
    change (Fraud.secret Scenario.runtime_restarted) with (CPython.secret_of_seed 2) in H.
    rewrite H1, H2 in H. apply eq_IZR in H. discriminate H.
Qed.

(* ================================================================== *)
(** ** The two end-to-end requests of the specification *)
(* ================================================================== *)

Lemma scenario_response (m : Fraud.Models) (t : Transaction) :
  let ag := Scenario.agents m Scenario.services in
  exists c,
    Api.compliance_step ag Scenario.clock t = Py.Ret c
    /\ c = assessment Scenario.compliance_agent (Api.now_compliance Scenario.clock)
             (Api.model_dump t) (retrieved Scenario.compliance_agent [0%R; 0%R] 3)
    /\ Api.process_transaction ag Scenario.clock t
       = Py.Ret (Api.response t (Api.fraud_step ag Scenario.clock t) c
                   {| Api.total_spend := 450; Api.budget_utilization := 0.0225 |}
                   (Api.determine_overall_status (Api.fraud_step ag Scenario.clock t) c)
                   (Api.now_response Scenario.clock)).
Proof.
  intros ag.
  assert (Hc : Api.compliance_step ag Scenario.clock t
               = Py.Ret (assessment Scenario.compliance_agent
                           (Api.now_compliance Scenario.clock) (Api.model_dump t)
                           (retrieved Scenario.compliance_agent [0%R; 0%R] 3))).
  { unfold Api.compliance_step.
    apply (check_compliance_returns _ _ _ _ [0%R; 0%R]);
      [reflexivity | discriminate | reflexivity]. }
  eexists. split; [exact Hc |]. split; [reflexivity |].
  exact (api_process_transaction_ok ag Scenario.clock t _ _ Hc eq_refl).
Qed.

(** The merchant on the seeded sanctions list: rejected, while every
    detector raises. *)
Lemma sanctions_precedence_witness :
  exists resp,
    Api.process_transaction
      (Scenario.agents Scenario.failing_detectors Scenario.services)
      Scenario.clock Scenario.suspicious_corp = Py.Ret resp
    /\ Api.cc_sanctions_hit (Api.compliance_check resp) = true
    /\ Api.cc_status (Api.compliance_check resp) = "REJECTED"%string
    /\ Api.overall_status resp = "REJECTED"%string.
Proof.
  destruct (scenario_response Scenario.failing_detectors Scenario.suspicious_corp)
    as [c [_ [Hc Hr]]].
  subst c. eexists. split; [exact Hr |].
  assert (Hhit : Api.cc_sanctions_hit
                   (Api.compliance_check
                      (Api.response Scenario.suspicious_corp
                         (Api.fraud_step
                            (Scenario.agents Scenario.failing_detectors Scenario.services)
                            Scenario.clock Scenario.suspicious_corp)
                         (assessment Scenario.compliance_agent
                            (Api.now_compliance Scenario.clock)
                            (Api.model_dump Scenario.suspicious_corp)
                            (retrieved Scenario.compliance_agent [0%R; 0%R] 3))
                         {| Api.total_spend := 450; Api.budget_utilization := 0.0225 |}
                         (Api.determine_overall_status
                            (Api.fraud_step
                               (Scenario.agents Scenario.failing_detectors Scenario.services)
                               Scenario.clock Scenario.suspicious_corp)
                            (assessment Scenario.compliance_agent
                               (Api.now_compliance Scenario.clock)
                               (Api.model_dump Scenario.suspicious_corp)
                               (retrieved Scenario.compliance_agent [0%R; 0%R] 3)))
                         (Api.now_response Scenario.clock))) = true)
    by reflexivity.
  split; [exact Hhit |].
  exact (proj1 sanctions_precedence _ _ _ _ Hr Hhit).
Defined.

(** The approved request: its response follows the precedence. *)
Lemma overall_status_precedence_witness :
  exists resp,
    Api.process_transaction
      (Scenario.agents Scenario.failing_detectors Scenario.services)
      Scenario.clock Scenario.office_depot = Py.Ret resp
    /\ follows_precedence
         (Api.cc_status (Api.compliance_check resp))
         (Api.fa_risk_level (Api.fraud_analysis resp))
         (Api.overall_status resp).
Proof.
  destruct (scenario_response Scenario.failing_detectors Scenario.office_depot)
    as [c [_ [_ Hr]]].
  eexists. split; [exact Hr |].
  exact (proj1 overall_status_precedence _ _ _ _ Hr).
Defined.

(* ================================================================== *)
(** ** Risk tiers and rule checks of the fraud agent *)
(* ================================================================== *)

Lemma ge_cases (a b : R) :
  (Py.ge a b = true /\ (b <= a)%R) \/ (Py.ge a b = false /\ (a < b)%R).
Proof.
  unfold Py.ge. destruct (Rge_dec a b); [left | right]; split;
    try reflexivity; lra.
Qed.

Lemma gt_cases (a b : R) :
  (Py.gt a b = true /\ (b < a)%R) \/ (Py.gt a b = false /\ (a <= b)%R).
Proof.
  unfold Py.gt. destruct (Rgt_dec a b); [left | right]; split;
    try reflexivity; lra.
Qed.

Lemma classify_bands (s : R) :
  (Fraud.classify s = "CRITICAL"%string <-> (0.85 <= s)%R)
  /\ (Fraud.classify s = "HIGH"%string <-> (0.7 <= s < 0.85)%R)
  /\ (Fraud.classify s = "MEDIUM"%string <-> (0.5 <= s < 0.7)%R)
  /\ (Fraud.classify s = "LOW"%string <-> (s < 0.5)%R).
Proof.
  unfold Fraud.classify, Fraud.THRESHOLDS_CRITICAL, Fraud.THRESHOLDS_HIGH,
    Fraud.THRESHOLDS_MEDIUM.
  destruct (ge_cases s 0.85) as [[-> H1] | [-> H1]];
    [| destruct (ge_cases s 0.7) as [[-> H2] | [-> H2]];
       [| destruct (ge_cases s 0.5) as [[-> H3] | [-> H3]]]];
    repeat split; intros; try discriminate; try reflexivity; lra.
Qed.

Lemma classify_monotone (s1 s2 : R) :
  (s1 <= s2)%R ->
  (tier_rank (Fraud.classify s1) <= tier_rank (Fraud.classify s2))%nat.
Proof.
  intros Hle.
  unfold Fraud.classify, Fraud.THRESHOLDS_CRITICAL, Fraud.THRESHOLDS_HIGH,
    Fraud.THRESHOLDS_MEDIUM.
  unfold Py.ge.
  repeat match goal with
         | |- context [Rge_dec ?a ?b] => destruct (Rge_dec a b)
         end;
    cbn; try lia; lra.
Qed.

(** Whatever path [detect_fraud] takes, the tier it reports is the tier of
    the score it reports; the fallback's 0.5 is itself in the MEDIUM band. *)
Lemma reported_tier_is_tier_of_score (rt : Fraud.Runtime) (m : Fraud.Models)
    (now now' : Txn.datetime) (t : Txn.Dict) :
  let result := Fraud.detect_fraud rt m now now' t in
  Fraud.risk_level result = Fraud.classify (Fraud.overall_score result).
Proof.
  cbv zeta. unfold Fraud.detect_fraud.
  assert (Hdefault : Fraud.risk_level Fraud.safe_default
                     = Fraud.classify (Fraud.overall_score Fraud.safe_default)).
  { cbn [Fraud.safe_default Fraud.risk_level Fraud.overall_score].
    symmetry. apply classify_bands. lra. }
  destruct (Fraud._extract_features rt now t) as [f | e]; [| exact Hdefault].
  cbn [Py.bind].
  destruct (Fraud.fit_transform m f) as [fs | e]; [| exact Hdefault].
  cbn [Py.bind].
  destruct (Fraud._calculate_risk_factors rt now' t) as [rf | e];
    [reflexivity | exact Hdefault].
Qed.

(** X1. Between any two assessments, whichever agents, clocks and
    transactions produced them (the fallback included), the one with the
    higher score never has the lower tier. *)
Theorem higher_score_never_lower_tier (rt1 rt2 : Fraud.Runtime)
    (m1 m2 : Fraud.Models) (now1 now1' now2 now2' : Txn.datetime)
    (t1 t2 : Txn.Dict) :
  let r1 := Fraud.detect_fraud rt1 m1 now1 now1' t1 in
  let r2 := Fraud.detect_fraud rt2 m2 now2 now2' t2 in
  (Fraud.overall_score r1 <= Fraud.overall_score r2)%R ->
  (tier_rank (Fraud.risk_level r1) <= tier_rank (Fraud.risk_level r2))%nat.
Proof.
  cbv zeta. intros Hle.
  rewrite (reported_tier_is_tier_of_score rt1 m1 now1 now1' t1).
  rewrite (reported_tier_is_tier_of_score rt2 m2 now2 now2' t2).
  now apply classify_monotone.
Qed.

(** X2. The reported tier is fixed by the reported score through three
    cut-offs: CRITICAL from 0.85, HIGH from 0.7, MEDIUM from 0.5 and LOW
    below 0.5; the value 0.3 kept under "LOW" takes no part. *)
Theorem reported_tier_bands (rt : Fraud.Runtime) (m : Fraud.Models)
    (now now' : Txn.datetime) (t : Txn.Dict) :
  let result := Fraud.detect_fraud rt m now now' t in
  (Fraud.risk_level result = "CRITICAL"%string
   <-> (0.85 <= Fraud.overall_score result)%R)
  /\ (Fraud.risk_level result = "HIGH"%string
      <-> (0.7 <= Fraud.overall_score result < 0.85)%R)
  /\ (Fraud.risk_level result = "MEDIUM"%string
      <-> (0.5 <= Fraud.overall_score result < 0.7)%R)
  /\ (Fraud.risk_level result = "LOW"%string
      <-> (Fraud.overall_score result < 0.5)%R).
Proof.
  cbv zeta. rewrite (reported_tier_is_tier_of_score rt m now now' t).
  apply classify_bands.
Qed.

(** Every detector raises on one request, the timestamp is missing on the
    other: score 0 against the fallback's 0.5, LOW against MEDIUM. *)
Lemma higher_score_never_lower_tier_witness :
  (tier_rank
     (Fraud.risk_level
        (Fraud.detect_fraud Scenario.runtime Scenario.failing_detectors
           (Api.now_features Scenario.clock) (Api.now_rules Scenario.clock)
           (Api.model_dump Scenario.office_depot)))
   <= tier_rank
        (Fraud.risk_level
           (Fraud.detect_fraud Scenario.runtime Scenario.failing_detectors
              (Api.now_features Scenario.clock) (Api.now_rules Scenario.clock)
              (Api.model_dump Scenario.office_depot_untimed))))%nat.
Proof.
  apply (higher_score_never_lower_tier Scenario.runtime Scenario.runtime
           Scenario.failing_detectors Scenario.failing_detectors).
  destruct (scenario_fraud_step Scenario.failing_detectors Scenario.services
              Scenario.office_depot _ eq_refl (fun x => eq_refl)) as [fs [rf Hd]].
  unfold Api.fraud_step in Hd. cbn [Scenario.agents Api.runtime Api.detectors] in Hd.
  rewrite Hd.
  destruct (all_raise_scored Scenario.failing_detectors fs rf
              (fun name _ => eq_refl)) as [H0 _].
  rewrite H0.
  rewrite (detect_fraud_extraction_raises Scenario.runtime Scenario.failing_detectors
             (Api.now_features Scenario.clock) (Api.now_rules Scenario.clock)
             (Api.model_dump Scenario.office_depot_untimed) "AttributeError" eq_refl).
  cbn [Fraud.safe_default Fraud.overall_score]. lra.
Defined.

Lemma multiple_of_1000_spec (amount : R) :
  Fraud.is_multiple_of_1000 amount = true
  <-> exists k : Z, amount = (1000 * IZR k)%R.
Proof.
  unfold Fraud.is_multiple_of_1000.
  destruct (Req_dec_T amount (1000 * IZR (Int_part (amount / 1000)))) as [E | N].
  - split; [intros _; eexists; exact E | reflexivity].
  - split; [discriminate |].
    intros [k Hk]. exfalso. apply N.
    assert (Hq : (amount / 1000 = IZR k)%R) by (rewrite Hk; field).
    rewrite Hq.
    rewrite <- (Int_part_spec (IZR k) k) by lra.
    exact Hk.
Qed.

Lemma singleton_or_nil_length {A : Type} (b : bool) (x : A) :
  (List.length (if b then [x] else []) <= 1)%nat.
Proof. destruct b; simpl; lia. Qed.

(** X3. When the timestamp can be read, the rule checks return at most
    five factors, and none exactly when no rule fires: the amount is at
    most 10000 and not a multiple of 1000 from 1000 up, the hour is between
    6 and 22, the day is a weekday and the daily count is at most 10. *)
Theorem no_risk_factor_iff_no_rule_fires (rt : Fraud.Runtime)
    (now : Txn.datetime) (t : Txn.Dict) (ts : Txn.datetime) :
  Fraud.read_timestamp rt now t = Py.Ret ts ->
  let amount := Py.get (Txn.amount t) 0%R in
  let daily_count := Py.get (Txn.daily_transaction_count t) 0%R in
  exists rf,
    Fraud._calculate_risk_factors rt now t = Py.Ret rf
    /\ (List.length rf <= 5)%nat
    /\ (rf = []
        <-> (amount <= 10000)%R
            /\ (6 <= Txn.hour ts <= 22)%Z
            /\ (Txn.weekday ts < 5)%Z
            /\ ~ (exists k : Z, amount = (1000 * IZR k)%R /\ (1000 <= amount)%R)
            /\ (daily_count <= 10)%R).
Proof.
  intros Hts amount daily_count.
  unfold Fraud._calculate_risk_factors. rewrite Hts. cbn [Py.bind].
  fold amount. fold daily_count.
  eexists. split; [reflexivity |].
  set (b1 := Py.gt amount 10000).
  set (b2 := ((Txn.hour ts <? 6) || (Txn.hour ts >? 22))%Z).
  set (b3 := (Txn.weekday ts >=? 5)%Z).
  set (b4 := Fraud.is_multiple_of_1000 amount && Py.ge amount 1000).
  set (b5 := Py.gt daily_count 10).
  assert (E1 : b1 = false <-> (amount <= 10000)%R).
  { unfold b1. destruct (gt_cases amount 10000) as [[-> H] | [-> H]];
      split; intros; try discriminate; try reflexivity; lra. }
  assert (E2 : b2 = false <-> (6 <= Txn.hour ts <= 22)%Z).
  { unfold b2. rewrite orb_false_iff, Z.ltb_ge, Z.gtb_ltb, Z.ltb_ge. lia. }
  assert (E3 : b3 = false <-> (Txn.weekday ts < 5)%Z).
  { unfold b3. rewrite Z.geb_leb, Z.leb_gt. lia. }
  assert (E4 : b4 = false
               <-> ~ (exists k : Z, amount = (1000 * IZR k)%R /\ (1000 <= amount)%R)).
  { unfold b4. rewrite andb_false_iff. split.
    - intros [Hm | Hg] [k [Hk Hge]].
      + assert (Fraud.is_multiple_of_1000 amount = true)
          by (apply multiple_of_1000_spec; now exists k).
        congruence.
      + destruct (ge_cases amount 1000) as [[Ht _] | [_ Hlt]]; [congruence | lra].
    - intros Hno.
      destruct (Fraud.is_multiple_of_1000 amount) eqn:Em; [| now left].
      right. destruct (ge_cases amount 1000) as [[_ Hge] | [Hf _]]; [| exact Hf].
      exfalso. apply Hno.
      apply multiple_of_1000_spec in Em. destruct Em as [k Hk].
      exists k. split; assumption. }
  assert (E5 : b5 = false <-> (daily_count <= 10)%R).
  { unfold b5. destruct (gt_cases daily_count 10) as [[-> H] | [-> H]];
      split; intros; try discriminate; try reflexivity; lra. }
  split.
  - rewrite !length_app.
    pose proof (singleton_or_nil_length b1 (Fraud.HighAmount amount)).
    pose proof (singleton_or_nil_length b2 (Fraud.UnusualTime (Txn.hour ts))).
    pose proof (singleton_or_nil_length b3 Fraud.WeekendTransaction).
    pose proof (singleton_or_nil_length b4 Fraud.RoundNumber).
    pose proof (singleton_or_nil_length b5 (Fraud.HighVelocity daily_count)).
    lia.
  - rewrite <- E1, <- E2, <- E3, <- E4, <- E5.
    destruct b1, b2, b3, b4, b5; cbn [app]; split;
      intros H; try discriminate H; try reflexivity;
      repeat split; try reflexivity;
      destruct H as [? [? [? [? ?]]]]; discriminate.
Qed.

(** A weekday-morning request of 450 with no velocity count: no factor. *)
Lemma no_risk_factor_iff_no_rule_fires_witness :
  Fraud._calculate_risk_factors Scenario.runtime
    (Api.now_rules Scenario.clock) (Api.model_dump Scenario.office_depot)
  = Py.Ret [].
Proof.
  destruct (no_risk_factor_iff_no_rule_fires Scenario.runtime
              (Api.now_rules Scenario.clock) (Api.model_dump Scenario.office_depot)
              {| Txn.hour := 10; Txn.weekday := 2 |} eq_refl)
    as [rf [Hrf [_ Hiff]]].
  rewrite Hrf. f_equal. apply Hiff.
  cbn [Api.model_dump Scenario.office_depot Txn.amount Txn.daily_transaction_count
       Py.get amount Txn.hour Txn.weekday].
  split; [lra |]. split; [lia |]. split; [lia |]. split; [| lra].
  intros [k [_ Hge]]. lra.
Defined.

(** X4. The risk factors come from the rule checks alone: two agents with
    different detectors and scalers report the same factors for the same
    transaction, provided both scalers return. *)
Theorem risk_factors_ignore_the_detectors (rt : Fraud.Runtime)
    (m1 m2 : Fraud.Models) (now now' : Txn.datetime) (t : Txn.Dict)
    (f fs1 fs2 : list R) :
  Fraud._extract_features rt now t = Py.Ret f ->
  Fraud.fit_transform m1 f = Py.Ret fs1 ->
  Fraud.fit_transform m2 f = Py.Ret fs2 ->
  Fraud.risk_factors (Fraud.detect_fraud rt m1 now now' t)
  = Fraud.risk_factors (Fraud.detect_fraud rt m2 now now' t).
Proof.
  intros Hf H1 H2.
  destruct (risk_factors_return rt now now' t f Hf) as [rf Hrf].
  rewrite (detect_fraud_scored rt m1 now now' t f fs1 rf Hf H1 Hrf).
  rewrite (detect_fraud_scored rt m2 now now' t f fs2 rf Hf H2 Hrf).
  reflexivity.
Qed.

(** Detectors that all raise against detectors fitted on the one sample. *)
Lemma risk_factors_ignore_the_detectors_witness :
  Fraud.risk_factors
    (Fraud.detect_fraud Scenario.runtime Scenario.failing_detectors
       (Api.now_features Scenario.clock) (Api.now_rules Scenario.clock)
       (Api.model_dump Scenario.office_depot))
  = Fraud.risk_factors
      (Fraud.detect_fraud Scenario.runtime Scenario.single_sample_detectors
         (Api.now_features Scenario.clock) (Api.now_rules Scenario.clock)
         (Api.model_dump Scenario.office_depot)).
Proof.
  destruct (api_extraction_returns
              (Scenario.agents Scenario.failing_detectors Scenario.services)
              Scenario.clock Scenario.office_depot _
              {| Txn.hour := 10; Txn.weekday := 2 |} eq_refl eq_refl) as [f Hf].
  exact (risk_factors_ignore_the_detectors Scenario.runtime
           Scenario.failing_detectors Scenario.single_sample_detectors
           (Api.now_features Scenario.clock) (Api.now_rules Scenario.clock)
           (Api.model_dump Scenario.office_depot) f
           (map (fun _ => 0%R) f) (map (fun _ => 0%R) f) Hf eq_refl eq_refl).
Defined.

Lemma bucket_bounds (h n : Z) :
  (0 < n)%Z -> (0 <= IZR (h mod n) <= IZR (n - 1))%R.
Proof.
  intros Hn. pose proof (Z.mod_pos_bound h n Hn) as [Hlo Hhi].
  split; apply IZR_le; lia.
Qed.

(** X5. A feature vector, when extraction returns one, has eleven entries;
    the three name buckets lie between 0 and 99, the location bucket
    between 0 and 49, whatever the hash secret and even for negative hash
    values, and the weekend flag is 0 or 1. *)
Theorem feature_vector_shape (rt : Fraud.Runtime) (now : Txn.datetime)
    (t : Txn.Dict) (f : list R) :
  Fraud._extract_features rt now t = Py.Ret f ->
  List.length f = 11%nat
  /\ (nth 4 f 0 = 0 \/ nth 4 f 0 = 1)%R
  /\ (0 <= nth 5 f 0 <= 99)%R
  /\ (0 <= nth 6 f 0 <= 99)%R
  /\ (0 <= nth 7 f 0 <= 99)%R
  /\ (0 <= nth 8 f 0 <= 49)%R.
Proof.
  intros Hf.
  assert (Hts : exists ts, Fraud.read_timestamp rt now t = Py.Ret ts).
  { unfold Fraud._extract_features in Hf.
    apply bind_ret_inv in Hf. destruct Hf as [ts [Hts _]]. now exists ts. }
  destruct Hts as [ts Hts].
  rewrite (extract_features_value rt now t ts Hts) in Hf.
  apply ret_inj in Hf. subst f. cbn [List.length nth].
  split; [reflexivity |].
  split; [destruct (Txn.weekday ts >=? 5)%Z; auto |].
  repeat split; try (apply (bucket_bounds _ 100); lia);
    apply (bucket_bounds _ 50); lia.
Qed.

Lemma feature_vector_shape_witness :
  exists f,
    Fraud._extract_features Scenario.runtime (Api.now_features Scenario.clock)
      (Api.model_dump Scenario.office_depot) = Py.Ret f
    /\ List.length f = 11%nat
    /\ (0 <= nth 5 f 0 <= 99)%R.
Proof.
  destruct (api_extraction_returns
              (Scenario.agents Scenario.failing_detectors Scenario.services)
              Scenario.clock Scenario.office_depot _
              {| Txn.hour := 10; Txn.weekday := 2 |} eq_refl eq_refl) as [f Hf].
  exists f. split; [exact Hf |].
  destruct (feature_vector_shape Scenario.runtime (Api.now_features Scenario.clock)
              (Api.model_dump Scenario.office_depot) f Hf)
    as [Hlen [_ [Hb _]]].
  split; assumption.
Defined.

(** X6. The HTTP handler stores a missing timestamp as [None], and a
    [None] timestamp makes feature extraction raise: a request sent
    without a timestamp, or with one the parser rejects, is never scored by
    the detectors and always gets the fallback assessment. *)
Theorem request_without_timestamp_gets_fallback (ag : Api.Agents)
    (ck : Api.Clock) (t : Transaction) :
  timestamp t = None
  \/ (exists s e, timestamp t = Some s
                  /\ Fraud.fromisoformat (Api.runtime ag) (Fraud.replace_Z s)
                     = Py.Raise e) ->
  Api.fraud_step ag ck t = Fraud.safe_default
  /\ forall resp,
       Api.process_transaction ag ck t = Py.Ret resp ->
       Api.fraud_analysis resp
       = {| Api.fa_risk_level := "MEDIUM";
            Api.fa_score := 0.5;
            Api.fa_confidence := 0;
            Api.fa_risk_factors := [Fraud.ErrorDuringAnalysis] |}.
Proof.
  intros Hts.
  assert (Hd : Api.fraud_step ag ck t = Fraud.safe_default).
  { unfold Api.fraud_step.
    destruct Hts as [Hnone | [s [e [Hs He]]]].
    - apply detect_fraud_extraction_raises with "AttributeError"%string.
      now apply api_missing_timestamp.
    - apply detect_fraud_extraction_raises with e.
      unfold Fraud._extract_features, Fraud.read_timestamp, Api.model_dump.
      cbn [Txn.timestamp]. now rewrite Hs, He. }
  split; [exact Hd |].
  intros resp Hr. apply api_process_transaction_inv in Hr.
  destruct Hr as [c [s [_ [_ ->]]]]. rewrite Hd. reflexivity.
Qed.

Lemma request_without_timestamp_gets_fallback_witness :
  Api.fraud_step (Scenario.agents Cases.in_range_detectors Scenario.services)
    Scenario.clock Scenario.office_depot_untimed
  = Fraud.safe_default.
Proof.
  refine (proj1 (request_without_timestamp_gets_fallback
                   (Scenario.agents Cases.in_range_detectors Scenario.services)
                   Scenario.clock Scenario.office_depot_untimed _)).
  left. reflexivity.
Defined.

Lemma std_of_unit_scores (a b c d e : R) :
  (0 <= a <= 1)%R -> (0 <= b <= 1)%R -> (0 <= c <= 1)%R ->
  (0 <= d <= 1)%R -> (0 <= e <= 1)%R ->
  (0 <= Fraud.std [a; b; c; d; e] <= 1)%R.
Proof.
  intros Ha Hb Hc Hd He. split; [apply sqrt_pos |].
  unfold Fraud.std.
  set (mu := Fraud.mean [a; b; c; d; e]).
  assert (Hmu : (0 <= mu <= 1)%R).
  { unfold mu, Fraud.mean, Py.sum. cbn [fold_left List.length INR].
    replace (1 + 1 + 1 + 1 + 1)%R with 5%R by lra. lra. }
  clearbody mu.
  assert (Hterm : forall x, (0 <= x <= 1)%R -> (0 <= Rsqr (Rabs (x - mu)) <= 1)%R).
  { intros x Hx. rewrite <- Rsqr_abs. unfold Rsqr.
    assert (Hy : (-1 <= x - mu <= 1)%R) by lra.
    generalize dependent (x - mu)%R. intros y Hy. nra. }
  pose proof (Hterm a Ha). pose proof (Hterm b Hb). pose proof (Hterm c Hc).
  pose proof (Hterm d Hd). pose proof (Hterm e He).
  rewrite <- sqrt_1. apply sqrt_le_1_alt.
  unfold Fraud.mean, Py.sum. cbn [map fold_left List.length INR].
  replace (1 + 1 + 1 + 1 + 1)%R with 5%R by lra.
  lra.
Qed.

(** X7. When every detector either raises or scores the sample within the
    range of its training scores, the reported score and the reported
    confidence both lie in the unit interval, on every path of
    [detect_fraud]. *)
Theorem in_range_detectors_give_unit_scores (rt : Fraud.Runtime)
    (m : Fraud.Models) (now now' : Txn.datetime) (t : Txn.Dict) :
  (forall fs name, In name Fraud.models -> in_range_or_failed m fs name) ->
  let result := Fraud.detect_fraud rt m now now' t in
  (0 <= Fraud.overall_score result <= 1)%R
  /\ (0 <= Fraud.confidence result <= 1)%R.
Proof.
  intros Hall. cbv zeta.
  assert (Hdefault :
    (0 <= Fraud.overall_score Fraud.safe_default <= 1)%R
    /\ (0 <= Fraud.confidence Fraud.safe_default <= 1)%R).
  { cbn [Fraud.safe_default Fraud.overall_score Fraud.confidence]. lra. }
  destruct (Fraud._extract_features rt now t) as [f | e] eqn:Hf;
    [| now rewrite (detect_fraud_extraction_raises rt m now now' t e Hf)].
  destruct (Fraud.fit_transform m f) as [fs | e] eqn:Hfs;
    [| now rewrite (detect_fraud_scaler_raises rt m now now' t f e Hf Hfs)].
  destruct (risk_factors_return rt now now' t f Hf) as [rf Hrf].
  rewrite (detect_fraud_scored rt m now now' t f fs rf Hf Hfs Hrf).
  split; [apply overall_score_in_unit; apply Hall |].
  unfold scored, anomaly_scores_of. cbn [Fraud.confidence].
  rewrite map_map. unfold Fraud.models. cbn [map].
  assert (Hstd :
    (0 <= Fraud.std
            [snd (Fraud.score_model m fs "isolation_forest");
             snd (Fraud.score_model m fs "lof");
             snd (Fraud.score_model m fs "knn");
             snd (Fraud.score_model m fs "cblof");
             snd (Fraud.score_model m fs "hbos")] <= 1)%R).
  { apply std_of_unit_scores;
      apply (stored_score_in_unit m fs); apply Hall; unfold Fraud.models;
      simpl; auto 6. }
  lra.
Qed.

Lemma in_range_detectors_give_unit_scores_witness :
  let result :=
    Fraud.detect_fraud Scenario.runtime Cases.in_range_detectors
      (Api.now_features Scenario.clock) (Api.now_rules Scenario.clock)
      (Api.model_dump Scenario.office_depot) in
  (0 <= Fraud.overall_score result <= 1)%R
  /\ (0 <= Fraud.confidence result <= 1)%R.
Proof.
  apply (in_range_detectors_give_unit_scores Scenario.runtime
           Cases.in_range_detectors).
  intros fs name _. unfold in_range_or_failed.
  cbn [Cases.in_range_detectors Fraud.fit_score Fraud.score
       Fraud.decision_scores_min Fraud.decision_scores_max]. lra.
Defined.

(* ================================================================== *)
(** ** Status, recommendations and sanctions matching *)
(* ================================================================== *)

Lemma clean_risk_score : Compliance.calculate_risk_score false false [] = 0%R.
Proof.
  unfold Compliance.calculate_risk_score. cbn [List.length INR].
  unfold Rmin. destruct (Rle_dec (0 + 0 * 0.1) 1); lra.
Qed.

Lemma determine_status_cases (hit pep : bool) (vs : list string) :
  let status :=
    Compliance.determine_status hit pep vs
      (Compliance.calculate_risk_score hit pep vs) in
  (hit = true /\ status = "REJECTED"%string)
  \/ (hit = false /\ (pep = true \/ vs <> []) /\ status = "REVIEW_REQUIRED"%string)
  \/ (hit = false /\ pep = false /\ vs = [] /\ status = "APPROVED"%string).
Proof.
  cbv zeta. unfold Compliance.determine_status.
  destruct hit; [left; split; reflexivity |].
  destruct pep.
  - right. left. split; [reflexivity |]. split; [now left | reflexivity].
  - destruct vs as [| v rest].
    + right. right. rewrite clean_risk_score. float_cmp.
      repeat split; reflexivity.
    + right. left. split; [reflexivity |]. split; [right; discriminate |].
      cbn [orb].
      destruct ((2 <? List.length (v :: rest))%nat
                || Py.gt (Compliance.calculate_risk_score false false (v :: rest)) 0.7);
        reflexivity.
Qed.

(** X8. What the three statuses of a compliance result mean: REJECTED
    exactly when there is a sanctions hit; APPROVED exactly when there is
    no sanctions hit, no PEP hit and no policy violation; REVIEW_REQUIRED
    exactly when there is no sanctions hit but a PEP hit or a violation.
    The tests on more than two violations and on a risk score above 0.7
    never decide anything. *)
Theorem compliance_status_meaning (sv : Compliance.Services)
    (a : Compliance.Agent) (now : string) (t : Txn.Dict)
    (r : Compliance.ComplianceResult) :
  Compliance.check_compliance sv a now t = Py.Ret r ->
  (Compliance.status r = "REJECTED"%string
   <-> Compliance.sanctions_hit r = true)
  /\ (Compliance.status r = "APPROVED"%string
      <-> Compliance.sanctions_hit r = false
          /\ Compliance.pep_hit r = false
          /\ Compliance.policy_violations r = [])
  /\ (Compliance.status r = "REVIEW_REQUIRED"%string
      <-> Compliance.sanctions_hit r = false
          /\ (Compliance.pep_hit r = true \/ Compliance.policy_violations r <> [])).
Proof.
  intros H. apply check_compliance_inv in H. destruct H as [ps [_ ->]].
  unfold assessment.
  cbn [Compliance.status Compliance.sanctions_hit Compliance.pep_hit
       Compliance.policy_violations].
  set (hit := fst (Compliance._check_sanctions a _)).
  set (pep := fst (Compliance._check_pep a _)).
  set (vs := Compliance._check_policy_violations t ps).
  destruct (determine_status_cases hit pep vs)
    as [[Hh ->] | [[Hh [Hpv ->]] | [Hh [Hp [Hv ->]]]]].
  - rewrite Hh. repeat split; intros; try reflexivity; try discriminate;
      destruct H as [? _]; discriminate.
  - rewrite Hh. repeat split; intros; try reflexivity; try discriminate.
    + destruct H as [_ [Hp Hv]]. destruct Hpv as [Hp' | Hv']; congruence.
    + exact Hpv.
  - rewrite Hh, Hp, Hv. repeat split; intros; try reflexivity; try discriminate.
    destruct H as [_ [? | ?]]; [discriminate | congruence].
Qed.

Lemma compliance_status_meaning_witness :
  exists r,
    Compliance.check_compliance Scenario.services Scenario.compliance_agent
      "2025-01-15T09:00:00" (Api.model_dump Scenario.suspicious_corp) = Py.Ret r
    /\ (Compliance.status r = "REJECTED"%string
        <-> Compliance.sanctions_hit r = true).
Proof.
  eexists. split.
  - apply (check_compliance_returns _ _ _ _ [0%R; 0%R]);
      [reflexivity | discriminate | reflexivity].
  - refine (proj1 (compliance_status_meaning Scenario.services
                     Scenario.compliance_agent "2025-01-15T09:00:00"
                     (Api.model_dump Scenario.suspicious_corp) _ _)).
    apply (check_compliance_returns _ _ _ _ [0%R; 0%R]);
      [reflexivity | discriminate | reflexivity].
Defined.

(** X9. A compliance result carries no recommendation exactly when its
    status is APPROVED and the amount is at most 5000; an approved
    transaction above 5000 gets the audit-trail suggestion and nothing
    else. *)
Theorem recommendations_empty_iff (sv : Compliance.Services)
    (a : Compliance.Agent) (now : string) (t : Txn.Dict)
    (r : Compliance.ComplianceResult) :
  Compliance.check_compliance sv a now t = Py.Ret r ->
  (Compliance.recommendations r = []
   <-> Compliance.status r = "APPROVED"%string
       /\ (Py.get (Txn.amount t) 0 <= 5000)%R)
  /\ (Compliance.status r = "APPROVED"%string ->
      (5000 < Py.get (Txn.amount t) 0)%R ->
      Compliance.recommendations r
      = ["Consider additional documentation for audit trail"%string]).
Proof.
  intros H. apply check_compliance_inv in H. destruct H as [ps [_ ->]].
  unfold assessment.
  cbn [Compliance.status Compliance.recommendations].
  set (hit := fst (Compliance._check_sanctions a _)).
  set (pep := fst (Compliance._check_pep a _)).
  set (sm := snd (Compliance._check_sanctions a _)).
  set (pm := snd (Compliance._check_pep a _)).
  set (vs := Compliance._check_policy_violations t ps).
  set (amount := Py.get (Txn.amount t) 0%R).
  unfold Compliance.generate_recommendations.
  destruct (determine_status_cases hit pep vs)
    as [[Hh ->] | [[Hh [Hpv ->]] | [Hh [Hp [Hv ->]]]]].
  - rewrite Hh. cbn [String.eqb Ascii.eqb Bool.eqb andb app].
    split; [split |]; intros; try discriminate.
    destruct H as [? _]; discriminate.
  - rewrite Hh. cbn [String.eqb Ascii.eqb Bool.eqb andb app].
    split; [split |]; intros; try discriminate.
    + exfalso. destruct Hpv as [Hp | Hv].
      * rewrite Hp in H. discriminate H.
      * destruct pep; [discriminate H |]. destruct vs; [congruence | discriminate H].
    + destruct H as [? _]; discriminate.
  - rewrite Hh, Hp, Hv. cbn [String.eqb Ascii.eqb Bool.eqb andb app].
    destruct (gt_cases amount 5000) as [[-> Hgt] | [-> Hle]].
    + split; [split |]; intros; try discriminate; try reflexivity.
      destruct H as [_ ?]. lra.
    + split; [split |]; intros; try reflexivity; try lra.
      split; [reflexivity | exact Hle].
Qed.

Lemma recommendations_empty_iff_witness :
  exists r,
    Compliance.check_compliance Scenario.services Scenario.compliance_agent
      "2025-01-15T09:00:00" (Api.model_dump Scenario.office_depot) = Py.Ret r
    /\ (Compliance.recommendations r = []
        <-> Compliance.status r = "APPROVED"%string
            /\ (Py.get (Txn.amount (Api.model_dump Scenario.office_depot)) 0
                <= 5000)%R).
Proof.
  eexists. split.
  - apply (check_compliance_returns _ _ _ _ [0%R; 0%R]);
      [reflexivity | discriminate | reflexivity].
  - refine (proj1 (recommendations_empty_iff Scenario.services
                     Scenario.compliance_agent "2025-01-15T09:00:00"
                     (Api.model_dump Scenario.office_depot) _ _)).
    apply (check_compliance_returns _ _ _ _ [0%R; 0%R]);
      [reflexivity | discriminate | reflexivity].
Defined.

Lemma match_sanction_length (el : string) (s : Compliance.SanctionsList) :
  (List.length (Compliance.match_sanction el s) <= 1)%nat.
Proof.
  unfold Compliance.match_sanction.
  destruct (Compliance.either_contains (Compliance.entity_name s) el);
    [simpl; lia |].
  destruct (find _ (Compliance.aliases s)); simpl; lia.
Qed.

Lemma match_sanction_nonempty (el : string) (s : Compliance.SanctionsList) :
  Compliance.match_sanction el s <> []
  <-> Compliance.either_contains (Compliance.entity_name s) el = true
      \/ exists alias,
           In alias (Compliance.aliases s)
           /\ Compliance.either_contains alias el = true.
Proof.
  unfold Compliance.match_sanction.
  destruct (Compliance.either_contains (Compliance.entity_name s) el) eqn:Em.
  - split; [intros _; now left | intros _; discriminate].
  - destruct (find (fun alias => Compliance.either_contains alias el)
                   (Compliance.aliases s)) as [alias |] eqn:Ef.
    + apply find_some in Ef. destruct Ef as [Hin Hc].
      split; [intros _; right; now exists alias | intros _; discriminate].
    + split; [intros H; now contradiction H |].
      intros [H | [alias [Hin Hc]]]; [discriminate H |].
      pose proof (find_none _ _ Ef alias Hin) as Hn. cbv beta in Hn. congruence.
Qed.

Lemma flat_map_nonempty {A B : Type} (f : A -> list B) (l : list A) :
  flat_map f l <> [] <-> exists x, In x l /\ f x <> [].
Proof.
  induction l as [| x rest IH]; cbn [flat_map].
  - split; [intros H; now contradiction H | intros [x [[] _]]].
  - split.
    + intros H. destruct (f x) as [| y ys] eqn:E.
      * cbn [app] in H. apply IH in H. destruct H as [z [Hz Hfz]].
        exists z. split; [now right | exact Hfz].
      * exists x. split; [now left | rewrite E; discriminate].
    + intros [z [[-> | Hz] Hfz]].
      * destruct (f z); [now contradiction Hfz | discriminate].
      * intros H. apply app_eq_nil in H. destruct H as [_ H].
        revert H. apply IH. now exists z.
Qed.

Lemma flat_map_length_le {A B : Type} (f : A -> list B) (l : list A) :
  (forall x, List.length (f x) <= 1)%nat ->
  (List.length (flat_map f l) <= List.length l)%nat.
Proof.
  intros Hf. induction l as [| x rest IH]; cbn [flat_map List.length].
  - lia.
  - rewrite length_app. pose proof (Hf x). lia.
Qed.

Lemma hit_iff_matches_nonempty (a : Compliance.Agent) (name : string) :
  fst (Compliance._check_sanctions a name) = true
  <-> snd (Compliance._check_sanctions a name) <> [].
Proof.
  unfold Compliance._check_sanctions. cbn [fst snd].
  destruct (flat_map _ (Compliance.sanctions_lists a)) as [| m ms].
  - split; [discriminate | intros H; now contradiction H].
  - split; [discriminate | reflexivity].
Qed.

Lemma hit_of_entry_match (a : Compliance.Agent) (name : string)
    (s : Compliance.SanctionsList) :
  In s (Compliance.sanctions_lists a) ->
  entry_matches s name ->
  fst (Compliance._check_sanctions a name) = true.
Proof.
  intros Hin Hm. apply hit_iff_matches_nonempty.
  unfold Compliance._check_sanctions. cbn [snd].
  apply flat_map_nonempty. exists s. split; [exact Hin |].
  apply match_sanction_nonempty. exact Hm.
Qed.

(** X10. The sanctions check reports a hit exactly when some entry of the
    list matches, on its main name or on one of its aliases, by containment
    in either direction after lower-casing; and it records at most one
    match per entry. *)
Theorem sanctions_hit_iff_some_entry_matches (a : Compliance.Agent)
    (name : string) :
  (fst (Compliance._check_sanctions a name) = true
   <-> exists s, In s (Compliance.sanctions_lists a) /\ entry_matches s name)
  /\ (List.length (snd (Compliance._check_sanctions a name))
      <= List.length (Compliance.sanctions_lists a))%nat.
Proof.
  split.
  - split.
    + intros H. apply hit_iff_matches_nonempty in H.
      unfold Compliance._check_sanctions in H. cbn [snd] in H.
      apply flat_map_nonempty in H. destruct H as [s [Hin Hne]].
      exists s. split; [exact Hin |].
      apply match_sanction_nonempty. exact Hne.
    + intros [s [Hin Hm]]. now apply hit_of_entry_match with s.
  - unfold Compliance._check_sanctions. cbn [snd].
    apply flat_map_length_le. intros s. apply match_sanction_length.
Qed.

Lemma prefix_app (x q : string) : String.prefix x (x ++ q) = true.
Proof.
  induction x as [| c x IH]; cbn.
  - destruct q; reflexivity.
  - destruct (ascii_dec c c) as [_ | N]; [exact IH | now contradiction N].
Qed.

Lemma str_in_unfold (needle hay : string) :
  Py.str_in needle hay
  = if String.prefix needle hay then true
    else match hay with
         | EmptyString => false
         | String _ rest => Py.str_in needle rest
         end.
Proof. destruct hay; reflexivity. Qed.

Lemma str_in_middle (x p q : string) : Py.str_in x (p ++ x ++ q) = true.
Proof.
  induction p as [| c p IH].
  - cbn [String.append]. rewrite str_in_unfold, prefix_app. reflexivity.
  - cbn [String.append]. rewrite str_in_unfold.
    destruct (String.prefix x (String c (p ++ x ++ q))); [reflexivity | exact IH].
Qed.

(** X11. Matching is by containment in both directions after
    lower-casing: a name that contains a listed name or alias anywhere
    inside it is a hit, and so is a name that is itself a fragment of a
    listed name or alias, whatever surrounds the fragment. *)
Theorem containing_or_contained_names_hit (a : Compliance.Agent)
    (s : Compliance.SanctionsList) (listed p q name : string) :
  In s (Compliance.sanctions_lists a) ->
  listed = Compliance.entity_name s \/ In listed (Compliance.aliases s) ->
  Py.lower name = (p ++ Py.lower listed ++ q)%string
  \/ Py.lower listed = (p ++ Py.lower name ++ q)%string ->
  fst (Compliance._check_sanctions a name) = true.
Proof.
  intros Hin Hlisted Hshape.
  apply hit_of_entry_match with s; [exact Hin |].
  assert (Hc : Compliance.either_contains listed (Py.lower name) = true).
  { unfold Compliance.either_contains. apply orb_true_iff.
    destruct Hshape as [-> | ->]; [left | right]; apply str_in_middle. }
  unfold entry_matches.
  destruct Hlisted as [-> | Halias]; [now left | right; now exists listed].
Qed.

(** A merchant that merely contains the letters of the alias "SCI", and a
    merchant whose whole name is the single letter "a". *)
Lemma containing_or_contained_names_hit_witness :
  fst (Compliance._check_sanctions Scenario.compliance_agent
         "Pisciculture Nord") = true
  /\ fst (Compliance._check_sanctions Scenario.compliance_agent "a") = true.
Proof.
  split.
  - apply (containing_or_contained_names_hit Scenario.compliance_agent
             {| Compliance.entity_name := "Suspicious Corp International";
                Compliance.entity_type := "ORGANIZATION";
                Compliance.country := "Country X";
                Compliance.list_type := "OFAC_SDN";
                Compliance.added_date := "2024-01-15";
                Compliance.aliases := ["SCI"; "Sus Corp"]%string |}
             "SCI" "pi" "culture nord").
    + left. reflexivity.
    + right. left. reflexivity.
    + left. reflexivity.
  - apply (containing_or_contained_names_hit Scenario.compliance_agent
             {| Compliance.entity_name := "Suspicious Corp International";
                Compliance.entity_type := "ORGANIZATION";
                Compliance.country := "Country X";
                Compliance.list_type := "OFAC_SDN";
                Compliance.added_date := "2024-01-15";
                Compliance.aliases := ["SCI"; "Sus Corp"]%string |}
             "Suspicious Corp International" "suspicious corp intern" "tional").
    + left. reflexivity.
    + left. reflexivity.
    + right. reflexivity.
Defined.

(** X12. Extending the sanctions list never clears a hit: the matches
    after [update_sanctions_list] are the matches before, in the same
    order, followed by the matches among the new entries. *)
Theorem update_keeps_earlier_matches (a : Compliance.Agent)
    (new_entries : list Compliance.SanctionsList) (name : string) :
  let before := Compliance._check_sanctions a name in
  let after :=
    Compliance._check_sanctions
      (Compliance.update_sanctions_list a new_entries) name in
  snd after
  = snd before
    ++ flat_map (Compliance.match_sanction (Py.lower name)) new_entries
  /\ (fst before = true -> fst after = true)
  /\ (new_entries = [] -> after = before).
Proof.
  cbv zeta.
  assert (Hsnd :
    snd (Compliance._check_sanctions
           (Compliance.update_sanctions_list a new_entries) name)
    = snd (Compliance._check_sanctions a name)
      ++ flat_map (Compliance.match_sanction (Py.lower name)) new_entries).
  { unfold Compliance._check_sanctions, Compliance.update_sanctions_list.
    cbn [snd Compliance.sanctions_lists]. apply flat_map_app. }
  split; [exact Hsnd |]. split.
  - intros H. apply hit_iff_matches_nonempty.
    apply hit_iff_matches_nonempty in H. rewrite Hsnd.
    intros E. apply app_eq_nil in E. destruct E as [E _]. contradiction.
  - intros ->. unfold Compliance._check_sanctions, Compliance.update_sanctions_list.
    cbn [Compliance.sanctions_lists]. now rewrite app_nil_r.
Qed.

Lemma policy_checks_cite (t : Txn.Dict) (amount : R) (category policy : string) :
  Forall (fun v => v = ("Policy violation: " ++ policy)%string)
         (Compliance.policy_checks t amount category policy)
  /\ (List.length (Compliance.policy_checks t amount category policy) <= 4)%nat.
Proof.
  unfold Compliance.policy_checks.
  destruct (Py.str_in "above $10,000" (Py.lower policy) && Py.gt amount 10000
            && negb (Txn.manager_approval t));
    destruct (Py.str_in "above $25,000" (Py.lower policy) && Py.gt amount 25000
              && negb (Txn.competitive_bids t));
    destruct (Py.str_in "entertainment" (Py.lower policy)
              && Py.str_in "entertainment" category && Py.gt amount 500);
    destruct (Py.str_in "travel" (Py.lower policy) && Py.str_in "travel" category
              && negb (Txn.corporate_booking t));
    cbn [app List.length]; split; try lia; repeat constructor.
Qed.

(** X13. Every reported violation is the text "Policy violation: "
    followed by one of the retrieved policies; a policy is cited at most
    four times; and when retrieval returns nothing there is no violation,
    whatever the amount and the flags. *)
Theorem violations_cite_retrieved_policies (t : Txn.Dict) (policies : list string) :
  Forall (fun v => exists policy,
                     In policy policies
                     /\ v = ("Policy violation: " ++ policy)%string)
         (Compliance._check_policy_violations t policies)
  /\ (List.length (Compliance._check_policy_violations t policies)
      <= 4 * List.length policies)%nat
  /\ Compliance._check_policy_violations t [] = [].
Proof.
  unfold Compliance._check_policy_violations.
  set (amount := Py.get (Txn.amount t) 0%R).
  set (category := Py.lower (Py.get (Txn.category t) ""%string)).
  split; [| split; [| reflexivity]].
  - induction policies as [| p rest IH]; cbn [flat_map]; [constructor |].
    apply Forall_app. split.
    + destruct (policy_checks_cite t amount category p) as [Hc _].
      eapply Forall_impl; [| exact Hc].
      intros v ->. exists p. split; [now left | reflexivity].
    + eapply Forall_impl; [| exact IH].
      intros v [policy [Hin Hv]]. exists policy. split; [now right | exact Hv].
  - induction policies as [| p rest IH]; cbn [flat_map List.length]; [lia |].
    rewrite length_app.
    destruct (policy_checks_cite t amount category p) as [_ Hl]. lia.
Qed.

(** X14. The risk score of a compliance result lies in the unit interval;
    it is 0 for an approved transaction, at least 0.8 on a sanctions hit,
    and exactly 1 when a sanctions hit and a PEP hit come together. *)
Theorem risk_score_follows_the_hits (sv : Compliance.Services)
    (a : Compliance.Agent) (now : string) (t : Txn.Dict)
    (r : Compliance.ComplianceResult) :
  Compliance.check_compliance sv a now t = Py.Ret r ->
  (0 <= Compliance.risk_score r <= 1)%R
  /\ (Compliance.status r = "APPROVED"%string -> Compliance.risk_score r = 0%R)
  /\ (Compliance.sanctions_hit r = true -> (0.8 <= Compliance.risk_score r)%R)
  /\ (Compliance.sanctions_hit r = true -> Compliance.pep_hit r = true ->
      Compliance.risk_score r = 1%R).
Proof.
  intros H. apply check_compliance_inv in H. destruct H as [ps [_ ->]].
  unfold assessment.
  cbn [Compliance.status Compliance.sanctions_hit Compliance.pep_hit
       Compliance.risk_score].
  set (hit := fst (Compliance._check_sanctions a _)).
  set (pep := fst (Compliance._check_pep a _)).
  set (vs := Compliance._check_policy_violations t ps).
  split; [apply risk_score_in_unit |].
  split; [| split].
  - intros Hst.
    destruct (determine_status_cases hit pep vs)
      as [[_ E] | [[_ [_ E]] | [Hh [Hp [Hv _]]]]];
      try (rewrite E in Hst; discriminate Hst).
    rewrite Hh, Hp, Hv. apply clean_risk_score.
  - intros ->. unfold Compliance.calculate_risk_score.
    pose proof (pos_INR (List.length vs)) as Hn. unfold Rmin.
    destruct pep;
      match goal with |- context [Rle_dec ?x ?y] => destruct (Rle_dec x y) end;
      lra.
  - intros -> ->. unfold Compliance.calculate_risk_score.
    pose proof (pos_INR (List.length vs)) as Hn. unfold Rmin.
    match goal with |- context [Rle_dec ?x ?y] => destruct (Rle_dec x y) end; lra.
Qed.

Lemma risk_score_follows_the_hits_witness :
  exists r,
    Compliance.check_compliance Scenario.services Scenario.compliance_agent
      "2025-01-15T09:00:00" (Api.model_dump Scenario.suspicious_corp) = Py.Ret r
    /\ (0 <= Compliance.risk_score r <= 1)%R.
Proof.
  eexists. split.
  - apply (check_compliance_returns _ _ _ _ [0%R; 0%R]);
      [reflexivity | discriminate | reflexivity].
  - refine (proj1 (risk_score_follows_the_hits Scenario.services
                     Scenario.compliance_agent "2025-01-15T09:00:00"
                     (Api.model_dump Scenario.suspicious_corp) _ _)).
    apply (check_compliance_returns _ _ _ _ [0%R; 0%R]);
      [reflexivity | discriminate | reflexivity].
Defined.

(* ================================================================== *)
(** ** Adding policies and retrieving them *)
(* ================================================================== *)

Lemma candidates_app (index more : Faiss.IndexFlatL2) (q : Faiss.vector) (z : Z) :
  Faiss.candidates (index ++ more) q z
  = Faiss.candidates index q z
    ++ Faiss.candidates more q (z + Z.of_nat (List.length index)).
Proof.
  revert z. induction index as [| x rest IH]; intros z; cbn [app Faiss.candidates List.length].
  - now rewrite Z.add_0_r.
  - rewrite IH. do 3 f_equal. lia.
Qed.

Lemma candidates_distances (index : Faiss.IndexFlatL2) (q : Faiss.vector) (z : Z) :
  Forall (fun e => exists x, In x index /\ fst e = Faiss.l2sqr q x)
         (Faiss.candidates index q z).
Proof.
  revert z. induction index as [| x rest IH]; intros z; cbn [Faiss.candidates].
  - constructor.
  - constructor.
    + exists x. split; [now left | reflexivity].
    + eapply Forall_impl; [| apply IH].
      intros e [y [Hy He]]. exists y. split; [now right | exact He].
Qed.

(** An entry strictly nearer than all others sorts to the front, wherever
    it was stored. *)
Lemma sort_strictly_nearest_last (l : list (R * Z)) (e : R * Z) :
  Forall (fun x => (fst e < fst x)%R) l ->
  Faiss.sort (l ++ [e]) = e :: Faiss.sort l.
Proof.
  induction 1 as [| h t Hh Ht IH]; cbn [app Faiss.sort].
  - reflexivity.
  - rewrite IH. cbn [Faiss.insert].
    destruct (Rle_dec (fst h) (fst e)); [lra | reflexivity].
Qed.

(** Retrieval when the texts may outnumber the index vectors. *)
Lemma retrieve_returns_loose (sv : Compliance.Services) (a : Compliance.Agent)
    (t : Txn.Dict) (k : nat) (q : Faiss.vector) :
  Compliance.encode sv (Compliance.query_of sv t) = Py.Ret q ->
  (1 <= k)%nat ->
  Compliance.policy_texts a <> [] ->
  (Faiss.ntotal (Compliance.policy_index a)
   <= List.length (Compliance.policy_texts a))%nat ->
  Compliance._retrieve_relevant_policies sv a t k = Py.Ret (retrieved a q k).
Proof.
  intros Hq Hk Hne Hlen. unfold Compliance._retrieve_relevant_policies, retrieved.
  rewrite Hq. simpl Py.bind at 1.
  rewrite (search_returns _ q k Hk). simpl Py.bind. simpl snd.
  apply mapM_app.
  - apply mapM_index_in_range.
    eapply Forall_impl; [| apply firstn_labels].
    intros i Hi. cbv beta in Hi. unfold Faiss.ntotal in Hlen. lia.
  - apply mapM_index_padding, Hne.
Qed.

(** The single nearest policy, when the last stored vector is strictly
    nearer to the query than every other one. *)
Lemma retrieve_nearest_last (sv : Compliance.Services) (a : Compliance.Agent)
    (t : Txn.Dict) (q v : Faiss.vector) (index : Faiss.IndexFlatL2) :
  Compliance.encode sv (Compliance.query_of sv t) = Py.Ret q ->
  Compliance.policy_index a = (index ++ [v])%list ->
  (List.length index < List.length (Compliance.policy_texts a))%nat ->
  (forall x, In x index -> (Faiss.l2sqr q v < Faiss.l2sqr q x)%R) ->
  Compliance._retrieve_relevant_policies sv a t 1
  = Py.Ret [nth (List.length index) (Compliance.policy_texts a) ""%string].
Proof.
  intros Hq Hidx Hlen Hnear.
  assert (Hne : Compliance.policy_texts a <> []).
  { intros E. rewrite E in Hlen. simpl in Hlen. lia. }
  rewrite (retrieve_returns_loose sv a t 1 q Hq (le_n 1) Hne).
  2:{ unfold Faiss.ntotal. rewrite Hidx, length_app. simpl. lia. }
  unfold retrieved, Faiss.ntotal. rewrite Hidx, length_app.
  change (List.length [v]) with 1%nat.
  replace (1 - (List.length index + 1))%nat with 0%nat by lia.
  rewrite candidates_app. cbn [Faiss.candidates].
  rewrite sort_strictly_nearest_last.
  - cbn [firstn map snd repeat app]. unfold text_at.
    now rewrite Z.add_0_l, Nat2Z.id.
  - pose proof (candidates_distances index q 0) as Hd.
    eapply Forall_impl; [| exact Hd].
    intros e [x [Hx He]]. cbn [fst]. rewrite He. now apply Hnear.
Qed.

(** X15. [add_policy] on an agent whose texts and index are in step: when
    the encoder returns, the new text is the last text, texts and index
    are in step again, and a query whose embedding is strictly nearer to
    the new policy's embedding than to every older one retrieves exactly
    the new text with k = 1. *)
Theorem added_policy_is_retrieved (sv : Compliance.Services)
    (a : Compliance.Agent) (text : string) (v q : Faiss.vector) (t : Txn.Dict) :
  aligned a ->
  Compliance.encode sv text = Py.Ret v ->
  Compliance.encode sv (Compliance.query_of sv t) = Py.Ret q ->
  (forall x, In x (Compliance.policy_index a) ->
             (Faiss.l2sqr q v < Faiss.l2sqr q x)%R) ->
  let a' := fst (Compliance.add_policy sv a text) in
  snd (Compliance.add_policy sv a text) = Py.Ret tt
  /\ aligned a'
  /\ Compliance.policy_texts a' = (Compliance.policy_texts a ++ [text])%list
  /\ Compliance._retrieve_relevant_policies sv a' t 1 = Py.Ret [text].
Proof.
  intros Hal Hv Hq Hnear. cbv zeta.
  unfold Compliance.add_policy. rewrite Hv. cbn [fst snd].
  split; [reflexivity |].
  split.
  { unfold aligned, Faiss.ntotal, Faiss.add in *.
    cbn [Compliance.policy_texts Compliance.policy_index].
    rewrite !length_app. simpl. unfold aligned, Faiss.ntotal in Hal. lia. }
  split; [reflexivity |].
  match goal with
  | |- Compliance._retrieve_relevant_policies _ ?ag _ _ = _ =>
      rewrite (retrieve_nearest_last sv ag t q v (Compliance.policy_index a)
                 Hq eq_refl)
  end.
  - cbn [Compliance.policy_texts].
    unfold aligned, Faiss.ntotal in Hal. rewrite <- Hal.
    now rewrite nth_middle.
  - cbn [Compliance.policy_texts]. rewrite length_app.
    unfold aligned, Faiss.ntotal in Hal. simpl. lia.
  - exact Hnear.
Qed.

(** X16. [add_policy] is not atomic. When the encoder raises, the text
    stays appended while the index is unchanged, so the texts outnumber
    the vectors by one; the next policy that is added successfully is then
    stored one position too far, and a query nearest to its embedding
    retrieves the text of the failed call instead. *)
Theorem failed_add_shifts_the_next_policy (sv : Compliance.Services)
    (a : Compliance.Agent) (failed_text next_text e : string)
    (v q : Faiss.vector) (t : Txn.Dict) :
  aligned a ->
  Compliance.encode sv failed_text = Py.Raise e ->
  Compliance.encode sv next_text = Py.Ret v ->
  Compliance.encode sv (Compliance.query_of sv t) = Py.Ret q ->
  (forall x, In x (Compliance.policy_index a) ->
             (Faiss.l2sqr q v < Faiss.l2sqr q x)%R) ->
  let a1 := fst (Compliance.add_policy sv a failed_text) in
  let a2 := fst (Compliance.add_policy sv a1 next_text) in
  snd (Compliance.add_policy sv a failed_text) = Py.Raise e
  /\ List.length (Compliance.policy_texts a1)
     = S (Faiss.ntotal (Compliance.policy_index a1))
  /\ snd (Compliance.add_policy sv a1 next_text) = Py.Ret tt
  /\ Compliance._retrieve_relevant_policies sv a2 t 1 = Py.Ret [failed_text].
Proof.
  intros Hal He Hv Hq Hnear. cbv zeta.
  unfold Compliance.add_policy. rewrite He. cbn [fst snd].
  cbn [Compliance.policy_index Compliance.policy_texts
       Compliance.sanctions_lists Compliance.pep_list].
  rewrite Hv. cbn [fst snd].
  unfold aligned, Faiss.ntotal in Hal.
  split; [reflexivity |].
  split; [unfold Faiss.ntotal; rewrite length_app; simpl; lia |].
  split; [reflexivity |].
  match goal with
  | |- Compliance._retrieve_relevant_policies _ ?ag _ _ = _ =>
      rewrite (retrieve_nearest_last sv ag t q v (Compliance.policy_index a)
                 Hq eq_refl)
  end.
  - cbn [Compliance.policy_texts]. rewrite <- Hal, <- app_assoc.
    cbn [app]. now rewrite nth_middle.
  - cbn [Compliance.policy_texts]. rewrite !length_app. simpl. lia.
  - exact Hnear.
Qed.

Lemma gift_embedding_is_nearest (x : Faiss.vector) :
  In x (Compliance.policy_index Scenario.compliance_agent) ->
  (Faiss.l2sqr [3; 4] [3; 4] < Faiss.l2sqr [3; 4] x)%R.
Proof.
  intros Hin. apply repeat_spec in Hin. subst x.
  unfold Faiss.l2sqr, Py.sum. cbn [combine map fold_left fst snd].
  unfold Rsqr. lra.
Qed.

(** A new policy about gift cards, asked for by a query the encoder
    places where it placed the new policy. *)
Lemma added_policy_is_retrieved_witness :
  Compliance._retrieve_relevant_policies Cases.gift_services
    (fst (Compliance.add_policy Cases.gift_services Scenario.compliance_agent
            "Gift cards are prohibited."))
    (Api.model_dump Scenario.office_depot) 1
  = Py.Ret ["Gift cards are prohibited."%string].
Proof.
  refine (proj2 (proj2 (proj2
    (added_policy_is_retrieved Cases.gift_services Scenario.compliance_agent
       "Gift cards are prohibited." [3%R; 4%R] [3%R; 4%R]
       (Api.model_dump Scenario.office_depot) _ _ _ _)))).
  - reflexivity.
  - reflexivity.
  - reflexivity.
  - exact gift_embedding_is_nearest.
Defined.

(** The encoder times out on "Draft policy"; the gift-card policy added
    next is then retrieved under the draft's text. *)
Lemma failed_add_shifts_the_next_policy_witness :
  Compliance._retrieve_relevant_policies Cases.flaky_services
    (fst (Compliance.add_policy Cases.flaky_services
            (fst (Compliance.add_policy Cases.flaky_services
                    Scenario.compliance_agent "Draft policy"))
            "Gift cards are prohibited."))
    (Api.model_dump Scenario.office_depot) 1
  = Py.Ret ["Draft policy"%string].
Proof.
  refine (proj2 (proj2 (proj2
    (failed_add_shifts_the_next_policy Cases.flaky_services
       Scenario.compliance_agent "Draft policy" "Gift cards are prohibited."
       "TimeoutError" [3%R; 4%R] [3%R; 4%R]
       (Api.model_dump Scenario.office_depot) _ _ _ _ _)))).
  - reflexivity.
  - reflexivity.
  - reflexivity.
  - reflexivity.
  - exact gift_embedding_is_nearest.
Defined.

(** The seeded agent asked for three policies. *)
Lemma retrieve_within_index_witness :
  exists best rest,
    Compliance._retrieve_relevant_policies Scenario.services
      Scenario.compliance_agent (Api.model_dump Scenario.office_depot) 3
    = Py.Ret (map (text_at Scenario.compliance_agent) (map snd best))
    /\ List.length best = 3%nat
    /\ Permutation (best ++ rest)
         (Faiss.candidates (Compliance.policy_index Scenario.compliance_agent)
            [0%R; 0%R] 0)
    /\ StronglySorted nearer_or_earlier (best ++ rest).
Proof.
  apply (retrieve_within_index Scenario.services Scenario.compliance_agent
           (Api.model_dump Scenario.office_depot) 3 [0%R; 0%R]).
  - reflexivity.
  - unfold Faiss.ntotal. simpl. lia.
  - reflexivity.
Defined.

(* ================================================================== *)
(** ** The supervisor's graph run *)
(* ================================================================== *)

Lemma list_in_In (x : string) (l : list string) :
  Py.list_in x l = true -> In x l.
Proof.
  unfold Py.list_in. intros H. apply existsb_exists in H.
  destruct H as [y [Hin Heq]]. apply String.eqb_eq in Heq. now subst y.
Qed.

(** The supervisor routes to one of the six agents or answers FINISH. *)
Lemma supervisor_routes (o : Supervisor.Orchestrator) (st : Supervisor.AgentState)
    (n : string) :
  Supervisor.supervisor_node o st = Py.Ret n ->
  In n Supervisor.agents \/ n = "FINISH"%string.
Proof.
  unfold Supervisor.supervisor_node.
  destruct (Supervisor.model o) as [f |]; [| discriminate].
  destruct (f st) as [a | e]; [| discriminate].
  cbn [Py.bind]. intros H. apply ret_inj in H. subst n.
  destruct (Py.list_in a Supervisor.agents) eqn:Hin; cbn [negb andb].
  - left. now apply list_in_In.
  - destruct (String.eqb a "FINISH") eqn:Hf; cbn [negb].
    + right. now apply String.eqb_eq.
    + left. simpl. auto.
Qed.

(** One agent node: the request and the routing field are untouched, and
    the log grows by at most one decision, signed by the agent. *)
Lemma agent_node_frame (o : Supervisor.Orchestrator) (ck : Api.Clock)
    (name : string) (st : Supervisor.AgentState) :
  Supervisor.transaction_data (Supervisor.agent_node o ck name st)
  = Supervisor.transaction_data st
  /\ Supervisor.next (Supervisor.agent_node o ck name st) = Supervisor.next st
  /\ exists l,
       Supervisor.agent_decisions (Supervisor.agent_node o ck name st)
       = Supervisor.agent_decisions st ++ l
       /\ (List.length l <= 1)%nat
       /\ Forall (fun d => Supervisor.agent d = name) l.
Proof.
  unfold Supervisor.agent_node, Supervisor.log.
  destruct (String.eqb name "fraud_detection").
  { split; [reflexivity |]. split; [reflexivity |].
    eexists. split; [reflexivity |]. split; [simpl; lia |].
    constructor; [reflexivity | constructor]. }
  destruct (String.eqb name "compliance").
  { destruct (Compliance.check_compliance _ _ _ _) as [c | e];
      (split; [reflexivity |]; split; [reflexivity |];
       eexists; split; [reflexivity |]; split; [simpl; lia |];
       constructor; [reflexivity | constructor]). }
  split; [reflexivity |]. split; [reflexivity |].
  cbn [Supervisor.agent_decisions].
  destruct (Supervisor.collaborate o name st) as [[r |] | e].
  - eexists. split; [reflexivity |]. split; [simpl; lia |].
    constructor; [reflexivity | constructor].
  - exists []. split; [now rewrite app_nil_r |]. split; [simpl; lia | constructor].
  - eexists. split; [reflexivity |]. split; [simpl; lia |].
    constructor; [reflexivity | constructor].
Qed.

Lemma backed_weaken (d : Supervisor.Decision) (l l' : list Supervisor.Decision) :
  In d l -> In d (l ++ l').
Proof. intros H. apply in_or_app. now left. Qed.

(** One agent node keeps the score and the status backed by the log. *)
Lemma agent_node_backed (o : Supervisor.Orchestrator) (ck : Api.Clock)
    (name : string) (st : Supervisor.AgentState) :
  backed st -> backed (Supervisor.agent_node o ck name st).
Proof.
  intros [Hf Hc]. unfold backed, Supervisor.agent_node, Supervisor.log.
  destruct (String.eqb name "fraud_detection") eqn:En.
  { apply String.eqb_eq in En. subst name.
    cbn [Supervisor.fraud_score Supervisor.compliance_status
         Supervisor.agent_decisions]. split.
    - right. eexists. split.
      + apply in_or_app. right. left. reflexivity.
      + split; [reflexivity |]. cbn [Supervisor.result]. eauto.
    - destruct Hc as [Hc | [d [Hin Hd]]]; [now left |].
      right. exists d. split; [now apply backed_weaken | exact Hd]. }
  destruct (String.eqb name "compliance") eqn:Ec.
  { apply String.eqb_eq in Ec. subst name.
    destruct (Compliance.check_compliance _ _ _ _) as [c | e];
      cbn [Supervisor.fraud_score Supervisor.compliance_status
           Supervisor.agent_decisions]; split.
    - destruct Hf as [Hf | [d [Hin Hd]]]; [now left |].
      right. exists d. split; [now apply backed_weaken | exact Hd].
    - right. eexists. split.
      + apply in_or_app. right. left. reflexivity.
      + split; [reflexivity |]. cbn [Supervisor.result]. eauto 6.
    - destruct Hf as [Hf | [d [Hin Hd]]]; [now left |].
      right. exists d. split; [now apply backed_weaken | exact Hd].
    - destruct Hc as [Hc | [d [Hin Hd]]]; [now left |].
      right. exists d. split; [now apply backed_weaken | exact Hd]. }
  cbn [Supervisor.fraud_score Supervisor.compliance_status
       Supervisor.agent_decisions].
  assert (Hsub : forall d, In d (Supervisor.agent_decisions st) ->
            In d (match Supervisor.collaborate o name st with
                  | Py.Ret (Some r) =>
                      Supervisor.agent_decisions st
                      ++ [{| Supervisor.agent := name;
                             Supervisor.decided_at := Api.now_response ck;
                             Supervisor.result := r |}]
                  | Py.Ret None => Supervisor.agent_decisions st
                  | Py.Raise e =>
                      Supervisor.agent_decisions st
                      ++ [{| Supervisor.agent := name;
                             Supervisor.decided_at := Api.now_response ck;
                             Supervisor.result := Supervisor.Failed e |}]
                  end)).
  { intros d Hin.
    destruct (Supervisor.collaborate o name st) as [[r |] | e];
      [now apply backed_weaken | exact Hin | now apply backed_weaken]. }
  split.
  - destruct Hf as [Hf | [d [Hin Hd]]]; [now left |].
    right. exists d. split; [now apply Hsub | exact Hd].
  - destruct Hc as [Hc | [d [Hin Hd]]]; [now left |].
    right. exists d. split; [now apply Hsub | exact Hd].
Qed.

Lemma ainvoke_step (o : Supervisor.Orchestrator) (clock : nat -> Api.Clock)
    (n : nat) (st st' : Supervisor.AgentState) :
  Supervisor.ainvoke o clock (S n) st = Py.Ret st' ->
  exists a,
    Supervisor.supervisor_node o st = Py.Ret a
    /\ ((a = "FINISH"%string /\ st' = Supervisor.set_next st a)
        \/ (a <> "FINISH"%string /\ In a Supervisor.agents
            /\ Supervisor.ainvoke o clock n
                 (Supervisor.agent_node o (clock n) a (Supervisor.set_next st a))
               = Py.Ret st')).
Proof.
  cbn [Supervisor.ainvoke]. intros H.
  destruct (Supervisor.supervisor_node o st) as [a | e] eqn:Hs; [| discriminate].
  cbn [Py.bind] in H. exists a. split; [reflexivity |].
  destruct (String.eqb a "FINISH") eqn:Hf.
  - left. apply String.eqb_eq in Hf. split; [exact Hf |].
    apply ret_inj in H. now subst st'.
  - right. apply String.eqb_neq in Hf. split; [exact Hf |].
    split; [| exact H].
    destruct (supervisor_routes o st a Hs) as [Hin | Hfin]; [exact Hin | contradiction].
Qed.

Lemma ainvoke_invariants (o : Supervisor.Orchestrator) (clock : nat -> Api.Clock)
    (turns : nat) :
  forall st st',
    Supervisor.ainvoke o clock turns st = Py.Ret st' ->
    Supervisor.next st' = "FINISH"%string
    /\ Supervisor.transaction_data st' = Supervisor.transaction_data st
    /\ (backed st -> backed st')
    /\ exists l,
         Supervisor.agent_decisions st' = Supervisor.agent_decisions st ++ l
         /\ (List.length l < turns)%nat
         /\ Forall (fun d => In (Supervisor.agent d) Supervisor.agents) l.
Proof.
  induction turns as [| n IH]; intros st st' H; [discriminate |].
  apply ainvoke_step in H. destruct H as [a [Hs [[Hf ->] | [Hf [Hin H]]]]].
  - subst a. split; [reflexivity |]. split; [reflexivity |].
    split; [intros Hb; exact Hb |].
    exists []. split; [cbn; now rewrite app_nil_r |].
    split; [simpl; lia | constructor].
  - apply IH in H. destruct H as [Hn [Ht [Hb [l [Hl [Hlen Hall]]]]]].
    destruct (agent_node_frame o (clock n) a (Supervisor.set_next st a))
      as [Ft [_ [l0 [Fl [Flen Fall]]]]].
    split; [exact Hn |]. split; [now rewrite Ht, Ft |].
    split.
    { intros B. apply Hb. apply agent_node_backed. exact B. }
    exists (l0 ++ l). split; [| split].
    + rewrite Hl, Fl. cbn [Supervisor.set_next Supervisor.agent_decisions].
      now rewrite app_assoc.
    + rewrite length_app. lia.
    + apply Forall_app. split; [| exact Hall].
      eapply Forall_impl; [| exact Fall]. intros d Hd. cbn beta in Hd.
      now rewrite Hd.
Qed.

(** X18. A graph run that returns ends with the routing field on FINISH,
    leaves the request as it was, and only appends to the decision log:
    fewer decisions than the supervisor had turns, each signed by one of
    the six agents. *)
Theorem graph_run_extends_the_log (o : Supervisor.Orchestrator)
    (clock : nat -> Api.Clock) (turns : nat) (st st' : Supervisor.AgentState) :
  Supervisor.ainvoke o clock turns st = Py.Ret st' ->
  Supervisor.next st' = "FINISH"%string
  /\ Supervisor.transaction_data st' = Supervisor.transaction_data st
  /\ exists l,
       Supervisor.agent_decisions st' = Supervisor.agent_decisions st ++ l
       /\ (List.length l < turns)%nat
       /\ Forall (fun d => In (Supervisor.agent d) Supervisor.agents) l.
Proof.
  intros H. apply ainvoke_invariants in H.
  destruct H as [Hn [Ht [_ Hl]]]. auto.
Qed.

(** The chat model sends the request to the fraud agent, then finishes. *)
Lemma graph_run_extends_the_log_witness :
  let st := Supervisor.initial_state (Api.model_dump Scenario.office_depot) in
  let st' :=
    Supervisor.set_next
      (Supervisor.agent_node Cases.one_step_orchestrator Scenario.clock
         "fraud_detection" (Supervisor.set_next st "fraud_detection"))
      "FINISH" in
  Supervisor.next st' = "FINISH"%string
  /\ Supervisor.transaction_data st' = Supervisor.transaction_data st
  /\ exists l,
       Supervisor.agent_decisions st' = Supervisor.agent_decisions st ++ l
       /\ (List.length l < 25)%nat
       /\ Forall (fun d => In (Supervisor.agent d) Supervisor.agents) l.
Proof.
  intros st st'.
  apply (graph_run_extends_the_log Cases.one_step_orchestrator
           (fun _ => Scenario.clock) 25 st st').
  reflexivity.
Defined.

(** X19. Whatever a returned orchestration reports is backed by its log:
    the fraud score is the initial 0 or the score of a logged fraud
    decision, the compliance status is the initial "pending" or the status
    of a logged compliance decision; the status field is "completed" in
    every case, also when no agent ran. *)
Theorem results_are_backed_by_the_log (o : Supervisor.Orchestrator)
    (clock : nat -> Api.Clock) (t : Txn.Dict) (res : Supervisor.Results) :
  Supervisor.process_transaction o clock t = Py.Ret res ->
  Supervisor.res_status res = "completed"%string
  /\ Supervisor.res_transaction_id res = Txn.transaction_id t
  /\ (Supervisor.res_fraud_score res = 0%R
      \/ exists d, In d (Supervisor.res_agent_decisions res)
                   /\ backs_score d (Supervisor.res_fraud_score res))
  /\ (Supervisor.res_compliance_status res = "pending"%string
      \/ exists d, In d (Supervisor.res_agent_decisions res)
                   /\ backs_status d (Supervisor.res_compliance_status res)).
Proof.
  unfold Supervisor.process_transaction. intros H.
  apply bind_ret_inv in H. destruct H as [st' [Hrun H]].
  apply ret_inj in H. subst res.
  apply ainvoke_invariants in Hrun. destruct Hrun as [_ [Ht [Hb _]]].
  split; [reflexivity |].
  split; [cbn [Supervisor._format_results Supervisor.res_transaction_id];
          now rewrite Ht |].
  apply Hb. split; left; reflexivity.
Qed.

(** The chat model finishes at once: nothing ran, and the result still
    says "completed". *)
Lemma results_are_backed_by_the_log_witness :
  let res :=
    {| Supervisor.res_transaction_id := Some "TXN-1"%string;
       Supervisor.res_fraud_score := 0;
       Supervisor.res_compliance_status := "pending";
       Supervisor.res_agent_decisions := [];
       Supervisor.res_status := "completed" |} in
  Supervisor.res_status res = "completed"%string
  /\ Supervisor.res_transaction_id res
     = Txn.transaction_id (Api.model_dump Scenario.office_depot)
  /\ (Supervisor.res_fraud_score res = 0%R
      \/ exists d, In d (Supervisor.res_agent_decisions res)
                   /\ backs_score d (Supervisor.res_fraud_score res))
  /\ (Supervisor.res_compliance_status res = "pending"%string
      \/ exists d, In d (Supervisor.res_agent_decisions res)
                   /\ backs_status d (Supervisor.res_compliance_status res)).
Proof.
  intros res.
  apply (results_are_backed_by_the_log Cases.finishing_orchestrator
           (fun _ => Scenario.clock) (Api.model_dump Scenario.office_depot) res).
  reflexivity.
Defined.

Lemma never_finishing_run (o : Supervisor.Orchestrator) (clock : nat -> Api.Clock)
    (f : Supervisor.AgentState -> Py.exc string) (turns : nat) :
  Supervisor.model o = Some f ->
  (forall st, exists n, f st = Py.Ret n /\ n <> "FINISH"%string) ->
  forall st, Supervisor.ainvoke o clock turns st = Py.Raise "GraphRecursionError".
Proof.
  intros Hm Hf. induction turns as [| k IH]; intros st; [reflexivity |].
  cbn [Supervisor.ainvoke]. unfold Supervisor.supervisor_node. rewrite Hm.
  destruct (Hf st) as [n [Hn Hne]]. rewrite Hn. cbn [Py.bind].
  destruct (negb (Py.list_in n Supervisor.agents) && negb (String.eqb n "FINISH")).
  - cbn. apply IH.
  - apply String.eqb_neq in Hne. rewrite Hne. apply IH.
Qed.

(** X20. A chat model that always answers, and never with FINISH, makes
    every orchestration end in GraphRecursionError, whatever the recursion
    limit and whatever the agents return: no result is ever formatted. *)
Theorem never_finishing_model_exhausts_the_graph (o : Supervisor.Orchestrator)
    (clock : nat -> Api.Clock) (f : Supervisor.AgentState -> Py.exc string)
    (t : Txn.Dict) :
  Supervisor.model o = Some f ->
  (forall st, exists n, f st = Py.Ret n /\ n <> "FINISH"%string) ->
  Supervisor.process_transaction o clock t = Py.Raise "GraphRecursionError".
Proof.
  intros Hm Hf. unfold Supervisor.process_transaction.
  now rewrite (never_finishing_run o clock f _ Hm Hf).
Qed.

(** A chat model that always routes to the compliance agent. *)
Lemma never_finishing_model_exhausts_the_graph_witness :
  Supervisor.process_transaction Cases.looping_orchestrator
    (fun _ => Scenario.clock) (Api.model_dump Scenario.office_depot)
  = Py.Raise "GraphRecursionError".
Proof.
  apply (never_finishing_model_exhausts_the_graph Cases.looping_orchestrator
           (fun _ => Scenario.clock) (fun _ => Py.Ret "compliance"%string)).
  - reflexivity.
  - intros st. exists "compliance"%string. split; [reflexivity | discriminate].
Defined.

(* ================================================================== *)
(** ** The handlers, end to end *)
(* ================================================================== *)

(** The fraud branch of the aggregation is taken from a score of 0.7. *)
Lemma flagged_from_0_7 (s : R) :
  Py.list_in (Fraud.classify s) ["HIGH"; "CRITICAL"]%string = Py.ge s 0.7.
Proof.
  unfold Fraud.classify, Fraud.THRESHOLDS_CRITICAL, Fraud.THRESHOLDS_HIGH,
    Fraud.THRESHOLDS_MEDIUM.
  destruct (ge_cases s 0.85) as [[-> H1] | [-> H1]].
  - rewrite (ge_true s 0.7) by lra. reflexivity.
  - destruct (ge_cases s 0.7) as [[-> H2] | [-> H2]]; [reflexivity |].
    destruct (Py.ge s 0.5); reflexivity.
Qed.

(** X21. The disposition of the agent-backed handler, read off the facts
    its own response reports: REJECTED exactly on a sanctions hit;
    otherwise FLAGGED_FOR_REVIEW exactly from a fraud score of 0.7;
    otherwise REVIEW_REQUIRED exactly on a PEP hit or a policy violation;
    APPROVED only when none of these holds. *)
Theorem disposition_from_reported_facts (ag : Api.Agents) (ck : Api.Clock)
    (t : Transaction) (resp : Api.ProcessTransactionResponse) :
  Api.process_transaction ag ck t = Py.Ret resp ->
  let hit := Api.cc_sanctions_hit (Api.compliance_check resp) in
  let pep := Api.cc_pep_hit (Api.compliance_check resp) in
  let violations := Api.cc_violations (Api.compliance_check resp) in
  let score := Api.fa_score (Api.fraud_analysis resp) in
  (Api.overall_status resp = "REJECTED"%string <-> hit = true)
  /\ (Api.overall_status resp = "FLAGGED_FOR_REVIEW"%string
      <-> hit = false /\ (0.7 <= score)%R)
  /\ (Api.overall_status resp = "REVIEW_REQUIRED"%string
      <-> hit = false /\ (score < 0.7)%R /\ (pep = true \/ violations <> []))
  /\ (Api.overall_status resp = "APPROVED"%string
      <-> hit = false /\ (score < 0.7)%R /\ pep = false /\ violations = []).
Proof.
  intros H. apply api_process_transaction_inv in H.
  destruct H as [c [s [Hc [_ ->]]]].
  unfold Api.compliance_step in Hc. apply check_compliance_inv in Hc.
  destruct Hc as [ps [_ ->]].
  cbv zeta. unfold Api.response, Api.determine_overall_status, assessment.
  cbn [Api.overall_status Api.compliance_check Api.fraud_analysis
       Api.cc_sanctions_hit Api.cc_pep_hit Api.cc_violations Api.fa_score
       Compliance.status Compliance.sanctions_hit Compliance.pep_hit
       Compliance.policy_violations].
  unfold Api.fraud_step.
  rewrite (reported_tier_is_tier_of_score (Api.runtime ag) (Api.detectors ag)
             (Api.now_features ck) (Api.now_rules ck) (Api.model_dump t)).
  rewrite flagged_from_0_7.
  set (score := Fraud.overall_score _).
  set (hit := fst (Compliance._check_sanctions _ _)).
  set (pep := fst (Compliance._check_pep _ _)).
  set (vs := Compliance._check_policy_violations _ ps).
  destruct (ge_cases score 0.7) as [[-> Hs] | [-> Hs]];
    destruct (determine_status_cases hit pep vs)
      as [[Hh ->] | [[Hh [Hpv ->]] | [Hh [Hp [Hv ->]]]]];
    rewrite Hh; cbn [String.eqb Ascii.eqb Bool.eqb];
    repeat split; intros; try discriminate; try reflexivity; try lra;
    try tauto;
    repeat match goal with
           | H : _ /\ _ |- _ => destruct H
           end;
    try discriminate; try lra; try congruence; try tauto;
    repeat match goal with
           | H : _ \/ _ |- _ => destruct H
           end;
    congruence.
Qed.

(** The request of the specification that must be approved. *)
Lemma disposition_from_reported_facts_witness :
  let ag := Scenario.agents Scenario.failing_detectors Scenario.services in
  let c := assessment Scenario.compliance_agent
             (Api.now_compliance Scenario.clock)
             (Api.model_dump Scenario.office_depot)
             (retrieved Scenario.compliance_agent [0%R; 0%R] 3) in
  let resp :=
    Api.response Scenario.office_depot
      (Api.fraud_step ag Scenario.clock Scenario.office_depot) c
      {| Api.total_spend := 450; Api.budget_utilization := 0.0225 |}
      (Api.determine_overall_status
         (Api.fraud_step ag Scenario.clock Scenario.office_depot) c)
      (Api.now_response Scenario.clock) in
  let hit := Api.cc_sanctions_hit (Api.compliance_check resp) in
  let pep := Api.cc_pep_hit (Api.compliance_check resp) in
  let violations := Api.cc_violations (Api.compliance_check resp) in
  let score := Api.fa_score (Api.fraud_analysis resp) in
  (Api.overall_status resp = "REJECTED"%string <-> hit = true)
  /\ (Api.overall_status resp = "FLAGGED_FOR_REVIEW"%string
      <-> hit = false /\ (0.7 <= score)%R)
  /\ (Api.overall_status resp = "REVIEW_REQUIRED"%string
      <-> hit = false /\ (score < 0.7)%R /\ (pep = true \/ violations <> []))
  /\ (Api.overall_status resp = "APPROVED"%string
      <-> hit = false /\ (score < 0.7)%R /\ pep = false /\ violations = []).
Proof.
  intros ag c resp.
  apply (disposition_from_reported_facts ag Scenario.clock Scenario.office_depot resp).
  destruct (scenario_response Scenario.failing_detectors Scenario.office_depot)
    as [c' [_ [-> H]]].
  exact H.
Defined.

Lemma process_each_spec (ag : Api.Agents) (clock : nat -> Api.Clock)
    (transactions : list Transaction) :
  forall i results,
    Api.process_each ag clock i transactions = Py.Ret results ->
    List.length results = List.length transactions
    /\ forall j t,
         nth_error transactions j = Some t ->
         exists resp,
           nth_error results j = Some resp
           /\ Api.process_transaction ag (clock (i + j)%nat) t = Py.Ret resp.
Proof.
  induction transactions as [| t0 rest IH]; intros i results H.
  - apply ret_inj in H. subst results. split; [reflexivity |].
    intros [| j] t Hj; discriminate.
  - cbn [Api.process_each] in H.
    apply bind_ret_inv in H. destruct H as [r0 [H0 H]].
    apply bind_ret_inv in H. destruct H as [rs [Hrs H]].
    apply ret_inj in H. subst results.
    apply IH in Hrs. destruct Hrs as [Hlen Hnth].
    split; [simpl; now rewrite Hlen |].
    intros [| j] t Hj.
    + cbn in Hj. injection Hj as <-. exists r0. rewrite Nat.add_0_r. auto.
    + cbn in Hj. destruct (Hnth j t Hj) as [resp [Hr Hp]].
      exists resp. split; [exact Hr |].
      now replace (i + S j)%nat with (S i + j)%nat by lia.
Qed.

Lemma process_each_returns (ag : Api.Agents) (clock : nat -> Api.Clock)
    (transactions : list Transaction) :
  forall i,
    (forall j t, nth_error transactions j = Some t ->
       exists resp, Api.process_transaction ag (clock (i + j)%nat) t = Py.Ret resp) ->
    exists results, Api.process_each ag clock i transactions = Py.Ret results.
Proof.
  induction transactions as [| t0 rest IH]; intros i Hall.
  - exists []. reflexivity.
  - destruct (Hall 0%nat t0 eq_refl) as [r0 H0]. rewrite Nat.add_0_r in H0.
    destruct (IH (S i)) as [rs Hrs].
    { intros j t Hj. destruct (Hall (S j) t Hj) as [resp Hr]. exists resp.
      now replace (S i + j)%nat with (i + S j)%nat by lia. }
    exists (r0 :: rs). cbn [Api.process_each]. rewrite H0. cbn [Py.bind].
    rewrite Hrs. reflexivity.
Qed.

(** X22. The batch handler is all or nothing. When it returns, there is
    one response per request, in request order, each the response the
    single-transaction handler returns for that request, and
    [processed_count] is the number of requests. It returns exactly when
    every request of the batch returns; otherwise the caller gets an HTTP
    500 error and none of the responses already computed. *)
Theorem batch_is_all_or_nothing (ag : Api.Agents) (clock : nat -> Api.Clock)
    (now : string) (transactions : list Transaction) :
  (forall r,
     Api.batch_process ag clock now transactions = Py.Ret r ->
     Api.processed_count r = List.length transactions
     /\ List.length (Api.results r) = List.length transactions
     /\ Api.batch_timestamp r = now
     /\ forall j t,
          nth_error transactions j = Some t ->
          exists resp,
            nth_error (Api.results r) j = Some resp
            /\ Api.process_transaction ag (clock j) t = Py.Ret resp)
  /\ ((exists r, Api.batch_process ag clock now transactions = Py.Ret r)
      <-> forall j t,
            nth_error transactions j = Some t ->
            exists resp, Api.process_transaction ag (clock j) t = Py.Ret resp)
  /\ ((exists r, Api.batch_process ag clock now transactions = Py.Ret r)
      \/ exists e,
           Api.batch_process ag clock now transactions
           = Py.Raise (Api.http_500 e)).
Proof.
  split; [| split].
  - intros r H. unfold Api.batch_process in H.
    apply try_reraise_ret_inv in H.
    apply bind_ret_inv in H. destruct H as [rs [Hrs H]].
    apply ret_inj in H. subst r.
    apply process_each_spec in Hrs. destruct Hrs as [Hlen Hnth].
    cbn [Api.processed_count Api.results Api.batch_timestamp].
    split; [exact Hlen |]. split; [exact Hlen |]. split; [reflexivity |].
    exact Hnth.
  - split.
    + intros [r H] j t Hj. unfold Api.batch_process in H.
      apply try_reraise_ret_inv in H.
      apply bind_ret_inv in H. destruct H as [rs [Hrs _]].
      apply process_each_spec in Hrs. destruct Hrs as [_ Hnth].
      destruct (Hnth j t Hj) as [resp [_ Hp]]. now exists resp.
    + intros Hall.
      destruct (process_each_returns ag clock transactions 0%nat Hall) as [rs Hrs].
      eexists. unfold Api.batch_process. rewrite Hrs. reflexivity.
  - unfold Api.batch_process.
    destruct (Api.process_each ag clock 0 transactions) as [rs | e].
    + left. eexists. reflexivity.
    + right. exists e. reflexivity.
Qed.

(* ================================================================== *)
(** ** The standalone handlers *)
(* ================================================================== *)

Lemma budget_positive (c : string) :
  (0 < Standalone.budgets_get Standalone.budgets c 25000)%R.
Proof.
  unfold Standalone.budgets. cbn [Standalone.budgets_get].
  repeat match goal with
         | |- context [String.eqb ?a ?b] => destruct (String.eqb a b)
         end; lra.
Qed.

(** X23. The standalone spend analysis never reports a transaction as over
    budget: the utilisation is capped at 1 before it is compared with 1.
    The budget limit is positive for every category, the utilisation is
    exactly 1 from the limit upwards and the plain ratio below it. *)
Theorem over_budget_is_never_reported (t : Transaction) :
  let r := Standalone.simulate_spend_analysis t in
  Standalone.over_budget r = false
  /\ (Standalone.budget_utilization r <= 1)%R
  /\ (0 < Standalone.budget_limit r)%R
  /\ ((Standalone.budget_limit r <= amount t)%R ->
      Standalone.budget_utilization r = 1%R)
  /\ ((amount t < Standalone.budget_limit r)%R ->
      Standalone.budget_utilization r
      = (amount t / Standalone.budget_limit r)%R).
Proof.
  cbv zeta. unfold Standalone.simulate_spend_analysis.
  cbn [Standalone.over_budget Standalone.budget_utilization
       Standalone.budget_limit].
  pose proof (budget_positive (category t)) as Hb.
  set (b := Standalone.budgets_get Standalone.budgets (category t) 25000) in *.
  clearbody b.
  assert (Hmin : (Rmin (amount t / b) 1 <= 1)%R) by apply Rmin_r.
  split; [apply gt_false; exact Hmin |].
  split; [exact Hmin |]. split; [exact Hb |]. split.
  - intros Hle. apply Rmin_right.
    apply (Rmult_le_reg_r b); [exact Hb |].
    unfold Rdiv. rewrite Rmult_assoc, Rinv_l by lra. lra.
  - intros Hlt. apply Rmin_left.
    apply (Rmult_le_reg_r b); [exact Hb |].
    unfold Rdiv. rewrite Rmult_assoc, Rinv_l by lra. lra.
Qed.

(** X24. The disposition of the standalone handler in terms of the
    request: REJECTED exactly when the merchant name contains one of the
    four suspicious terms; otherwise FLAGGED_FOR_REVIEW exactly when the
    amount is above 15000; otherwise REVIEW_REQUIRED exactly when the name
    contains "government" or "official"; otherwise APPROVED. The fraud tier
    is never CRITICAL. *)
Theorem standalone_disposition (now : string) (t : Transaction) :
  let resp := Standalone.process_transaction now t in
  let name := Py.lower (merchant t) in
  let listed :=
    existsb (fun term => Py.str_in term name) Standalone.suspicious_terms in
  let exposed := Py.str_in "government" name || Py.str_in "official" name in
  (Standalone.overall_status resp = "REJECTED"%string <-> listed = true)
  /\ (Standalone.overall_status resp = "FLAGGED_FOR_REVIEW"%string
      <-> listed = false /\ (15000 < amount t)%R)
  /\ (Standalone.overall_status resp = "REVIEW_REQUIRED"%string
      <-> listed = false /\ (amount t <= 15000)%R /\ exposed = true)
  /\ (Standalone.overall_status resp = "APPROVED"%string
      <-> listed = false /\ (amount t <= 15000)%R /\ exposed = false)
  /\ Standalone.risk_level (Standalone.fraud_analysis resp) <> "CRITICAL"%string.
Proof.
  cbv zeta. unfold Standalone.process_transaction.
  cbn [Standalone.overall_status Standalone.fraud_analysis].
  unfold Standalone.determine_overall_status, Standalone.simulate_fraud_detection,
    Standalone.simulate_compliance_check.
  set (listed := existsb _ Standalone.suspicious_terms).
  set (exposed := (Py.str_in "government" _ || Py.str_in "official" _)%bool).
  destruct (gt_cases (amount t) 15000) as [[-> Ha] | [-> Ha]];
    [| destruct (gt_cases (amount t) 5000) as [[-> Hb] | [-> Hb]]];
    destruct listed; destruct exposed;
    cbn [Standalone.status Standalone.risk_level];
    repeat split; intros;
    repeat match goal with
           | H : _ /\ _ |- _ => destruct H
           end;
    try discriminate; try reflexivity; try lra.
Qed.

Lemma sum_app_one (xs : list R) (x : R) :
  Py.sum (xs ++ [x]) = (Py.sum xs + x)%R.
Proof. unfold Py.sum. now rewrite fold_left_app. Qed.

Lemma sum_app_nonneg (xs more : list R) :
  Forall (fun x => (0 <= x)%R) more -> (Py.sum xs <= Py.sum (xs ++ more))%R.
Proof.
  intros H. revert xs. induction H as [| x more Hx _ IH]; intros xs.
  - rewrite app_nil_r. lra.
  - replace (xs ++ x :: more) with ((xs ++ [x]) ++ more)
      by (rewrite <- app_assoc; reflexivity).
    specialize (IH (xs ++ [x])). rewrite sum_app_one in IH. lra.
Qed.

(** What [simulate_vendor_analysis] reports, by the total spend. *)
Lemma vendor_bands (secret : CPython.HashSecret) (name : string)
    (ts : list Transaction) :
  let r := Standalone.simulate_vendor_analysis secret name ts in
  let total := Py.sum (map amount ts) in
  ((50000 < total)%R
   /\ Standalone.vendor_risk_level r = "HIGH"%string
   /\ Standalone.vendor_risk_score r = 0.7%R
   /\ Standalone.vendor_risk_factors r = [Standalone.HighTotalSpend total]
   /\ Standalone.vendor_recommendations r = ["Monitor closely"%string])
  \/ ((20000 < total <= 50000)%R
      /\ Standalone.vendor_risk_level r = "MEDIUM"%string
      /\ Standalone.vendor_risk_score r = 0.4%R
      /\ Standalone.vendor_risk_factors r = []
      /\ Standalone.vendor_recommendations r
         = ["Continue standard monitoring"%string])
  \/ ((total <= 20000)%R
      /\ Standalone.vendor_risk_level r = "LOW"%string
      /\ Standalone.vendor_risk_score r = 0.2%R
      /\ Standalone.vendor_risk_factors r = []
      /\ Standalone.vendor_recommendations r
         = ["Continue standard monitoring"%string]).
Proof.
  cbv zeta. unfold Standalone.simulate_vendor_analysis.
  destruct (gt_cases (Py.sum (map amount ts)) 50000) as [[-> H1] | [-> H1]].
  - left. repeat split; try reflexivity; lra.
  - destruct (gt_cases (Py.sum (map amount ts)) 20000) as [[-> H2] | [-> H2]].
    + right. left. repeat split; try reflexivity; lra.
    + right. right. repeat split; try reflexivity; lra.
Qed.

(** X25. In the standalone vendor analysis further spending never lowers
    a vendor's risk: after any number of further transactions with
    non-negative amounts the tier and the risk score are at least what
    they were, and the transaction count is the sum of the two counts. A
    vendor with no transaction is LOW with average amount 0. *)
Theorem more_spend_never_lowers_vendor_risk (secret : CPython.HashSecret)
    (name : string) (ts more : list Transaction) :
  Forall (fun t => (0 <= amount t)%R) more ->
  let before := Standalone.simulate_vendor_analysis secret name ts in
  let after := Standalone.simulate_vendor_analysis secret name (ts ++ more) in
  let empty := Standalone.simulate_vendor_analysis secret name [] in
  (tier_rank (Standalone.vendor_risk_level before)
   <= tier_rank (Standalone.vendor_risk_level after))%nat
  /\ (Standalone.vendor_risk_score before
      <= Standalone.vendor_risk_score after)%R
  /\ (Standalone.vendor_total_spend before
      <= Standalone.vendor_total_spend after)%R
  /\ Standalone.transaction_count after
     = (Standalone.transaction_count before + List.length more)%nat
  /\ Standalone.vendor_risk_level empty = "LOW"%string
  /\ Standalone.avg_transaction_amount empty = 0%R.
Proof.
  intros Hmore. cbv zeta.
  assert (Hsum : (Py.sum (map amount ts) <= Py.sum (map amount (ts ++ more)))%R).
  { rewrite map_app. apply sum_app_nonneg.
    apply Forall_map. exact Hmore. }
  assert (Hempty : Py.sum (map amount []) = 0%R) by reflexivity.
  destruct (vendor_bands secret name ts)
    as [[B1 [L1 [S1 _]]] | [[B1 [L1 [S1 _]]] | [B1 [L1 [S1 _]]]]];
    destruct (vendor_bands secret name (ts ++ more))
      as [[B2 [L2 [S2 _]]] | [[B2 [L2 [S2 _]]] | [B2 [L2 [S2 _]]]]];
    destruct (vendor_bands secret name [])
      as [[B0 [L0 _]] | [[B0 [L0 _]] | [B0 [L0 _]]]];
    try (rewrite Hempty in B0; lra);
    try lra;
    rewrite L1, L2, S1, S2;
    (split; [cbn; lia |]); (split; [lra |]);
    (split; [unfold Standalone.simulate_vendor_analysis;
             repeat match goal with
                    | |- context [Py.gt ?a ?b] => destruct (Py.gt a b)
                    end; exact Hsum |]);
    (split; [unfold Standalone.simulate_vendor_analysis;
             repeat match goal with
                    | |- context [Py.gt ?a ?b] => destruct (Py.gt a b)
                    end;
             cbn [Standalone.transaction_count]; apply length_app |]);
    (split; [exact L0 |]);
    unfold Standalone.simulate_vendor_analysis;
    repeat match goal with
           | |- context [Py.gt ?a ?b] => destruct (Py.gt a b)
           end; reflexivity.
Qed.

(** A vendor at 450 gets a further invoice of 50 000. *)
Lemma more_spend_never_lowers_vendor_risk_witness :
  let secret := CPython.secret_of_seed 1 in
  let before :=
    Standalone.simulate_vendor_analysis secret "Acme Corp"
      [Scenario.office_depot] in
  let after :=
    Standalone.simulate_vendor_analysis secret "Acme Corp"
      ([Scenario.office_depot] ++ [Scenario.suspicious_corp]) in
  let empty := Standalone.simulate_vendor_analysis secret "Acme Corp" [] in
  (tier_rank (Standalone.vendor_risk_level before)
   <= tier_rank (Standalone.vendor_risk_level after))%nat
  /\ (Standalone.vendor_risk_score before
      <= Standalone.vendor_risk_score after)%R
  /\ (Standalone.vendor_total_spend before
      <= Standalone.vendor_total_spend after)%R
  /\ Standalone.transaction_count after
     = (Standalone.transaction_count before + 1)%nat
  /\ Standalone.vendor_risk_level empty = "LOW"%string
  /\ Standalone.avg_transaction_amount empty = 0%R.
Proof.
  apply (more_spend_never_lowers_vendor_risk (CPython.secret_of_seed 1)
           "Acme Corp" [Scenario.office_depot] [Scenario.suspicious_corp]).
  constructor; [| constructor].
  cbn [amount Scenario.suspicious_corp]. lra.
Defined.

Lemma string_length_app (s1 s2 : string) :
  String.length (s1 ++ s2) = (String.length s1 + String.length s2)%nat.
Proof. induction s1 as [| c s1 IH]; simpl; [reflexivity | now rewrite IH]. Qed.

Lemma string_of_repeat_length (c : ascii) (n : nat) :
  String.length (string_of_list_ascii (repeat c n)) = n.
Proof. induction n as [| n IH]; simpl; [reflexivity | now rewrite IH]. Qed.

(** A number below [10^k] has at most [k] decimal digits. *)
Lemma decimal_length (fuel : nat) :
  forall (n : Z) (acc : string) (k : nat),
    (0 <= n < 10 ^ Z.of_nat (S k))%Z ->
    (String.length (Standalone.decimal fuel n acc) <= S k + String.length acc)%nat.
Proof.
  induction fuel as [| fuel IH]; intros n acc k Hn; cbn [Standalone.decimal].
  - lia.
  - destruct (Z.eqb_spec (n / 10) 0) as [Hz | Hz].
    + cbn [String.length]. lia.
    + destruct k as [| k].
      * exfalso. apply Hz. apply Z.div_small. change (10 ^ Z.of_nat 1)%Z with 10%Z in Hn.
        lia.
      * specialize (IH (n / 10)%Z
                       (String (ascii_of_nat (48 + Z.to_nat (n mod 10))) acc) k).
        cbn [String.length] in IH.
        assert (Hdiv : (0 <= n / 10 < 10 ^ Z.of_nat (S k))%Z).
        { split; [apply Z.div_pos; lia |].
          apply Z.div_lt_upper_bound; [lia |].
          replace (10 * 10 ^ Z.of_nat (S k))%Z with (10 ^ Z.of_nat (S (S k)))%Z;
            [lia |].
          rewrite (Nat2Z.inj_succ (S k)), Z.pow_succ_r by lia. reflexivity. }
        specialize (IH Hdiv). lia.
Qed.

Lemma format_05d_length (n : Z) :
  (0 <= n < 100000)%Z -> String.length (Standalone.format_05d n) = 5%nat.
Proof.
  intros Hn. unfold Standalone.format_05d.
  rewrite string_length_app, string_of_repeat_length.
  pose proof (decimal_length (S (Z.to_nat (Z.log2 n))) n "" 4 Hn) as H.
  cbn [String.length] in H. lia.
Qed.

(** X26. The vendor id of the standalone vendor analysis is always "VND-"
    followed by exactly five characters, also when the name's hash is
    negative, and it depends on the vendor name and the process's hash key
    only, not on the transactions. *)
Theorem vendor_id_shape (secret : CPython.HashSecret) (name : string)
    (ts ts' : list Transaction) :
  let r := Standalone.simulate_vendor_analysis secret name ts in
  String.prefix "VND-" (Standalone.vendor_id r) = true
  /\ String.length (Standalone.vendor_id r) = 9%nat
  /\ Standalone.vendor_name r = name
  /\ Standalone.vendor_id r
     = Standalone.vendor_id (Standalone.simulate_vendor_analysis secret name ts').
Proof.
  cbv zeta. unfold Standalone.simulate_vendor_analysis.
  repeat match goal with
         | |- context [Py.gt ?a ?b] => destruct (Py.gt a b)
         end;
    cbn [Standalone.vendor_id Standalone.vendor_name];
    (split; [apply prefix_app |]);
    (split; [rewrite string_length_app, format_05d_length;
             [reflexivity | apply Z.mod_pos_bound; lia] |]);
    (split; reflexivity).
Qed.

(* ================================================================== *)
(** ** What reaches the policy screen *)
(* ================================================================== *)

Lemma index_returns_member (texts : list string) (i : Z) (p : string) :
  Py.index texts i = Py.Ret p -> In p texts.
Proof.
  unfold Py.index. intros H.
  destruct ((0 <=? _) && (_ <? _))%Z; [| discriminate].
  destruct (nth_error texts _) as [x |] eqn:Hn; [| discriminate].
  apply ret_inj in H. subst x. eapply nth_error_In. exact Hn.
Qed.

Lemma mapM_index_members (texts : list string) (labels : list Z) :
  forall ps,
    Py.mapM (fun idx => Py.index texts idx) labels = Py.Ret ps ->
    Forall (fun p => In p texts) ps.
Proof.
  induction labels as [| i rest IH]; intros ps H.
  - apply ret_inj in H. subst ps. constructor.
  - cbn [Py.mapM] in H.
    apply bind_ret_inv in H. destruct H as [p [Hp H]].
    apply bind_ret_inv in H. destruct H as [qs [Hqs H]].
    apply ret_inj in H. subst ps. constructor.
    + now apply index_returns_member in Hp.
    + now apply IH.
Qed.

(** Retrieval only returns texts of the corpus. *)
Lemma retrieved_texts_are_stored (sv : Compliance.Services) (a : Compliance.Agent)
    (t : Txn.Dict) (k : nat) (ps : list string) :
  Compliance._retrieve_relevant_policies sv a t k = Py.Ret ps ->
  Forall (fun p => In p (Compliance.policy_texts a)) ps.
Proof.
  unfold Compliance._retrieve_relevant_policies. intros H.
  apply bind_ret_inv in H. destruct H as [q [_ H]].
  apply bind_ret_inv in H. destruct H as [found [_ H]].
  now apply mapM_index_members in H.
Qed.

Lemma seeded_policies_lack_the_bids_phrase (p : string) :
  In p Compliance.initial_policy_texts ->
  Py.str_in "above $25,000" (Py.lower p) = false.
Proof.
  unfold Compliance.initial_policy_texts. intros H.
  repeat (destruct H as [<- | H]; [vm_compute; reflexivity |]).
  destruct H.
Qed.

(** X27. With the seeded policy corpus the competitive-bids rule never
    fires: the seeded text reads "over $25,000" and the rule looks for
    "above $25,000". A transaction with manager approval whose category
    mentions neither entertainment nor travel has no policy violation,
    whatever its amount and whether or not bids were obtained. *)
Theorem seeded_policies_never_ask_for_bids (sv : Compliance.Services)
    (a : Compliance.Agent) (now : string) (t : Txn.Dict)
    (r : Compliance.ComplianceResult) :
  Compliance.policy_texts a = Compliance.initial_policy_texts ->
  Compliance.check_compliance sv a now t = Py.Ret r ->
  Txn.manager_approval t = true ->
  Py.str_in "entertainment" (Py.lower (Py.get (Txn.category t) ""%string)) = false ->
  Py.str_in "travel" (Py.lower (Py.get (Txn.category t) ""%string)) = false ->
  Compliance.policy_violations r = [].
Proof.
  intros Htexts H Happr Hent Htrav.
  apply check_compliance_inv in H. destruct H as [ps [Hps ->]].
  apply retrieved_texts_are_stored in Hps. rewrite Htexts in Hps.
  unfold assessment. cbn [Compliance.policy_violations].
  unfold Compliance._check_policy_violations.
  induction Hps as [| p ps Hp _ IH]; [reflexivity |].
  cbn [flat_map]. rewrite IH. unfold Compliance.policy_checks.
  rewrite Happr, Hent, Htrav, (seeded_policies_lack_the_bids_phrase p Hp).
  cbn [negb andb]. now rewrite !andb_false_r.
Qed.

(** One million to a consultancy, approved by a manager, no bids. *)
Lemma seeded_policies_never_ask_for_bids_witness :
  Compliance.policy_violations
    (assessment Scenario.compliance_agent "2025-01-15T09:00:00.000001"
       Cases.approved_vendor_payment
       (retrieved Scenario.compliance_agent [0%R; 0%R] 3)) = [].
Proof.
  apply (seeded_policies_never_ask_for_bids Scenario.services
           Scenario.compliance_agent "2025-01-15T09:00:00.000001"
           Cases.approved_vendor_payment).
  - reflexivity.
  - apply (check_compliance_returns _ _ _ _ [0%R; 0%R]);
      [reflexivity | discriminate | reflexivity].
  - reflexivity.
  - reflexivity.
  - reflexivity.
Defined.

Lemma overall_approved_inv (f : Fraud.FraudScore) (c : Compliance.ComplianceResult) :
  Api.determine_overall_status f c = "APPROVED"%string ->
  Compliance.status c <> "REJECTED"%string
  /\ Compliance.status c <> "REVIEW_REQUIRED"%string.
Proof.
  unfold Api.determine_overall_status.
  destruct (String.eqb_spec (Compliance.status c) "REJECTED") as [E1 | E1];
    [discriminate |].
  destruct (Py.list_in (Fraud.risk_level f) ["HIGH"; "CRITICAL"]%string);
    [discriminate |].
  destruct (String.eqb_spec (Compliance.status c) "REVIEW_REQUIRED") as [E2 | E2];
    [discriminate |].
  auto.
Qed.

(** X28. A request to the agent-backed handler cannot carry a manager
    approval: the request model has no such field, so the flag is always
    read as absent. Whenever the amount is above 10000 and one of the
    reviewed policies contains "above $10,000", that policy is reported as
    violated, the compliance status is not APPROVED, and the response's
    overall status is not APPROVED either. *)
Theorem api_requests_cannot_carry_approvals (ag : Api.Agents) (ck : Api.Clock)
    (t : Transaction) (c : Compliance.ComplianceResult) (p : string) :
  Api.compliance_step ag ck t = Py.Ret c ->
  (10000 < amount t)%R ->
  In p (Compliance.reviewed_policies c) ->
  Py.str_in "above $10,000" (Py.lower p) = true ->
  In ("Policy violation: " ++ p)%string (Compliance.policy_violations c)
  /\ Compliance.status c <> "APPROVED"%string
  /\ forall resp,
       Api.process_transaction ag ck t = Py.Ret resp ->
       Api.overall_status resp <> "APPROVED"%string.
Proof.
  intros Hc Hamt Hin Hp.
  assert (Hstep := Hc).
  unfold Api.compliance_step in Hc. apply check_compliance_inv in Hc.
  destruct Hc as [ps [_ ->]].
  unfold assessment in Hin. cbn [Compliance.reviewed_policies] in Hin.
  assert (Hv : In ("Policy violation: " ++ p)%string
                 (Compliance._check_policy_violations (Api.model_dump t) ps)).
  { unfold Compliance._check_policy_violations. apply in_flat_map.
    exists p. split; [exact Hin |].
    unfold Compliance.policy_checks. rewrite Hp.
    cbn [Api.model_dump Txn.amount Txn.manager_approval Py.get negb andb].
    rewrite (gt_true (amount t) 10000) by lra.
    left. reflexivity. }
  assert (Hs : Compliance.status
                 (assessment (Api.compliance_agent ag) (Api.now_compliance ck)
                    (Api.model_dump t) ps) <> "APPROVED"%string).
  { unfold assessment. cbn [Compliance.status].
    set (hit := fst (Compliance._check_sanctions _ _)).
    set (pep := fst (Compliance._check_pep _ _)).
    set (vs := Compliance._check_policy_violations _ ps) in *.
    destruct (determine_status_cases hit pep vs)
      as [[_ ->] | [[_ [_ ->]] | [_ [_ [Hnil _]]]]];
      [discriminate | discriminate |].
    rewrite Hnil in Hv. destruct Hv. }
  split; [exact Hv |]. split; [exact Hs |].
  intros resp Hr. apply api_process_transaction_inv in Hr.
  destruct Hr as [c' [s [Hc' [_ ->]]]].
  rewrite Hstep in Hc'. apply ret_inj in Hc'. subst c'.
  cbn [Api.response Api.overall_status]. intros Happ.
  apply overall_approved_inv in Happ. destruct Happ as [N1 N2].
  revert Hs N1 N2. unfold assessment. cbn [Compliance.status].
  set (hit := fst (Compliance._check_sanctions _ _)).
  set (pep := fst (Compliance._check_pep _ _)).
  set (vs := Compliance._check_policy_violations _ ps).
  destruct (determine_status_cases hit pep vs)
    as [[_ ->] | [[_ [_ ->]] | [_ [_ [_ ->]]]]]; congruence.
Qed.

(** A purchase of 12 000 screened against the manager-approval policy. *)
Lemma api_requests_cannot_carry_approvals_witness :
  let p := "All transactions above $10,000 require manager approval and documented business justification."%string in
  let c := assessment Cases.one_policy_agent (Api.now_compliance Scenario.clock)
             (Api.model_dump Cases.large_purchase)
             (retrieved Cases.one_policy_agent [0%R; 0%R] 3) in
  In ("Policy violation: " ++ p)%string (Compliance.policy_violations c)
  /\ Compliance.status c <> "APPROVED"%string
  /\ forall resp,
       Api.process_transaction Cases.one_policy_agents Scenario.clock
         Cases.large_purchase = Py.Ret resp ->
       Api.overall_status resp <> "APPROVED"%string.
Proof.
  intros p c.
  apply (api_requests_cannot_carry_approvals Cases.one_policy_agents
           Scenario.clock Cases.large_purchase c p).
  - unfold Api.compliance_step.
    apply (check_compliance_returns _ _ _ _ [0%R; 0%R]);
      [reflexivity | discriminate | reflexivity].
  - cbn [amount Cases.large_purchase]. lra.
  - left. reflexivity.
  - reflexivity.
Defined.

(** X29. Through the agent-backed handler the compliance step reads the
    amount, the merchant and the category of a request and nothing else:
    two requests that agree on these three get the same compliance
    outcome, whatever their ids, users, timestamps, locations and
    descriptions. In particular the description is never screened. *)
Theorem compliance_reads_three_fields (ag : Api.Agents) (ck : Api.Clock)
    (t t' : Transaction) :
  amount t = amount t' ->
  merchant t = merchant t' ->
  category t = category t' ->
  Api.compliance_step ag ck t = Api.compliance_step ag ck t'.
Proof.
  destruct t as [id amt mer cat usr ts loc descr].
  destruct t' as [id' amt' mer' cat' usr' ts' loc' descr'].
  cbn [amount merchant category]. intros -> -> ->.
  reflexivity.
Qed.

(** The approved request, with and without its timestamp. *)
Lemma compliance_reads_three_fields_witness :
  Api.compliance_step
    (Scenario.agents Scenario.failing_detectors Scenario.services)
    Scenario.clock Scenario.office_depot
  = Api.compliance_step
      (Scenario.agents Scenario.failing_detectors Scenario.services)
      Scenario.clock Scenario.office_depot_untimed.
Proof.
  apply (compliance_reads_three_fields
           (Scenario.agents Scenario.failing_detectors Scenario.services)
           Scenario.clock Scenario.office_depot Scenario.office_depot_untimed);
    reflexivity.
Defined.

(** X30. The standalone fraud simulation does not follow the score bands
    of the fraud agent: for an amount above 5000 and up to 15000 it
    reports MEDIUM with the score 0.45, which the agent's thresholds rank
    LOW; for every other amount its tier is the agent's tier of its
    score. *)
Theorem standalone_tiers_against_agent_bands (t : Transaction) :
  let r := Standalone.simulate_fraud_detection t in
  (Standalone.risk_level r = Fraud.classify (Standalone.fraud_score r)
   <-> ~ (5000 < amount t <= 15000)%R)
  /\ ((5000 < amount t <= 15000)%R ->
      Standalone.risk_level r = "MEDIUM"%string
      /\ Fraud.classify (Standalone.fraud_score r) = "LOW"%string).
Proof.
  cbv zeta. unfold Standalone.simulate_fraud_detection.
  assert (C1 : Fraud.classify 0.75 = "HIGH"%string)
    by (apply classify_bands; lra).
  assert (C2 : Fraud.classify 0.45 = "LOW"%string)
    by (apply classify_bands; lra).
  assert (C3 : Fraud.classify 0.15 = "LOW"%string)
    by (apply classify_bands; lra).
  destruct (gt_cases (amount t) 15000) as [[-> Ha] | [-> Ha]];
    [| destruct (gt_cases (amount t) 5000) as [[-> Hb] | [-> Hb]]];
    cbn [Standalone.risk_level Standalone.fraud_score];
    rewrite ?C1, ?C2, ?C3;
    (split; [split; intros H; try reflexivity; try discriminate; try lra |
             intros H; try lra; split; reflexivity]).
Qed.
